(** * Blood smear analysis server: the analysis orchestration core

    A shallow embedding of [server/src/controllers/analysisController.js]:
    the mock result generator, the inference invoker, the four Mongoose
    collections it touches and the request handlers [createAnalysis],
    [processAnalysis] (with its deferred completion callback),
    [getAnalysisById] and [deleteAnalysis].

    Conventions of the embedding.
    - JavaScript numbers are exact rationals ([Q]); [Math.floor] and
      [Math.round] are the integer floor and round-half-up.  This leaves
      out the rounding of IEEE doubles, which the bounds proved here
      survive.  Where the last digit matters, in the counts of the cell
      rows, the code is modelled in binary64 as well ([Double]).
    - [Math.random()] is a stream of rationals read through a cursor.
    - Every awaited Mongoose call is a step of the [Db] monad; an oracle
      decides, per call, whether that call throws.  A call that throws
      leaves the collections as they were.
    - A request handler, and the deferred completion callback, run as one
      atomic step on the collections. *)

From Stdlib Require Import QArith Qround ZArith String List Permutation Lia Lqa.
From Stdlib Require Import SpecFloat.
From stdpp Require Import base option list gmap strings.
Import ListNotations.

Local Open Scope Z_scope.
Local Open Scope string_scope.

(** ** JavaScript primitives *)

Definition Math_floor (x : Q) : Z := Qfloor x.

(** [Math.round]: the nearest integer, ties towards +infinity. *)
Definition Math_round (x : Q) : Z := Qfloor (x + (1 # 2))%Q.

(** [Math.round(x * 100) / 100] *)
Definition round2 (x : Q) : Q := (inject_Z (Math_round (x * 100)) / 100)%Q.

(** [a > b] on numbers *)
Definition Qgtb (a b : Q) : bool := negb (Qle_bool a b).

(** [String.prototype.includes] *)
Fixpoint includes (s sub : string) : bool :=
  String.prefix sub s ||
  match s with
  | EmptyString => false
  | String _ s' => includes s' sub
  end.

(** [Array.prototype.sort] with a comparator is stable; [before a b] says
    that the comparator puts [a] strictly before [b]. *)
Section Sort.
Context {A : Type} (before : A -> A -> bool).

Fixpoint sort_insert (x : A) (l : list A) : list A :=
  match l with
  | [] => [x]
  | y :: l' => if before y x then y :: sort_insert x l' else x :: y :: l'
  end.

Fixpoint js_sort (l : list A) : list A :=
  match l with
  | [] => []
  | x :: l' => sort_insert x (js_sort l')
  end.
End Sort.

(** ** Data model *)

Definition Id := nat.
Definition Time := nat.

Inductive Status := pending | processing | completed | failed.

Inductive NotificationType := success | info | warning | error.

(** The content of a document of the Analysis collection. *)
Record AnalysisFields := {
  a_userId : Id;
  a_imageUrl : string;
  a_status : Status;
  a_diseaseDetected : option string;
  a_confidenceScore : option Q;
  a_rbcCount : option Z;
  a_wbcCount : option Z;
  a_plateletCount : option Z;
  a_analysisNotes : option string;
  a_completedAt : option Time
}.

(** A document of the Analysis collection: its [_id] and its content. *)
Record Analysis := {
  a_id : Id;
  a_fields : AnalysisFields
}.

Record CellAbnormalities := {
  parasitesDetected : bool;
  abnormalMorphology : bool;
  cellSizeVariation : bool
}.

(** One entry of [diseaseClassifications] in a result; [None] is the empty
    object [{}]. *)
Record ClassificationResult := {
  diseaseName : string;
  probability : Q;
  cellAbnormalities : option CellAbnormalities
}.

Record CellCountResult := {
  cellType : string;
  count : Z;
  percentage : Q;
  abnormalCount : Z
}.

(** The result object, as [generateMockAnalysisResults] builds it and as
    the inference script prints it. *)
Record AiResults := {
  diseaseDetected : string;
  confidenceScore : Q;
  rbcCount : Z;
  wbcCount : Z;
  plateletCount : Z;
  analysisNotes : string;
  diseaseClassifications : list ClassificationResult;
  cellCounts : list CellCountResult
}.

(** Stored detail rows: [{ analysisId: analysis._id, ...row }]. *)
Record DiseaseClassification := {
  dc_analysisId : Id;
  dc_row : ClassificationResult
}.

Record CellCount := {
  cc_analysisId : Id;
  cc_row : CellCountResult
}.

Record Notification := {
  n_userId : Id;
  n_title : string;
  n_message : string;
  n_type : NotificationType;
  n_analysisId : option Id
}.

#[global] Instance Status_eq_dec : EqDecision Status.
Proof. solve_decision. Defined.

#[global] Instance NotificationType_eq_dec : EqDecision NotificationType.
Proof. solve_decision. Defined.

(** ** Fixed tables *)

Definition DISEASE_TYPES : list string := [
  "Normal";
  "Malaria (Plasmodium)";
  "Babesia";
  "Leishmania";
  "Acute Lymphoblastic Leukemia";
  "Chronic Lymphocytic Leukemia";
  "Acute Myeloid Leukemia";
  "Chronic Myeloid Leukemia";
  "Anemia";
  "Thrombocytopenia"
].

Record CellTypeSpec := {
  name : string;
  normalRange : Q * Q
}.

Definition CELL_TYPES : list CellTypeSpec := [
  {| name := "Neutrophils"; normalRange := (40, 60)%Q |};
  {| name := "Lymphocytes"; normalRange := (20, 40)%Q |};
  {| name := "Monocytes"; normalRange := (2, 8)%Q |};
  {| name := "Eosinophils"; normalRange := (1, 4)%Q |};
  {| name := "Basophils"; normalRange := (0, 1)%Q |}
].

(** What the percentage bounds need of a row of [CELL_TYPES]. *)
Definition plausible_range (c : CellTypeSpec) : Prop :=
  (0 <= fst (normalRange c) /\ fst (normalRange c) <= snd (normalRange c)
   /\ snd (normalRange c) <= 100 /\ fst (normalRange c) + 30 <= 100)%Q.

(** ** The random source *)

(** [rnd k] is what the [k]-th call of [Math.random()] returns. *)
Definition RandomSource := nat -> Q.

Definition Rand (A : Type) : Type := RandomSource -> nat -> A * nat.

Definition rand_ret {A} (x : A) : Rand A := fun _ k => (x, k).

Definition rand_bind {A B} (m : Rand A) (f : A -> Rand B) : Rand B :=
  fun rnd k => let (a, k') := m rnd k in f a rnd k'.

Definition Math_random : Rand Q := fun rnd k => (rnd k, S k).

Declare Scope rand_scope.
Delimit Scope rand_scope with rand.
Notation "'let*' x ':=' m 'in' f" := (rand_bind m (fun x => f))
  (at level 10, x name, m at level 100, f at level 200) : rand_scope.

(** [arr.map((x, idx) => f idx x)], the callback drawing random numbers. *)
Fixpoint rand_mapi {A B} (f : nat -> A -> Rand B) (i : nat) (l : list A)
  : Rand (list B) :=
  match l with
  | [] => rand_ret []
  | x :: l' =>
      rand_bind (f i x) (fun y =>
      rand_bind (rand_mapi f (S i) l') (fun ys => rand_ret (y :: ys)))
  end.

(** ** generateMockAnalysisResults *)

Local Open Scope rand_scope.

(** The callback of [DISEASE_TYPES.map] (lines 68-85). *)
Definition classify (diseaseIndex : Z) (confidenceScore : Q)
    (idx : nat) (disease : string) : Rand ClassificationResult :=
  if Z.eqb (Z.of_nat idx) diseaseIndex then
    let* r := Math_random in
    rand_ret {| diseaseName := disease;
                probability := round2 confidenceScore;
                cellAbnormalities := Some
                  {| parasitesDetected :=
                       includes disease "Malaria" || includes disease "Babesia";
                     abnormalMorphology := includes disease "Leukemia";
                     cellSizeVariation := Qgtb r (1 # 2) |} |}
  else
    let* r := Math_random in
    rand_ret {| diseaseName := disease;
                probability :=
                  round2 (r * (100 - confidenceScore) / inject_Z (Z.of_nat (List.length DISEASE_TYPES)))%Q;
                cellAbnormalities := None |}.

(** The callback of [CELL_TYPES.map] (lines 87-103).  In [a && b] the
    right operand, here the call of [Math.random], is evaluated only when
    the left one is true.  The products are exact here, so [count] can be
    one more than the code computes; [Double.differential] has the
    products as the code rounds them. *)
Definition differential (primaryDisease : string) (c : CellTypeSpec)
  : Rand CellCountResult :=
  let* isAbnormal :=
    (if includes primaryDisease "Leukemia"
     then (let* r := Math_random in rand_ret (Qgtb r (3 # 10)))
     else rand_ret false) in
  let* r := Math_random in
  let basePercentage :=
    (if isAbnormal
     then fst (normalRange c) + r * 30
     else fst (normalRange c) + r * (snd (normalRange c) - fst (normalRange c)))%Q in
  let percentage := round2 basePercentage in
  let count := Math_floor (percentage * 100)%Q in
  let* abnormalCount :=
    (if isAbnormal
     then (let* r' := Math_random in
           rand_ret (Math_floor (inject_Z count * ((2 # 10) + r' * (3 # 10)))%Q))
     else rand_ret 0) in
  rand_ret {| cellType := name c;
              count := count;
              percentage := percentage;
              abnormalCount := abnormalCount |}.

Definition notes_for (primaryDisease : string) : string :=
  if String.eqb primaryDisease "Normal" then
    "Blood smear shows normal cellular morphology. RBC, WBC, and platelet counts within expected ranges. No abnormal cells or parasites detected."
  else if includes primaryDisease "Malaria" then
    "Parasitic inclusions consistent with Plasmodium detected in red blood cells. Recommend confirmatory testing and immediate treatment protocol."
  else if includes primaryDisease "Leukemia" then
    "Abnormal white blood cell morphology detected. Increased blast cell population observed. Recommend hematology consultation and bone marrow biopsy."
  else if includes primaryDisease "Anemia" then
    "Reduced red blood cell count with variations in cell size and shape. Consider iron studies and further investigation of underlying cause."
  else
    "Abnormal findings detected. Clinical correlation and additional testing recommended.".

(** The comparator [(a, b) => b.probability - a.probability] is negative,
    putting [a] before [b], when [a] has the larger probability. *)
Definition by_probability_desc (a b : ClassificationResult) : bool :=
  Qgtb (probability a) (probability b).

Definition generateMockAnalysisResults : Rand AiResults :=
  let* r0 := Math_random in
  let diseaseIndex := Math_floor (r0 * inject_Z (Z.of_nat (List.length DISEASE_TYPES)))%Q in
  let primaryDisease := nth (Z.to_nat diseaseIndex) DISEASE_TYPES "" in
  let* r1 := Math_random in
  let confidenceScore := (85 + r1 * 12)%Q in
  let* classified := rand_mapi (classify diseaseIndex confidenceScore) 0 DISEASE_TYPES in
  let diseaseClassifications := js_sort by_probability_desc classified in
  let* cellCounts := rand_mapi (fun _ => differential primaryDisease) 0 CELL_TYPES in
  let* r2 := Math_random in
  let rbcCount := 4500000 + Math_floor (r2 * 1000000)%Q in
  let* r3 := Math_random in
  let wbcCount := 4000 + Math_floor (r3 * 7000)%Q in
  let* r4 := Math_random in
  let plateletCount := 150000 + Math_floor (r4 * 250000)%Q in
  rand_ret {| diseaseDetected := primaryDisease;
              confidenceScore := round2 confidenceScore;
              rbcCount := rbcCount;
              wbcCount := wbcCount;
              plateletCount := plateletCount;
              analysisNotes := notes_for primaryDisease;
              diseaseClassifications := diseaseClassifications;
              cellCounts := cellCounts |}.

Local Close Scope rand_scope.

(** ** The cell rows in double precision *)

(** JavaScript numbers are IEEE 754 binary64 values.  The bounds proved
    of the generator hold of the exact model above and survive rounding;
    the relation between [count] and [percentage] depends on the last
    digit, so the callback of [CELL_TYPES.map] (lines 87-103) is modelled
    here once more, every operation rounding to the nearest double, ties
    to even, as [SpecFloat] defines binary64 arithmetic. *)
Module Double.

(** A double is a [spec_float] of precision 53 and maximal exponent 1024. *)
Definition double : Type := spec_float.
Definition prec : Z := 53.
Definition emax : Z := 1024.

(** The double of an integer; exact below [2^53]. *)
Definition of_Z (z : Z) : double := binary_normalize prec emax z 0 false.

Definition add : double -> double -> double := SFadd prec emax.
Definition sub : double -> double -> double := SFsub prec emax.
Definition mul : double -> double -> double := SFmul prec emax.
Definition div : double -> double -> double := SFdiv prec emax.

(** [a > b]; false when either is NaN. *)
Definition gt (a b : double) : bool := SFltb b a.

(** The double that a decimal literal denotes, the one nearest to it:
    [literal (3 # 10)] is the number written [0.3]. *)
Definition literal (q : Q) : double := div (of_Z (Qnum q)) (of_Z (Z.pos (Qden q))).

(** The exact value of a finite double. *)
Definition to_Q (x : double) : Q :=
  match x with
  | S754_finite s m e => (inject_Z (if s then Z.neg m else Z.pos m) * 2 ^ e)%Q
  | _ => 0%Q
  end.

(** [Math.floor]: the largest integer not above [x]; zeros, infinities and
    NaN are returned as they are. *)
Definition Math_floor (x : double) : double :=
  match x with
  | S754_finite s m e =>
      let n := if s then Z.neg m else Z.pos m in
      of_Z (if Z.leb 0 e then n * 2 ^ e else n / 2 ^ (- e))
  | _ => x
  end.

(** [Math.round]: the integer nearest to [x], ties towards +infinity,
    computed exactly; [-0] for [x] in [[-0.5, 0)]. *)
Definition Math_round (x : double) : double :=
  match x with
  | S754_finite s m e =>
      let n := if s then Z.neg m else Z.pos m in
      if Z.leb 0 e then x
      else
        let r := (2 * n + 2 ^ (- e)) / 2 ^ (1 - e) in
        if Z.eqb r 0 && s then S754_zero true else of_Z r
  | _ => x
  end.

(** [Math.random()] as a stream of doubles read through a cursor. *)
Definition RandomSource : Type := nat -> double.

Definition Rand (A : Type) : Type := RandomSource -> nat -> A * nat.

Definition ret {A} (x : A) : Rand A := fun _ k => (x, k).

Definition bind {A B} (m : Rand A) (f : A -> Rand B) : Rand B :=
  fun rnd k => let (a, k') := m rnd k in f a rnd k'.

Definition Math_random : Rand double := fun rnd k => (rnd k, S k).

Declare Scope double_scope.
Delimit Scope double_scope with double.
Notation "'let*' x ':=' m 'in' f" := (bind m (fun x => f))
  (at level 10, x name, m at level 100, f at level 200) : double_scope.

(** [arr.map(x => f x)], the callback drawing random numbers. *)
Fixpoint map_array {A B} (f : A -> Rand B) (l : list A) : Rand (list B) :=
  match l with
  | [] => ret []
  | x :: l' =>
      bind (f x) (fun y => bind (map_array f l') (fun ys => ret (y :: ys)))
  end.

Record CellCountResult := {
  cellType : string;
  count : double;
  percentage : double;
  abnormalCount : double
}.

Local Open Scope double_scope.

(** The callback of [CELL_TYPES.map] (lines 87-103), operation by
    operation; the bounds of [normalRange] are integer literals. *)
Definition differential (primaryDisease : string) (c : CellTypeSpec)
  : Rand CellCountResult :=
  let lo := literal (fst (normalRange c)) in
  let hi := literal (snd (normalRange c)) in
  let* isAbnormal :=
    (if includes primaryDisease "Leukemia"
     then (let* r := Math_random in ret (gt r (literal (3 # 10))))
     else ret false) in
  let* r := Math_random in
  let basePercentage :=
    if isAbnormal
    then add lo (mul r (of_Z 30))
    else add lo (mul r (sub hi lo)) in
  let percentage := div (Math_round (mul basePercentage (of_Z 100))) (of_Z 100) in
  let count := Math_floor (mul percentage (of_Z 100)) in
  let* abnormalCount :=
    (if isAbnormal
     then (let* r' := Math_random in
           ret (Math_floor
                  (mul count (add (literal (2 # 10)) (mul r' (literal (3 # 10)))))))
     else ret (of_Z 0)) in
  ret {| cellType := name c;
         count := count;
         percentage := percentage;
         abnormalCount := abnormalCount |}.

(** [cellCounts] of line 87, for the primary disease chosen in line 65. *)
Definition cellCounts (primaryDisease : string) : Rand (list CellCountResult) :=
  map_array (differential primaryDisease) CELL_TYPES.

Local Close Scope double_scope.

(** [Math.random()] returning the same number at every call. *)
Definition always (q : Q) : RandomSource := fun _ => literal q.

(** The same value, as [Object.is] has it. *)
Definition same (x y : double) : bool :=
  match x, y with
  | S754_zero s, S754_zero s' => Bool.eqb s s'
  | S754_infinity s, S754_infinity s' => Bool.eqb s s'
  | S754_nan, S754_nan => true
  | S754_finite s m e, S754_finite s' m' e' =>
      Bool.eqb s s' && Pos.eqb m m' && Z.eqb e e'
  | _, _ => false
  end.

(** [Math.floor(percentage * 100)] for the percentage [k / 100]. *)
Definition count_of_hundredths (k : Z) : double :=
  Math_floor (mul (div (of_Z k) (of_Z 100)) (of_Z 100)).

(** The count of [k] hundredths is [k] or [k - 1]. *)
Definition count_near (k : Z) : bool :=
  let c := count_of_hundredths k in
  same c (of_Z k) || same c (of_Z (k - 1)).

(** [p k && p (k + 1) && ...], over [n] integers. *)
Fixpoint all_from (p : Z -> bool) (n : nat) (k : Z) : bool :=
  match n with
  | O => true
  | S n' => p k && all_from p n' (k + 1)
  end.

End Double.

(** ** runAIInference *)

(** What running [python3 inference.py <image> <model>] can lead to: the
    process cannot be run or exits with an error, its output is not JSON,
    or it prints an object with a [success] flag.  The object is taken to
    be a complete result; [runAIInference] does not check that, and
    [InferenceReply] below has the objects that lack a list. *)
Inductive PythonRun :=
| ExecFailed
| Unparseable
| Parsed (ok : bool) (result : AiResults).

(** The inference runtime: the outcome of the script for an image path. *)
Definition InferenceRuntime := string -> PythonRun.

(** Every failure is caught inside [runAIInference] and becomes [null]. *)
Definition runAIInference (execPromise : InferenceRuntime) (imagePath : string)
  : option AiResults :=
  match execPromise imagePath with
  | Parsed true result => Some result
  | Parsed false _ => None
  | ExecFailed => None
  | Unparseable => None
  end.

(** ** The collections *)

Record Store := {
  analyses : gmap Id AnalysisFields;
  nextId : Id;
  classifications : list DiseaseClassification;
  cellCountRows : list CellCount;
  notifications : list Notification
}.

Definition empty_store : Store :=
  {| analyses := ∅; nextId := 0%nat; classifications := [];
     cellCountRows := []; notifications := [] |}.

Definition set_analyses (m : gmap Id AnalysisFields) (st : Store) : Store :=
  {| analyses := m; nextId := nextId st;
     classifications := classifications st;
     cellCountRows := cellCountRows st;
     notifications := notifications st |}.

Definition set_classifications (l : list DiseaseClassification) (st : Store) : Store :=
  {| analyses := analyses st; nextId := nextId st;
     classifications := l;
     cellCountRows := cellCountRows st;
     notifications := notifications st |}.

Definition set_cellCountRows (l : list CellCount) (st : Store) : Store :=
  {| analyses := analyses st; nextId := nextId st;
     classifications := classifications st;
     cellCountRows := l;
     notifications := notifications st |}.

Definition set_notifications (l : list Notification) (st : Store) : Store :=
  {| analyses := analyses st; nextId := nextId st;
     classifications := classifications st;
     cellCountRows := cellCountRows st;
     notifications := l |}.

(** ** The monad of awaited database calls *)

(** [flt k = true]: the [k]-th awaited database call of this run throws. *)
Definition Faults := nat -> bool.

Definition no_faults : Faults := fun _ => false.

Record World := { db : Store; calls : nat }.

(** [None] is a thrown exception. *)
Definition Db (A : Type) : Type := Faults -> World -> option A * World.

Definition db_ret {A} (x : A) : Db A := fun _ w => (Some x, w).

Definition db_bind {A B} (m : Db A) (f : A -> Db B) : Db B :=
  fun flt w =>
    match m flt w with
    | (Some a, w') => f a flt w'
    | (None, w') => (None, w')
    end.

(** [try { m } catch (error) { handler }] *)
Definition db_try {A} (m : Db A) (handler : Db A) : Db A :=
  fun flt w =>
    match m flt w with
    | (Some a, w') => (Some a, w')
    | (None, w') => handler flt w'
    end.

(** One awaited call.  [body] returns [None] when the call itself rejects. *)
Definition db_call {A} (body : Store -> option (A * Store)) : Db A :=
  fun flt w =>
    if flt (calls w) then (None, {| db := db w; calls := S (calls w) |})
    else match body (db w) with
         | Some (a, st) => (Some a, {| db := st; calls := S (calls w) |})
         | None => (None, {| db := db w; calls := S (calls w) |})
         end.

Declare Scope db_scope.
Delimit Scope db_scope with db.
Notation "'await' x ':=' m 'in' f" := (db_bind m (fun x => f))
  (at level 10, x name, m at level 100, f at level 200) : db_scope.

(** *** Model methods *)

Definition Analysis_findById (id : Id) : Db (option Analysis) :=
  db_call (fun st =>
    Some ((fun f => {| a_id := id; a_fields := f |}) <$> analyses st !! id, st)).

(** [Analysis.create({ userId, imageUrl, status })]: a new document under a
    new [_id], no optional field set. *)
Definition Analysis_create (userId : Id) (imageUrl : string) (status : Status)
  : Db Analysis :=
  db_call (fun st =>
    let f := {| a_userId := userId; a_imageUrl := imageUrl;
                a_status := status;
                a_diseaseDetected := None; a_confidenceScore := None;
                a_rbcCount := None; a_wbcCount := None; a_plateletCount := None;
                a_analysisNotes := None; a_completedAt := None |} in
    Some ({| a_id := nextId st; a_fields := f |},
          {| analyses := <[nextId st := f]> (analyses st);
                nextId := S (nextId st);
                classifications := classifications st;
                cellCountRows := cellCountRows st;
                notifications := notifications st |})).

(** [analysis.save()] on a loaded document writes its changes to the stored
    document of the same [_id] and rejects when that document is gone.  A
    handler changes the same paths on every run and a rejected save keeps
    the changes pending for the next one, so a successful save leaves the
    stored content equal to the loaded document's. *)
Definition Analysis_save (a : Analysis) : Db unit :=
  db_call (fun st =>
    match analyses st !! a_id a with
    | Some _ => Some (tt, set_analyses (<[a_id a := a_fields a]> (analyses st)) st)
    | None => None
    end).

Definition Analysis_deleteOne (a : Analysis) : Db unit :=
  db_call (fun st => Some (tt, set_analyses (delete (a_id a) (analyses st)) st)).

Definition DiseaseClassification_insertMany (rows : list DiseaseClassification)
  : Db unit :=
  db_call (fun st => Some (tt, set_classifications (classifications st ++ rows) st)).

Definition dc_by_probability_desc (a b : DiseaseClassification) : bool :=
  Qgtb (probability (dc_row a)) (probability (dc_row b)).

(** [DiseaseClassification.find({ analysisId: id }).sort({ probability: -1 })] *)
Definition DiseaseClassification_find_sorted (id : Id)
  : Db (list DiseaseClassification) :=
  db_call (fun st =>
    Some (js_sort dc_by_probability_desc
            (List.filter (fun r => Nat.eqb (dc_analysisId r) id) (classifications st)),
          st)).

Definition DiseaseClassification_deleteMany (id : Id) : Db unit :=
  db_call (fun st =>
    Some (tt, set_classifications
                (List.filter (fun r => negb (Nat.eqb (dc_analysisId r) id))
                   (classifications st)) st)).

Definition CellCount_insertMany (rows : list CellCount) : Db unit :=
  db_call (fun st => Some (tt, set_cellCountRows (cellCountRows st ++ rows) st)).

Definition cc_by_percentage_desc (a b : CellCount) : bool :=
  Qgtb (percentage (cc_row a)) (percentage (cc_row b)).

(** [CellCount.find({ analysisId: id }).sort({ percentage: -1 })] *)
Definition CellCount_find_sorted (id : Id) : Db (list CellCount) :=
  db_call (fun st =>
    Some (js_sort cc_by_percentage_desc
            (List.filter (fun r => Nat.eqb (cc_analysisId r) id) (cellCountRows st)),
          st)).

Definition CellCount_deleteMany (id : Id) : Db unit :=
  db_call (fun st =>
    Some (tt, set_cellCountRows
                (List.filter (fun r => negb (Nat.eqb (cc_analysisId r) id))
                   (cellCountRows st)) st)).

Definition Notification_create (n : Notification) : Db unit :=
  db_call (fun st => Some (tt, set_notifications (notifications st ++ [n]) st)).

(** ** HTTP responses *)

Inductive Body :=
| Message (message : string)
| AnalysisBody (a : Analysis)
| DetailsBody (a : Analysis)
    (diseaseClassifications : list DiseaseClassification)
    (cellCounts : list CellCount).

(** [res.status(code).json(body)]; [res.json(body)] has status 200. *)
Record Response := { code : nat; body : Body }.

Definition Not_authorized : Response :=
  {| code := 403; body := Message "Not authorized" |}.

Definition Analysis_not_found : Response :=
  {| code := 404; body := Message "Analysis not found" |}.

(** A handler is [try { ... } catch (error) { res.status(500).json(...) }]:
    run from call number 0, on the current collections. *)
Definition run_handler {A} (m : Db A) (on_error : A) (flt : Faults) (st : Store)
  : A * Store :=
  match m flt {| db := st; calls := 0 |} with
  | (Some r, w) => (r, db w)
  | (None, w) => (on_error, db w)
  end.

(** ** Handlers *)

Local Open Scope db_scope.

(** [!imageUrl]: the field is missing or the empty string. *)
Definition falsy (s : option string) : bool :=
  match s with
  | None => true
  | Some s => String.eqb s ""
  end.

Definition createAnalysis_body (user : Id) (imageUrl : option string) : Db Response :=
  if falsy imageUrl then
    db_ret {| code := 400; body := Message "Image URL is required" |}
  else
    await analysis := Analysis_create user (default "" imageUrl) pending in
    db_ret {| code := 201; body := AnalysisBody analysis |}.

Definition createAnalysis (user : Id) (imageUrl : option string)
  : Faults -> Store -> Response * Store :=
  run_handler (createAnalysis_body user imageUrl)
    {| code := 500; body := Message "Server error creating analysis" |}.

(** What the callback given to [setTimeout] closes over: the loaded
    document [analysis] and [req.user._id]. *)
Record Task := { t_analysis : Analysis; t_user : Id }.

(** [analysis.status = s] *)
Definition set_status (s : Status) (a : Analysis) : Analysis :=
  let f := a_fields a in
  {| a_id := a_id a;
     a_fields :=
       {| a_userId := a_userId f; a_imageUrl := a_imageUrl f;
          a_status := s;
          a_diseaseDetected := a_diseaseDetected f;
          a_confidenceScore := a_confidenceScore f;
          a_rbcCount := a_rbcCount f; a_wbcCount := a_wbcCount f;
          a_plateletCount := a_plateletCount f;
          a_analysisNotes := a_analysisNotes f;
          a_completedAt := a_completedAt f |} |}.

(** Lines 181-188: the assignments to the loaded document. *)
Definition set_results (r : AiResults) (now : Time) (a : Analysis) : Analysis :=
  let f := a_fields a in
  {| a_id := a_id a;
     a_fields :=
       {| a_userId := a_userId f; a_imageUrl := a_imageUrl f;
          a_status := completed;
          a_diseaseDetected := Some (diseaseDetected r);
          a_confidenceScore := Some (confidenceScore r);
          a_rbcCount := Some (rbcCount r); a_wbcCount := Some (wbcCount r);
          a_plateletCount := Some (plateletCount r);
          a_analysisNotes := Some (analysisNotes r);
          a_completedAt := Some now |} |}.

(** The synchronous part of [processAnalysis] (lines 155-171, 225-229). *)
Definition processAnalysis_body (user : Id) (id : Id)
  : Db (Response * option Task) :=
  await found := Analysis_findById id in
  match found with
  | None => db_ret (Analysis_not_found, None)
  | Some analysis =>
      if negb (Nat.eqb (a_userId (a_fields analysis)) user) then
        db_ret (Not_authorized, None)
      else
        let analysis := set_status processing analysis in
        await _ := Analysis_save analysis in
        db_ret ({| code := 200; body := Message "Analysis processing started" |},
                Some {| t_analysis := analysis; t_user := user |})
  end.

Definition processAnalysis (user : Id) (id : Id)
  : Faults -> Store -> (Response * option Task) * Store :=
  run_handler (processAnalysis_body user id)
    ({| code := 500; body := Message "Server error processing analysis" |}, None).

(** [aiResults] after lines 174-179. *)
Definition obtain_results (execPromise : InferenceRuntime) (rnd : RandomSource)
    (imageUrl : string) : AiResults :=
  match runAIInference execPromise imageUrl with
  | Some r => r
  | None => fst (generateMockAnalysisResults rnd 0%nat)
  end.

Definition success_notification (user : Id) (r : AiResults) (id : Id) : Notification :=
  {| n_userId := user;
     n_title := "Analysis Complete";
     n_message := "Your blood smear analysis is complete. Disease detected: "
                  ++ diseaseDetected r;
     n_type := success;
     n_analysisId := Some id |}.

Definition error_notification (user : Id) (id : Id) : Notification :=
  {| n_userId := user;
     n_title := "Analysis Failed";
     n_message := "There was an error processing your blood smear analysis. Please try again.";
     n_type := error;
     n_analysisId := Some id |}.

(** [aiResults.diseaseClassifications.map(dc => ({ analysisId, ...dc }))] *)
Definition classification_docs (id : Id) (r : AiResults) : list DiseaseClassification :=
  map (fun dc => {| dc_analysisId := id; dc_row := dc |}) (diseaseClassifications r).

(** [aiResults.cellCounts.map(cc => ({ analysisId, ...cc }))] *)
Definition cellCount_docs (id : Id) (r : AiResults) : list CellCount :=
  map (fun cc => {| cc_analysisId := id; cc_row := cc |}) (cellCounts r).

(** The [try] block of the deferred callback from line 189 on.  Nothing
    before the first [save] can throw ([runAIInference] catches its own
    errors), so the document already carries the assignments. *)
Definition completion_try (t : Task) (aiResults : AiResults) (analysis : Analysis)
  : Db unit :=
  await _ := Analysis_save analysis in
  let classifications := classification_docs (a_id analysis) aiResults in
  await _ := DiseaseClassification_insertMany classifications in
  let cellCounts := cellCount_docs (a_id analysis) aiResults in
  await _ := CellCount_insertMany cellCounts in
  Notification_create (success_notification (t_user t) aiResults (a_id analysis)).

(** The [catch] block (lines 210-222), on the same document object. *)
Definition completion_catch (t : Task) (analysis : Analysis) : Db unit :=
  let analysis := set_status failed analysis in
  await _ := Analysis_save analysis in
  Notification_create (error_notification (t_user t) (a_id analysis)).

(** The callback given to [setTimeout] (lines 172-223). *)
Definition completion (t : Task) (execPromise : InferenceRuntime)
    (rnd : RandomSource) (now : Time) : Db unit :=
  let aiResults :=
    obtain_results execPromise rnd (a_imageUrl (a_fields (t_analysis t))) in
  let analysis := set_results aiResults now (t_analysis t) in
  db_try (completion_try t aiResults analysis) (completion_catch t analysis).

(** Run the callback; an error escaping it is an unhandled rejection and
    changes nothing further. *)
Definition run_completion (t : Task) (execPromise : InferenceRuntime)
    (rnd : RandomSource) (now : Time) (flt : Faults) (st : Store) : Store :=
  snd (run_handler (completion t execPromise rnd now) tt flt st).

Definition getAnalysisById_body (user : Id) (id : Id) : Db Response :=
  await found := Analysis_findById id in
  match found with
  | None => db_ret Analysis_not_found
  | Some analysis =>
      if negb (Nat.eqb (a_userId (a_fields analysis)) user) then
        db_ret Not_authorized
      else
        await classifications := DiseaseClassification_find_sorted id in
        await cellCounts := CellCount_find_sorted id in
        db_ret {| code := 200;
                  body := DetailsBody analysis classifications cellCounts |}
  end.

Definition getAnalysisById (user : Id) (id : Id)
  : Faults -> Store -> Response * Store :=
  run_handler (getAnalysisById_body user id)
    {| code := 500; body := Message "Server error fetching analysis" |}.

Definition Analysis_deleted : Response :=
  {| code := 200; body := Message "Analysis deleted successfully" |}.

Definition deleteAnalysis_body (user : Id) (id : Id) : Db Response :=
  await found := Analysis_findById id in
  match found with
  | None => db_ret Analysis_not_found
  | Some analysis =>
      if negb (Nat.eqb (a_userId (a_fields analysis)) user) then
        db_ret Not_authorized
      else
        await _ := DiseaseClassification_deleteMany id in
        await _ := CellCount_deleteMany id in
        await _ := Analysis_deleteOne analysis in
        db_ret Analysis_deleted
  end.

Definition deleteAnalysis (user : Id) (id : Id)
  : Faults -> Store -> Response * Store :=
  run_handler (deleteAnalysis_body user id)
    {| code := 500; body := Message "Server error deleting analysis" |}.

Local Close Scope db_scope.

(** ** The server as a transition system *)

(** The collections together with the callbacks waiting on their timers. *)
Record System := { store : Store; timers : list Task }.

Definition initial : System := {| store := empty_store; timers := [] |}.

(** An event is a request reaching a handler, or a timer firing.  Each
    carries what the environment decides during that run. *)
Inductive Event :=
| Create (user : Id) (imageUrl : option string) (flt : Faults)
| Process (user : Id) (id : Id) (flt : Faults)
| Get (user : Id) (id : Id) (flt : Faults)
| Delete (user : Id) (id : Id) (flt : Faults)
| Timeout (k : nat) (execPromise : InferenceRuntime) (rnd : RandomSource)
    (now : Time) (flt : Faults).

Definition step (e : Event) (s : System) : System :=
  match e with
  | Create user imageUrl flt =>
      {| store := snd (createAnalysis user imageUrl flt (store s));
         timers := timers s |}
  | Process user id flt =>
      let '((_, scheduled), st) := processAnalysis user id flt (store s) in
      {| store := st;
         timers := timers s ++ match scheduled with Some t => [t] | None => [] end |}
  | Get user id flt =>
      {| store := snd (getAnalysisById user id flt (store s));
         timers := timers s |}
  | Delete user id flt =>
      {| store := snd (deleteAnalysis user id flt (store s));
         timers := timers s |}
  | Timeout k execPromise rnd now flt =>
      match timers s !! k with
      | Some t =>
          {| store := run_completion t execPromise rnd now flt (store s);
             timers := delete k (timers s) |}
      | None => s
      end
  end.

Definition run (es : list Event) (s : System) : System :=
  fold_left (fun s e => step e s) es s.

(** The status of an analysis as stored. *)
Definition status_of (s : System) (id : Id) : option Status :=
  a_status <$> analyses (store s) !! id.

(** The detail rows of an analysis as stored. *)
Definition classifications_of (st : Store) (id : Id) : list DiseaseClassification :=
  List.filter (fun r => Nat.eqb (dc_analysisId r) id) (classifications st).

Definition cellCounts_of (st : Store) (id : Id) : list CellCount :=
  List.filter (fun r => Nat.eqb (cc_analysisId r) id) (cellCountRows st).

(** The notifications that refer to an analysis. *)
Definition notifications_of (st : Store) (id : Id) : list Notification :=
  List.filter (fun n => bool_decide (n_analysisId n = Some id)) (notifications st).

(** ** Fault patterns *)

(** Only the [k]-th awaited call throws. *)
Definition fault_at (k : nat) : Faults := fun j => Nat.eqb j k.

(** Of the deferred callback: write number [k] of the [try] block throws,
    the writes before it and the two writes of the [catch] block do not. *)
Definition single_fault (flt : Faults) (k : nat) : Prop :=
  (k < 4)%nat /\ (forall j, (j < k)%nat -> flt j = false) /\ flt k = true
  /\ flt (k + 1)%nat = false /\ flt (k + 2)%nat = false.

(** ** Bounds on stored numbers *)

Definition cell_row_bounded (row : CellCountResult) : Prop :=
  (0 <= percentage row /\ percentage row <= 100)%Q
  /\ abnormalCount row <= count row.

(** Modelled from the spec: the inference script [server/src/ai/inference.py]
    is not among the sources.  A successful run returns a confidence in
    [0, 100] and a cell differential whose rows have a percentage in
    [0, 100] and an abnormal count of at most the count. *)
Definition within_contract (r : AiResults) : Prop :=
  (0 <= confidenceScore r /\ confidenceScore r <= 100)%Q
  /\ Forall cell_row_bounded (cellCounts r).

(** What an event may bring with it: random numbers in [[0, 1)], and
    inference results within the contract. *)
Definition plausible (e : Event) : Prop :=
  match e with
  | Timeout _ execPromise rnd _ _ =>
      (forall k, (0 <= rnd k /\ rnd k < 1)%Q)
      /\ (forall path r, execPromise path = Parsed true r -> within_contract r)
  | _ => True
  end.

Definition store_bounded (st : Store) : Prop :=
  (forall id f c, analyses st !! id = Some f -> a_confidenceScore f = Some c ->
     (0 <= c /\ c <= 100)%Q)
  /\ Forall (fun row => cell_row_bounded (cc_row row)) (cellCountRows st).

(** ** Reachable states *)

Inductive reachable : System -> Prop :=
| reachable_initial : reachable initial
| reachable_step (e : Event) (s : System) :
    reachable s -> reachable (step e s).

(** Identifiers are handed out in increasing order. *)
Definition ids_below_next (st : Store) : Prop :=
  forall id, is_Some (analyses st !! id) -> (id < nextId st)%nat.

(** ** Sample inputs *)

(** A random stream that draws 1/2 every time. *)
Definition always_half : RandomSource := fun _ => (1 # 2)%Q.

(** A random stream that draws 1/4 every time. *)
Definition always_quarter : RandomSource := fun _ => (1 # 4)%Q.

(** No Python runtime: every run of the script fails. *)
Definition python_absent : InferenceRuntime := fun _ => ExecFailed.

(** User 7 uploads an image and asks for its analysis. *)
Definition uploaded : System :=
  run [Create 7%nat (Some "uploads/img-1.png") no_faults] initial.

Definition started : System :=
  step (Process 7%nat 0%nat no_faults) uploaded.

(** The completion runs on generated results, without a fault. *)
Definition finished : System :=
  step (Timeout 0 python_absent always_half 5%nat no_faults) started.

(** The completion runs on generated results; the insertion of the cell
    counts throws. *)
Definition interrupted : System :=
  step (Timeout 0 python_absent always_half 5%nat (fault_at 2)) started.

(** Processing is requested twice before either completion runs. *)
Definition processed_twice : System :=
  run [Process 7%nat 0%nat no_faults;
       Process 7%nat 0%nat no_faults;
       Timeout 0 python_absent always_half 5%nat no_faults;
       Timeout 0 python_absent always_quarter 6%nat no_faults] uploaded.

(** A result as a working inference script would print it. *)
Definition sample_inference : AiResults :=
  {| diseaseDetected := "Anemia";
     confidenceScore := (912 # 10)%Q;
     rbcCount := 3900000; wbcCount := 6100; plateletCount := 240000;
     analysisNotes := "Model prediction.";
     diseaseClassifications :=
       [{| diseaseName := "Anemia"; probability := (912 # 10)%Q;
           cellAbnormalities := None |};
        {| diseaseName := "Normal"; probability := (88 # 10)%Q;
           cellAbnormalities := None |}];
     cellCounts :=
       [{| cellType := "Neutrophils"; count := 5500;
           percentage := 55%Q; abnormalCount := 12 |}] |}.

Definition python_present : InferenceRuntime := fun _ => Parsed true sample_inference.

(** ** Listing the analyses of a user *)

From Stdlib Require Import Sorted.

(** The reply of a handler that sends either a payload or an error. *)
Inductive Reply (A : Type) :=
| Ok (payload : A)
| Failed (code : nat) (message : string).

Arguments Ok {A} payload.
Arguments Failed {A} code message.

(** The documents of the Analysis collection, in the order in which a
    query without a sort returns them. *)
Definition Analysis_docs (st : Store) : list Analysis :=
  map (fun p => {| a_id := fst p; a_fields := snd p |}) (map_to_list (analyses st)).

(** [Analysis.find(filter)] *)
Definition Analysis_find (filter : Analysis -> bool) : Db (list Analysis) :=
  db_call (fun st => Some (List.filter filter (Analysis_docs st), st)).

(** [Analysis.countDocuments(filter)] *)
Definition Analysis_countDocuments (filter : Analysis -> bool) : Db nat :=
  db_call (fun st => Some (List.length (List.filter filter (Analysis_docs st)), st)).

(** The field [createdAt] is written by Mongoose and never by a handler;
    the handlers that read it take it as a function of the [_id]. *)
Definition by_createdAt_desc (createdAt : Id -> Time) (a b : Analysis) : bool :=
  Nat.ltb (createdAt (a_id b)) (createdAt (a_id a)).

(** [Analysis.find(filter).sort({ createdAt: -1 })] *)
Definition Analysis_find_newest_first (createdAt : Id -> Time)
    (filter : Analysis -> bool) : Db (list Analysis) :=
  db_call (fun st =>
    Some (js_sort (by_createdAt_desc createdAt)
            (List.filter filter (Analysis_docs st)), st)).

Definition owned_by (user : Id) (a : Analysis) : bool :=
  Nat.eqb (a_userId (a_fields a)) user.

Local Open Scope db_scope.

(** [getAnalyses] (lines 232-242) *)
Definition getAnalyses_body (createdAt : Id -> Time) (user : Id)
  : Db (Reply (list Analysis)) :=
  await analyses := Analysis_find_newest_first createdAt (owned_by user) in
  db_ret (Ok analyses).

Definition getAnalyses (createdAt : Id -> Time) (user : Id)
  : Faults -> Store -> Reply (list Analysis) * Store :=
  run_handler (getAnalyses_body createdAt user)
    (Failed 500 "Server error fetching analyses").

(** ** The analytics controller *)

Record DashboardStats := {
  totalAnalyses : nat;
  thisMonthAnalyses : nat;
  averageConfidence : Q;
  positiveDetectionRate : Q
}.

(** [Math.round(x * 10) / 10] *)
Definition round1 (x : Q) : Q := (inject_Z (Math_round (x * 10)) / 10)%Q.

Definition Q_of_nat (n : nat) : Q := inject_Z (Z.of_nat n).

Definition is_completed (a : Analysis) : bool :=
  bool_decide (a_status (a_fields a) = completed).

(** [a.diseaseDetected && a.diseaseDetected !== 'Normal'] *)
Definition positive_detection (a : Analysis) : bool :=
  negb (falsy (a_diseaseDetected (a_fields a)))
  && negb (bool_decide (a_diseaseDetected (a_fields a) = Some "Normal")).

(** [getDashboardStats]; [thisMonthStart] is the first instant of the
    current month, computed from the clock. *)
Definition getDashboardStats_body (createdAt : Id -> Time) (thisMonthStart : Time)
    (userId : Id) : Db (Reply DashboardStats) :=
  await allAnalyses :=
    Analysis_find (fun a => owned_by userId a && is_completed a) in
  await thisMonthAnalyses :=
    Analysis_countDocuments
      (fun a => owned_by userId a && Nat.leb thisMonthStart (createdAt (a_id a))) in
  let totalAnalyses := List.length allAnalyses in
  let averageConfidence :=
    (if Nat.ltb 0 totalAnalyses
     then fold_left
            (fun sum a => sum + default 0 (a_confidenceScore (a_fields a)))
            allAnalyses 0
          / Q_of_nat totalAnalyses
     else 0)%Q in
  let positiveDetections := List.length (List.filter positive_detection allAnalyses) in
  let positiveDetectionRate :=
    (if Nat.ltb 0 totalAnalyses
     then Q_of_nat positiveDetections / Q_of_nat totalAnalyses * 100
     else 0)%Q in
  db_ret (Ok {| totalAnalyses := totalAnalyses;
                thisMonthAnalyses := thisMonthAnalyses;
                averageConfidence := round1 averageConfidence;
                positiveDetectionRate := round1 positiveDetectionRate |}).

Definition getDashboardStats (createdAt : Id -> Time) (thisMonthStart : Time)
    (userId : Id) : Faults -> Store -> Reply DashboardStats * Store :=
  run_handler (getDashboardStats_body createdAt thisMonthStart userId)
    (Failed 500 "Server error").

(** A JavaScript [Map] from strings to counts keeps its keys in the order
    of their first insertion. *)
Fixpoint Map_get (m : list (string * nat)) (k : string) : option nat :=
  match m with
  | [] => None
  | (k', v) :: m' => if String.eqb k' k then Some v else Map_get m' k
  end.

Fixpoint Map_set (m : list (string * nat)) (k : string) (v : nat)
  : list (string * nat) :=
  match m with
  | [] => [(k, v)]
  | (k', v') :: m' =>
      if String.eqb k' k then (k', v) :: m' else (k', v') :: Map_set m' k v
  end.

(** [analysis.diseaseDetected || 'Unknown'] *)
Definition disease_or_unknown (a : Analysis) : string :=
  match a_diseaseDetected (a_fields a) with
  | Some d => if String.eqb d "" then "Unknown" else d
  | None => "Unknown"
  end.

(** The body of [analyses.forEach] (lines 102-105). *)
Definition tally_disease (diseaseCounts : list (string * nat)) (a : Analysis)
  : list (string * nat) :=
  let disease := disease_or_unknown a in
  Map_set diseaseCounts disease (default 0%nat (Map_get diseaseCounts disease) + 1)%nat.

Record DiseaseShare := {
  ds_disease : string;
  ds_count : nat;
  ds_percentage : Q
}.

(** The comparator [(a, b) => b.count - a.count]. *)
Definition by_count_desc (a b : DiseaseShare) : bool :=
  Nat.ltb (ds_count b) (ds_count a).

(** Lines 101-115, on the documents the query returned. *)
Definition disease_distribution (analyses : list Analysis) : list DiseaseShare :=
  let diseaseCounts := fold_left tally_disease analyses [] in
  let total := List.length analyses in
  js_sort by_count_desc
    (map (fun entry =>
            {| ds_disease := fst entry;
               ds_count := snd entry;
               ds_percentage :=
                 (inject_Z (Math_round (Q_of_nat (snd entry) / Q_of_nat total * 100 * 10))
                  / 10)%Q |})
       diseaseCounts).

(** The filter [{ userId, status: 'completed', diseaseDetected: { $ne: null } }]. *)
Definition has_detection (userId : Id) (a : Analysis) : bool :=
  owned_by userId a && is_completed a
  && match a_diseaseDetected (a_fields a) with Some _ => true | None => false end.

(** [getDiseaseDistribution] *)
Definition getDiseaseDistribution_body (userId : Id) : Db (Reply (list DiseaseShare)) :=
  await analyses := Analysis_find (has_detection userId) in
  if Nat.eqb (List.length analyses) 0 then db_ret (Ok [])
  else db_ret (Ok (disease_distribution analyses)).

Definition getDiseaseDistribution (userId : Id)
  : Faults -> Store -> Reply (list DiseaseShare) * Store :=
  run_handler (getDiseaseDistribution_body userId) (Failed 500 "Server error").

Local Close Scope db_scope.

(** ** The upload route *)

(** The handler of [POST /] in [routes/upload.js]; [file] is
    [req.file.filename] when the middleware stored a file.  Nothing in its
    [try] block can throw, so the 500 answer of its [catch] is never sent. *)
Definition upload_route (file : option string) : Reply (string * string) :=
  match file with
  | None => Failed 400 "No file uploaded"
  | Some filename => Ok ("File uploaded successfully", "/uploads/" ++ filename)
  end.

(** ** Order and consistency predicates *)

(** No later element of the list is put strictly before an earlier one. *)
Definition ordered_by {A : Type} (before : A -> A -> bool) (l : list A) : Prop :=
  StronglySorted (fun a b => before b a = false) l.

(** What refers to an analysis: detail rows, notifications, waiting timers. *)
Definition unreferenced (s : System) (id : Id) : Prop :=
  classifications_of (store s) id = []
  /\ cellCounts_of (store s) id = []
  /\ notifications_of (store s) id = []
  /\ (forall t, In t (timers s) -> a_id (t_analysis t) <> id).

(** A waiting callback belongs to an identifier already handed out, was
    scheduled by the owner, and its document agrees with the stored one on
    owner and image; the stored one is no longer pending. *)
Definition timer_consistent (st : Store) (t : Task) : Prop :=
  (a_id (t_analysis t) < nextId st)%nat
  /\ t_user t = a_userId (a_fields (t_analysis t))
  /\ forall f, analyses st !! a_id (t_analysis t) = Some f ->
       a_userId f = a_userId (a_fields (t_analysis t))
       /\ a_imageUrl f = a_imageUrl (a_fields (t_analysis t))
       /\ a_status f <> pending.

(** A reference to an analysis is to an identifier already handed out
    whose analysis, if stored, is no longer pending. *)
Definition reference_consistent (st : Store) (id : Id) : Prop :=
  (id < nextId st)%nat
  /\ forall f, analyses st !! id = Some f -> a_status f <> pending.

Definition consistent (s : System) : Prop :=
  ids_below_next (store s)
  /\ Forall (timer_consistent (store s)) (timers s)
  /\ Forall (fun r => reference_consistent (store s) (dc_analysisId r))
       (classifications (store s))
  /\ Forall (fun r => reference_consistent (store s) (cc_analysisId r))
       (cellCountRows (store s))
  /\ Forall (fun n => forall id, n_analysisId n = Some id ->
               reference_consistent (store s) id
               /\ forall f, analyses (store s) !! id = Some f ->
                    n_userId n = a_userId f)
       (notifications (store s)).

(** How the Analysis collection may differ between an earlier and a later
    state: identifiers only grow, and a document stored later under an
    identifier handed out earlier was stored earlier too, with the same
    owner and image, and is pending only if it was. *)
Definition evolves (st st' : Store) : Prop :=
  (nextId st <= nextId st')%nat
  /\ forall (id : Id) (f' : AnalysisFields), analyses st' !! id = Some f' ->
       (id < nextId st)%nat ->
       exists f, analyses st !! id = Some f
         /\ a_userId f' = a_userId f
         /\ a_imageUrl f' = a_imageUrl f
         /\ (a_status f' = pending -> a_status f = pending).

(** The number of documents of a list that count for a disease label. *)
Definition occurrences (d : string) (l : list Analysis) : nat :=
  List.length (List.filter (fun a => String.eqb (disease_or_unknown a) d) l).

(** ** Results that lack a list *)

Local Open Scope db_scope.

(** [runAIInference] hands on whatever object the script printed with a
    truthy [success] (lines 50-56); nothing checks that the object has the
    two lists.  An [InferenceReply] is the object the callback works on
    after line 179: the six fields that lines 182-187 copy, of the types
    the schema gives them, and each list when the object has it as an
    array of rows of the generator's shape.  A list that is missing makes
    [.map] throw inside the [try] block, at line 191 or 197, after the
    document was saved as completed. *)
Record InferenceReply := {
  reply_diseaseDetected : string;
  reply_confidenceScore : Q;
  reply_rbcCount : Z;
  reply_wbcCount : Z;
  reply_plateletCount : Z;
  reply_analysisNotes : string;
  reply_diseaseClassifications : option (list ClassificationResult);
  reply_cellCounts : option (list CellCountResult)
}.

(** A complete result, such as [generateMockAnalysisResults] returns. *)
Definition reply_of (r : AiResults) : InferenceReply :=
  {| reply_diseaseDetected := diseaseDetected r;
     reply_confidenceScore := confidenceScore r;
     reply_rbcCount := rbcCount r;
     reply_wbcCount := wbcCount r;
     reply_plateletCount := plateletCount r;
     reply_analysisNotes := analysisNotes r;
     reply_diseaseClassifications := Some (diseaseClassifications r);
     reply_cellCounts := Some (cellCounts r) |}.

(** The six fields of a reply, which is all that lines 181-188 and the
    message of line 206 read. *)
Definition fields_of (reply : InferenceReply) : AiResults :=
  {| diseaseDetected := reply_diseaseDetected reply;
     confidenceScore := reply_confidenceScore reply;
     rbcCount := reply_rbcCount reply;
     wbcCount := reply_wbcCount reply;
     plateletCount := reply_plateletCount reply;
     analysisNotes := reply_analysisNotes reply;
     diseaseClassifications := [];
     cellCounts := [] |}.

(** An exception that is not the rejection of a database call. *)
Definition db_throw {A} : Db A := fun _ w => (None, w).

(** The [try] block from line 189 on, for a reply that may lack a list. *)
Definition completion_try_reply (t : Task) (reply : InferenceReply)
    (analysis : Analysis) : Db unit :=
  await _ := Analysis_save analysis in
  match reply_diseaseClassifications reply with
  | None => db_throw
  | Some rows =>
      let classifications :=
        map (fun dc => {| dc_analysisId := a_id analysis; dc_row := dc |}) rows in
      await _ := DiseaseClassification_insertMany classifications in
      match reply_cellCounts reply with
      | None => db_throw
      | Some rows' =>
          let cellCounts :=
            map (fun cc => {| cc_analysisId := a_id analysis; cc_row := cc |}) rows' in
          await _ := CellCount_insertMany cellCounts in
          Notification_create
            (success_notification (t_user t) (fields_of reply) (a_id analysis))
      end
  end.

(** The callback from line 181 on, [reply] being [aiResults]. *)
Definition completion_of_reply (t : Task) (reply : InferenceReply) (now : Time)
  : Db unit :=
  let analysis := set_results (fields_of reply) now (t_analysis t) in
  db_try (completion_try_reply t reply analysis) (completion_catch t analysis).

Definition run_completion_of_reply (t : Task) (reply : InferenceReply)
    (now : Time) (flt : Faults) (st : Store) : Store :=
  snd (run_handler (completion_of_reply t reply now) tt flt st).

Local Close Scope db_scope.

(** What a script prints that reports success and leaves out both lists. *)
Definition reply_without_lists : InferenceReply :=
  {| reply_diseaseDetected := "Anemia";
     reply_confidenceScore := (912 # 10)%Q;
     reply_rbcCount := 3900000; reply_wbcCount := 6100;
     reply_plateletCount := 240000;
     reply_analysisNotes := "Model prediction.";
     reply_diseaseClassifications := None;
     reply_cellCounts := None |}.

(** * Verification *)

(** ** Arithmetic of the JavaScript primitives *)

Local Open Scope Q_scope.

Lemma Math_floor_mono (x y : Q) : x <= y -> (Math_floor x <= Math_floor y)%Z.
Proof. apply Qfloor_resp_le. Qed.

Lemma Math_floor_inject (n : Z) : Math_floor (inject_Z n) = n.
Proof. apply Qfloor_Z. Qed.

Lemma Math_floor_range (x : Q) (lo hi : Z) :
  inject_Z lo <= x -> x < inject_Z hi -> (lo <= Math_floor x < hi)%Z.
Proof.
  intros Hlo Hhi. split.
  - rewrite <- (Math_floor_inject lo). now apply Math_floor_mono.
  - rewrite Zlt_Qlt. eapply Qle_lt_trans; [apply Qfloor_le | exact Hhi].
Qed.

Lemma round2_mono (x y : Q) : x <= y -> round2 x <= round2 y.
Proof.
  intros H. unfold round2, Math_round.
  apply Qmult_le_compat_r; [| discriminate].
  rewrite <- Zle_Qle. apply Qfloor_resp_le. lra.
Qed.

Lemma Math_floor_nonneg (x : Q) : 0 <= x -> (0 <= Math_floor x)%Z.
Proof.
  intros H. rewrite <- (Math_floor_inject 0). now apply Math_floor_mono.
Qed.

(** ** The stable sort *)

Section SortFacts.
Context {A : Type} (before : A -> A -> bool).

Lemma sort_insert_perm (x : A) (l : list A) :
  Permutation (sort_insert before x l) (x :: l).
Proof.
  induction l as [| y l IH]; simpl; [reflexivity |].
  destruct (before y x); [| reflexivity].
  rewrite IH. apply perm_swap.
Qed.

Lemma js_sort_perm (l : list A) : Permutation (js_sort before l) l.
Proof.
  induction l as [| x l IH]; simpl; [reflexivity |].
  rewrite sort_insert_perm. now constructor.
Qed.

Lemma js_sort_In (l : list A) (x : A) : In x (js_sort before l) <-> In x l.
Proof.
  split; apply Permutation_in; [| symmetry]; apply js_sort_perm.
Qed.

End SortFacts.

(** ** Mapping with a random callback *)

Lemma rand_bind_eq {A B} (m : Rand A) (f : A -> Rand B) (rnd : RandomSource) (k : nat) :
  rand_bind m f rnd k = f (fst (m rnd k)) rnd (snd (m rnd k)).
Proof. unfold rand_bind. now destruct (m rnd k). Qed.

Section RandMapi.
Context {A B : Type} (f : nat -> A -> Rand B) (rnd : RandomSource).

(** Every element of the output is the callback's value on the element
    of the same index, at some position of the cursor. *)
Lemma rand_mapi_lookup (l : list A) (i k j : nat) (y : B) :
  fst (rand_mapi f i l rnd k) !! j = Some y ->
  exists x k', l !! j = Some x /\ y = fst (f (i + j)%nat x rnd k').
Proof.
  revert i k j. induction l as [| x l IH]; intros i k j; simpl.
  - unfold rand_ret. simpl. intros H. discriminate.
  - unfold rand_bind. destruct (f i x rnd k) as [y0 k1] eqn:E0.
    destruct (rand_mapi f (S i) l rnd k1) as [ys k2] eqn:E1. simpl.
    destruct j as [| j]; simpl.
    + intros [= <-]. exists x, k. rewrite Nat.add_0_r, E0. auto.
    + intros H. specialize (IH (S i) k1 j). rewrite E1 in IH.
      destruct (IH H) as (x' & k' & Hx & Hy).
      exists x', k'. split; [exact Hx |].
      replace (i + S j)%nat with (S i + j)%nat by lia. exact Hy.
Qed.

Lemma rand_mapi_length (l : list A) (i k : nat) :
  List.length (fst (rand_mapi f i l rnd k)) = List.length l.
Proof.
  revert i k. induction l as [| x l IH]; intros i k; simpl; [reflexivity |].
  unfold rand_bind. destruct (f i x rnd k) as [y0 k1].
  specialize (IH (S i) k1).
  destruct (rand_mapi f (S i) l rnd k1) as [ys k2]. simpl in *. now rewrite IH.
Qed.

(** A projection that the callback copies from its argument is mapped
    pointwise. *)
Lemma rand_mapi_map {C : Type} (g : B -> C) (h : A -> C) (l : list A) (i k : nat) :
  (forall i x k, g (fst (f i x rnd k)) = h x) ->
  map g (fst (rand_mapi f i l rnd k)) = map h l.
Proof.
  intros Hg. revert i k. induction l as [| x l IH]; intros i k; simpl; [reflexivity |].
  unfold rand_bind. pose proof (Hg i x k) as H0.
  destruct (f i x rnd k) as [y0 k1].
  specialize (IH (S i) k1).
  destruct (rand_mapi f (S i) l rnd k1) as [ys k2]. simpl in *. now rewrite H0, IH.
Qed.
End RandMapi.

(** ** The result generator *)

Section Generator.
Variable rnd : RandomSource.
(** [Math.random()] returns a number in [[0, 1)]. *)
Hypothesis rnd_range : forall k, 0 <= rnd k /\ rnd k < 1.

Lemma diseaseIndex_range (k : nat) :
  (0 <= Math_floor (rnd k * inject_Z (Z.of_nat (List.length DISEASE_TYPES))) < 10)%Z.
Proof.
  destruct (rnd_range k) as [H0 H1].
  change (inject_Z (Z.of_nat (List.length DISEASE_TYPES))) with 10.
  apply Math_floor_range.
  - change (inject_Z 0) with 0. lra.
  - change (inject_Z 10) with 10. lra.
Qed.

Lemma confidence_range (k : nat) :
  85 <= round2 (85 + rnd k * 12) /\ round2 (85 + rnd k * 12) <= 97.
Proof.
  destruct (rnd_range k) as [H0 H1]. split.
  - apply Qle_trans with (round2 85); [vm_compute; discriminate |].
    apply round2_mono. lra.
  - apply Qle_trans with (round2 97); [| vm_compute; discriminate].
    apply round2_mono. lra.
Qed.

Lemma classify_name (dI : Z) (c : Q) (i : nat) (x : string) (k : nat) :
  diseaseName (fst (classify dI c i x rnd k)) = x.
Proof. unfold classify. destruct (Z.eqb _ _); reflexivity. Qed.

Lemma classify_primary (dI : Z) (c : Q) (i : nat) (x : string) (k : nat) :
  Z.of_nat i = dI ->
  probability (fst (classify dI c i x rnd k)) = round2 c.
Proof.
  intros <-. unfold classify. rewrite Z.eqb_refl. reflexivity.
Qed.

Lemma classify_other (dI : Z) (c : Q) (i : nat) (x : string) (k : nat) :
  Z.of_nat i <> dI -> 85 <= c ->
  probability (fst (classify dI c i x rnd k)) <= 3 # 2.
Proof.
  intros Hne Hc. unfold classify.
  destruct (Z.eqb_spec (Z.of_nat i) dI) as [E | _]; [contradiction |].
  cbn. destruct (rnd_range k) as [H0 H1].
  apply Qle_trans with (round2 (3 # 2)); [| vm_compute; discriminate].
  apply round2_mono.
  change (inject_Z (Z.of_nat 10)) with 10.
  assert (rnd k * (100 - c) <= 15) by nra.
  apply Qle_shift_div_r; lra.
Qed.

Lemma differential_cellType (p : string) (c : CellTypeSpec) (k : nat) :
  cellType (fst (differential p c rnd k)) = name c.
Proof.
  unfold differential, rand_bind, Math_random, rand_ret.
  destruct (includes p "Leukemia"); [destruct (Qgtb _ _) |]; reflexivity.
Qed.

Lemma differential_count (p : string) (c : CellTypeSpec) (k : nat) :
  count (fst (differential p c rnd k))
  = Math_floor (percentage (fst (differential p c rnd k)) * 100).
Proof.
  unfold differential, rand_bind, Math_random, rand_ret.
  destruct (includes p "Leukemia"); [destruct (Qgtb _ _) |]; reflexivity.
Qed.

Lemma differential_normal (p : string) (c : CellTypeSpec) (k : nat) :
  includes p "Leukemia" = false ->
  abnormalCount (fst (differential p c rnd k)) = 0%Z.
Proof.
  intros H. unfold differential, rand_bind, Math_random, rand_ret.
  rewrite H. reflexivity.
Qed.

Lemma CELL_TYPES_plausible (c : CellTypeSpec) :
  In c CELL_TYPES -> plausible_range c.
Proof.
  unfold CELL_TYPES. simpl.
  intros [<- | [<- | [<- | [<- | [<- | []]]]]]; unfold plausible_range; simpl;
    repeat split; lra.
Qed.

Lemma round2_percent (x : Q) : 0 <= x -> x <= 100 ->
  0 <= round2 x /\ round2 x <= 100.
Proof.
  intros H0 H1. split.
  - apply Qle_trans with (round2 0); [vm_compute; discriminate |].
    now apply round2_mono.
  - apply Qle_trans with (round2 100); [| vm_compute; discriminate].
    now apply round2_mono.
Qed.

Lemma abnormal_share (n : Z) (r : Q) :
  (0 <= n)%Z -> 0 <= r -> r < 1 ->
  (0 <= Math_floor (inject_Z n * ((2 # 10) + r * (3 # 10))) <= n)%Z.
Proof.
  intros Hn H0 H1.
  assert (Hq : 0 <= inject_Z n).
  { change 0 with (inject_Z 0). now rewrite <- Zle_Qle. }
  split.
  - apply Math_floor_nonneg. nra.
  - rewrite <- (Math_floor_inject n) at 2. apply Math_floor_mono. nra.
Qed.

Lemma differential_bounds (p : string) (c : CellTypeSpec) (k : nat) :
  plausible_range c ->
  let row := fst (differential p c rnd k) in
  0 <= percentage row /\ percentage row <= 100
  /\ (0 <= abnormalCount row)%Z /\ (abnormalCount row <= count row)%Z.
Proof.
  intros (Hlo & Hlh & Hhi & H30).
  unfold differential, rand_bind, Math_random, rand_ret.
  destruct (includes p "Leukemia"); [destruct (Qgtb _ _) |]; cbn -[round2 Math_floor].
  - destruct (rnd_range (S k)) as [H0 H1].
    destruct (rnd_range (S (S k))) as [H0' H1'].
    assert (Hp : 0 <= round2 (fst (normalRange c) + rnd (S k) * 30)
                 /\ round2 (fst (normalRange c) + rnd (S k) * 30) <= 100)
      by (apply round2_percent; nra).
    destruct Hp as [Hp0 Hp1]. split; [exact Hp0 |]. split; [exact Hp1 |].
    apply abnormal_share; [| assumption | assumption].
    apply Math_floor_nonneg. nra.
  - destruct (rnd_range (S k)) as [H0 H1].
    assert (Hp : 0 <= round2 (fst (normalRange c)
                   + rnd (S k) * (snd (normalRange c) - fst (normalRange c)))
                 /\ round2 (fst (normalRange c)
                   + rnd (S k) * (snd (normalRange c) - fst (normalRange c))) <= 100)
      by (apply round2_percent; nra).
    destruct Hp as [Hp0 Hp1]. split; [exact Hp0 |]. split; [exact Hp1 |].
    split; [lia |]. apply Math_floor_nonneg. nra.
  - destruct (rnd_range k) as [H0 H1].
    assert (Hp : 0 <= round2 (fst (normalRange c)
                   + rnd k * (snd (normalRange c) - fst (normalRange c)))
                 /\ round2 (fst (normalRange c)
                   + rnd k * (snd (normalRange c) - fst (normalRange c))) <= 100)
      by (apply round2_percent; nra).
    destruct Hp as [Hp0 Hp1]. split; [exact Hp0 |]. split; [exact Hp1 |].
    split; [lia |]. apply Math_floor_nonneg. nra.
Qed.

(** The fields of the generated object, by the random numbers they use. *)
Lemma generate_fields (k : nat) :
  let dI := Math_floor (rnd k * inject_Z (Z.of_nat (List.length DISEASE_TYPES))) in
  let primary := nth (Z.to_nat dI) DISEASE_TYPES "" in
  let c := 85 + rnd (S k) * 12 in
  let r := fst (generateMockAnalysisResults rnd k) in
  diseaseDetected r = primary
  /\ confidenceScore r = round2 c
  /\ analysisNotes r = notes_for primary
  /\ diseaseClassifications r
     = js_sort by_probability_desc
         (fst (rand_mapi (classify dI c) 0 DISEASE_TYPES rnd (S (S k))))
  /\ (exists k', cellCounts r
        = fst (rand_mapi (fun _ => differential primary) 0 CELL_TYPES rnd k'))
  /\ (exists k', rbcCount r = (4500000 + Math_floor (rnd k' * 1000000))%Z
        /\ wbcCount r = (4000 + Math_floor (rnd (S k') * 7000))%Z
        /\ plateletCount r = (150000 + Math_floor (rnd (S (S k')) * 250000))%Z).
Proof.
  intros dI primary c r. subst r dI primary c.
  unfold generateMockAnalysisResults.
  repeat (rewrite rand_bind_eq; unfold Math_random at 1 2; cbn [fst snd]).
  unfold rand_ret. cbn [fst diseaseDetected confidenceScore analysisNotes
    diseaseClassifications cellCounts rbcCount wbcCount plateletCount].
  repeat split; try reflexivity; eexists; repeat split; reflexivity.
Qed.

Lemma primary_in_table (k : nat) :
  In (diseaseDetected (fst (generateMockAnalysisResults rnd k))) DISEASE_TYPES.
Proof.
  destruct (generate_fields k) as (-> & _).
  apply nth_In. pose proof (diseaseIndex_range k) as H.
  change (List.length DISEASE_TYPES) with 10%nat in *. lia.
Qed.

(** The unsorted table: the row of the drawn index carries the rounded
    confidence, every other row at most 1.5. *)
Lemma classified_rows (k k' : nat) (y : ClassificationResult) :
  let dI := Math_floor (rnd k * inject_Z (Z.of_nat (List.length DISEASE_TYPES))) in
  let c := 85 + rnd (S k) * 12 in
  In y (fst (rand_mapi (classify dI c) 0 DISEASE_TYPES rnd k')) ->
  (diseaseName y = nth (Z.to_nat dI) DISEASE_TYPES "" /\ probability y = round2 c)
  \/ probability y <= 3 # 2.
Proof.
  intros dI c Hy.
  apply list_elem_of_In, list_elem_of_lookup in Hy. destruct Hy as [j Hj].
  apply rand_mapi_lookup in Hj. destruct Hj as (x & k'' & Hx & ->).
  destruct (Z.eq_dec (Z.of_nat (0 + j)) dI) as [E | E].
  - left. split.
    + rewrite classify_name, <- E. change (0 + j)%nat with j.
      rewrite Nat2Z.id. symmetry. now apply nth_lookup_Some.
    + now apply classify_primary.
  - right. apply classify_other; [exact E |].
    subst c. destruct (rnd_range (S k)). lra.
Qed.

Lemma classified_primary (k k' : nat) :
  let dI := Math_floor (rnd k * inject_Z (Z.of_nat (List.length DISEASE_TYPES))) in
  let c := 85 + rnd (S k) * 12 in
  exists y, In y (fst (rand_mapi (classify dI c) 0 DISEASE_TYPES rnd k'))
    /\ diseaseName y = nth (Z.to_nat dI) DISEASE_TYPES ""
    /\ probability y = round2 c.
Proof.
  intros dI c. pose proof (diseaseIndex_range k) as Hd. fold dI in Hd.
  destruct (lookup_lt_is_Some_2
              (fst (rand_mapi (classify dI c) 0 DISEASE_TYPES rnd k'))
              (Z.to_nat dI)) as [y Hy].
  { rewrite rand_mapi_length. change (List.length DISEASE_TYPES) with 10%nat. lia. }
  exists y. split.
  { apply list_elem_of_In, list_elem_of_lookup. eauto. }
  apply rand_mapi_lookup in Hy. destruct Hy as (x & k'' & Hx & ->).
  split.
  - rewrite classify_name. symmetry. now apply nth_lookup_Some.
  - apply classify_primary. simpl. lia.
Qed.

Lemma classification_labels (k : nat) :
  Permutation
    (map diseaseName (diseaseClassifications (fst (generateMockAnalysisResults rnd k))))
    DISEASE_TYPES.
Proof.
  destruct (generate_fields k) as (_ & _ & _ & -> & _).
  rewrite (Permutation_map diseaseName (js_sort_perm _ _)).
  rewrite (rand_mapi_map _ _ diseaseName (fun x => x)).
  - now rewrite map_id.
  - intros. apply classify_name.
Qed.

Lemma cell_labels (k : nat) :
  map cellType (cellCounts (fst (generateMockAnalysisResults rnd k)))
  = map name CELL_TYPES.
Proof.
  destruct (generate_fields k) as (_ & _ & _ & _ & (k' & ->) & _).
  apply rand_mapi_map. intros. apply differential_cellType.
Qed.

(** Each generated cell row is the callback's value on a row of
    [CELL_TYPES]. *)
Lemma cell_rows (k : nat) (row : CellCountResult) :
  In row (cellCounts (fst (generateMockAnalysisResults rnd k))) ->
  exists c k', In c CELL_TYPES
    /\ row = fst (differential
                   (diseaseDetected (fst (generateMockAnalysisResults rnd k)))
                   c rnd k').
Proof.
  destruct (generate_fields k) as (-> & _ & _ & _ & (k' & ->) & _).
  intros Hrow.
  apply list_elem_of_In, list_elem_of_lookup in Hrow. destruct Hrow as [j Hj].
  apply rand_mapi_lookup in Hj. destruct Hj as (c & k'' & Hc & ->).
  exists c, k''. split; [| reflexivity].
  apply list_elem_of_In, list_elem_of_lookup. eauto.
Qed.
End Generator.

(** ** Properties of the generated result *)

Lemma always_half_range (k : nat) : 0 <= always_half k /\ always_half k < 1.
Proof. unfold always_half. split; lra. Qed.

(** C5: whatever the random source returns, the detected label is one of
    the ten fixed labels, the confidence score lies in [85, 97], and the
    classification row of highest probability is the row of the detected
    label: that row exists, bounds every row, and every row that bounds
    all the others bears the detected label. *)
Theorem generated_top_row_is_detected (rnd : RandomSource) (k : nat) :
  (forall j, 0 <= rnd j /\ rnd j < 1) ->
  let r := fst (generateMockAnalysisResults rnd k) in
  In (diseaseDetected r) DISEASE_TYPES
  /\ 85 <= confidenceScore r /\ confidenceScore r <= 97
  /\ (exists top, In top (diseaseClassifications r)
        /\ diseaseName top = diseaseDetected r
        /\ forall row, In row (diseaseClassifications r) ->
             probability row <= probability top)
  /\ (forall row, In row (diseaseClassifications r) ->
        (forall row', In row' (diseaseClassifications r) ->
           probability row' <= probability row) ->
        diseaseName row = diseaseDetected r).
Proof.
  intros Hrnd r.
  pose proof (primary_in_table rnd Hrnd k) as Hin.
  destruct (generate_fields rnd k) as (Hd & Hc & _ & Hrows & _).
  fold r in Hin, Hd, Hc, Hrows.
  destruct (confidence_range rnd Hrnd (S k)) as [Hlo Hhi].
  destruct (classified_primary rnd Hrnd k (S (S k))) as (top & Htop & Hname & Hprob).
  split; [exact Hin |]. rewrite Hc. split; [exact Hlo |]. split; [exact Hhi |].
  assert (Hall : forall row, In row (diseaseClassifications r) ->
            (diseaseName row = diseaseDetected r
             /\ probability row = probability top)
            \/ probability row <= 3 # 2).
  { intros row Hrow. rewrite Hrows in Hrow. apply js_sort_In in Hrow.
    destruct (classified_rows rnd Hrnd k _ row Hrow) as [[Hn Hp] | Hsmall].
    - left. now rewrite Hd, Hn, Hp, Hprob.
    - now right. }
  split.
  - exists top. split; [rewrite Hrows; now apply js_sort_In |].
    split; [now rewrite Hd |].
    intros row Hrow. destruct (Hall row Hrow) as [[_ ->] | Hsmall].
    + apply Qle_refl.
    + rewrite Hprob. lra.
  - intros row Hrow Hmax.
    destruct (Hall row Hrow) as [[Hn _] | Hsmall]; [exact Hn | exfalso].
    assert (Htop' : In top (diseaseClassifications r))
      by (rewrite Hrows; now apply js_sort_In).
    specialize (Hmax top Htop'). rewrite Hprob in Hmax. lra.
Qed.

Lemma generated_top_row_is_detected_witness :
  let r := fst (generateMockAnalysisResults always_half 0%nat) in
  (forall j, 0 <= always_half j /\ always_half j < 1)
  /\ In (diseaseDetected r) DISEASE_TYPES
  /\ 85 <= confidenceScore r /\ confidenceScore r <= 97
  /\ (exists top, In top (diseaseClassifications r)
        /\ diseaseName top = diseaseDetected r
        /\ forall row, In row (diseaseClassifications r) ->
             probability row <= probability top)
  /\ (forall row, In row (diseaseClassifications r) ->
        (forall row', In row' (diseaseClassifications r) ->
           probability row' <= probability row) ->
        diseaseName row = diseaseDetected r).
Proof.
  split; [exact always_half_range |].
  exact (generated_top_row_is_detected always_half 0%nat always_half_range).
Defined.

(** ** Counts of the cell rows in double precision *)

Lemma Double_map_array_In {A B} (f : A -> Double.Rand B) (l : list A)
    (rnd : Double.RandomSource) (i : nat) (y : B) :
  In y (fst (Double.map_array f l rnd i)) ->
  exists x j, In x l /\ y = fst (f x rnd j).
Proof.
  revert i. induction l as [| x l IH]; intros i; cbn [Double.map_array].
  - intros [].
  - unfold Double.bind at 1. destruct (f x rnd i) as [b j] eqn:Hb.
    unfold Double.bind at 1.
    destruct (Double.map_array f l rnd j) as [ys j'] eqn:Hys.
    cbn [Double.ret fst]. intros [<- | Hin].
    + exists x, i. split; [now left |]. now rewrite Hb.
    + destruct (IH j) as (x' & j0 & Hx' & ->); [now rewrite Hys |].
      exists x', j0. split; [now right | reflexivity].
Qed.

Lemma Double_same_eq (x y : Double.double) : Double.same x y = true -> x = y.
Proof.
  destruct x as [s | s | | s m e], y as [s' | s' | | s' m' e']; cbn [Double.same];
    try discriminate; try reflexivity.
  - intros H. apply Bool.eqb_prop in H. now subst.
  - intros H. apply Bool.eqb_prop in H. now subst.
  - intros H. apply andb_prop in H as [H He]. apply andb_prop in H as [Hs Hm].
    apply Bool.eqb_prop in Hs. apply Pos.eqb_eq in Hm. apply Z.eqb_eq in He.
    now subst.
Qed.

Lemma Double_all_from (p : Z -> bool) (n : nat) (k0 k : Z) :
  Double.all_from p n k0 = true ->
  (k0 <= k < k0 + Z.of_nat n)%Z -> p k = true.
Proof.
  revert k0. induction n as [| n IH]; intros k0 Hall Hk; [lia |].
  cbn [Double.all_from] in Hall. apply andb_prop in Hall as [Hk0 Hall].
  destruct (Z.eq_dec k k0) as [-> | Hne]; [exact Hk0 |].
  apply (IH (k0 + 1)%Z Hall). lia.
Qed.

(** Every percentage of at most 100 with two decimals, checked one by one. *)
Lemma Double_count_near_checked :
  Double.all_from Double.count_near (Z.to_nat 10001) 0%Z = true.
Proof. vm_cast_no_check (eq_refl true). Qed.

Lemma Double_count_near (k : Z) :
  (0 <= k <= 10000)%Z ->
  Double.count_of_hundredths k = Double.of_Z k
  \/ Double.count_of_hundredths k = Double.of_Z (k - 1).
Proof.
  intros Hk.
  assert (Hin : (0 <= k < 0 + Z.of_nat (Z.to_nat 10001))%Z)
    by (rewrite Z2Nat.id; lia).
  pose proof (Double_all_from _ _ _ k Double_count_near_checked Hin) as H.
  unfold Double.count_near in H. apply orb_prop in H as [H | H];
    apply Double_same_eq in H; [now left | now right].
Qed.

Lemma Double_differential_count (p : string) (c : CellTypeSpec)
    (rnd : Double.RandomSource) (j : nat) :
  let row := fst (Double.differential p c rnd j) in
  Double.count row
  = Double.Math_floor (Double.mul (Double.percentage row) (Double.of_Z 100%Z)).
Proof.
  unfold Double.differential, Double.bind, Double.ret, Double.Math_random.
  destruct (includes p "Leukemia"); [destruct (Double.gt _ _) |]; reflexivity.
Qed.

Lemma Double_differential_normal (p : string) (c : CellTypeSpec)
    (rnd : Double.RandomSource) (j : nat) :
  includes p "Leukemia" = false ->
  Double.abnormalCount (fst (Double.differential p c rnd j)) = Double.of_Z 0%Z.
Proof.
  intros Hp.
  unfold Double.differential, Double.bind, Double.ret, Double.Math_random.
  rewrite Hp. reflexivity.
Qed.

(** C10, as the code has it: in every generated cell row the count is
    [Math.floor] of the product of the percentage and 100 computed in double
    precision; whenever the percentage is [k / 100] for an integer [k] from
    0 to 10000, that is [k] or [k - 1].  The abnormal count is zero
    whenever the primary disease does not contain "Leukemia". *)
Theorem generated_cell_row_counts (primaryDisease : string)
    (rnd : Double.RandomSource) (i : nat) (row : Double.CellCountResult) :
  In row (fst (Double.cellCounts primaryDisease rnd i)) ->
  Double.count row
  = Double.Math_floor (Double.mul (Double.percentage row) (Double.of_Z 100%Z))
  /\ (forall k : Z,
        (0 <= k <= 10000)%Z ->
        Double.percentage row = Double.div (Double.of_Z k) (Double.of_Z 100%Z) ->
        Double.count row = Double.of_Z k \/ Double.count row = Double.of_Z (k - 1))
  /\ (includes primaryDisease "Leukemia" = false ->
      Double.abnormalCount row = Double.of_Z 0%Z).
Proof.
  intros Hrow. apply Double_map_array_In in Hrow as (c & j & _ & ->).
  pose proof (Double_differential_count primaryDisease c rnd j) as Hcount.
  cbv zeta in Hcount. split; [exact Hcount |]. split.
  - intros k Hk Hp. rewrite Hcount, Hp. apply (Double_count_near k Hk).
  - apply Double_differential_normal.
Qed.

Lemma generated_cell_row_counts_witness :
  let row := {| Double.cellType := "Monocytes";
                Double.count := Double.of_Z 229%Z;
                Double.percentage := Double.div (Double.of_Z 230%Z) (Double.of_Z 100%Z);
                Double.abnormalCount := Double.of_Z 0%Z |} in
  In row (fst (Double.cellCounts "Normal" (Double.always (5 # 100)%Q) 12%nat))
  /\ Double.count row
     = Double.Math_floor (Double.mul (Double.percentage row) (Double.of_Z 100%Z))
  /\ (Double.count row = Double.of_Z 230%Z \/ Double.count row = Double.of_Z (230 - 1)%Z)
  /\ Double.abnormalCount row = Double.of_Z 0%Z.
Proof.
  assert (Hin : In {| Double.cellType := "Monocytes";
                      Double.count := Double.of_Z 229%Z;
                      Double.percentage := Double.div (Double.of_Z 230%Z) (Double.of_Z 100%Z);
                      Double.abnormalCount := Double.of_Z 0%Z |}
                  (fst (Double.cellCounts "Normal" (Double.always (5 # 100)%Q) 12%nat))).
  { vm_compute. right. right. left. reflexivity. }
  split; [exact Hin |].
  destruct (generated_cell_row_counts "Normal" (Double.always (5 # 100)%Q) 12%nat _ Hin)
    as (Hc & Hk & Hz).
  split; [exact Hc |]. split; [| apply Hz; reflexivity].
  apply (Hk 230%Z); [lia | reflexivity].
Defined.

(** C10, as stated, fails of the numbers the code computes.  With
    [Math.random()] returning 0.05 at every call the generator chooses
    [DISEASE_TYPES[0]], "Normal", and the Monocytes row has percentage 2.3
    and count 229, while the floor of 2.3 times 100 is 230.  With 0.031 at
    every call the Basophils row has percentage 0.03 and count 3, while the
    double 0.03 lies below 3/100 and the floor of 100 times its exact value
    is 2. *)
Lemma generated_cell_row_counts_counterexample :
  (exists row,
     In row (fst (Double.cellCounts "Normal" (Double.always (5 # 100)%Q) 12%nat))
     /\ Double.cellType row = "Monocytes"
     /\ Double.percentage row = Double.literal (23 # 10)%Q
     /\ Double.count row = Double.of_Z 229%Z
     /\ Qfloor ((23 # 10) * 100)%Q = 230%Z)
  /\ (exists row,
        In row (fst (Double.cellCounts "Normal" (Double.always (31 # 1000)%Q) 12%nat))
        /\ Double.cellType row = "Basophils"
        /\ Double.percentage row = Double.literal (3 # 100)%Q
        /\ Double.count row = Double.of_Z 3%Z
        /\ Qfloor (Double.to_Q (Double.percentage row) * 100)%Q = 2%Z).
Proof.
  split.
  - eexists. split; [vm_compute; right; right; left; reflexivity |].
    repeat split; vm_compute; reflexivity.
  - eexists. split; [vm_compute; do 4 right; left; reflexivity |].
    repeat split; vm_compute; reflexivity.
Qed.


(** ** The deferred completion callback *)

Local Close Scope Q_scope.
Local Open Scope nat_scope.

(** Unfolding of the database monad. *)
Ltac db_unfold :=
  unfold run_completion, run_handler, completion, completion_try, completion_catch,
    db_try, db_bind, db_ret,
    Analysis_save, DiseaseClassification_insertMany, CellCount_insertMany,
    Notification_create, db_call;
  cbn [db calls fst snd].

(** Decide the next oracle query and the next lookup of the document. *)
Ltac db_step :=
  first
    [ match goal with
      | H : ?flt ?k = _ |- context [?flt ?k] => rewrite H
      | H : analyses ?st !! ?i = _ |- context [analyses ?st !! ?i] => rewrite H
      end
    | rewrite lookup_insert_eq ];
  cbn [db calls fst snd set_analyses set_classifications set_cellCountRows
       set_notifications analyses nextId classifications cellCountRows
       notifications a_id a_fields set_status set_results].

(** No write throws: the document is saved as completed with the results,
    all detail rows are appended, one success notification is added. *)
Lemma completion_no_fault (t : Task) (execPromise : InferenceRuntime)
    (rnd : RandomSource) (now : Time) (st : Store) (stored : AnalysisFields)
    (flt : Faults) :
  analyses st !! a_id (t_analysis t) = Some stored ->
  flt 0 = false -> flt 1 = false -> flt 2 = false -> flt 3 = false ->
  run_completion t execPromise rnd now flt st
  = let id := a_id (t_analysis t) in
    let r := obtain_results execPromise rnd (a_imageUrl (a_fields (t_analysis t))) in
    {| analyses := <[id := a_fields (set_results r now (t_analysis t))]> (analyses st);
       nextId := nextId st;
       classifications := classifications st ++ classification_docs id r;
       cellCountRows := cellCountRows st ++ cellCount_docs id r;
       notifications := notifications st ++ [success_notification (t_user t) r id] |}.
Proof.
  intros Hstored H0 H1 H2 H3. db_unfold. repeat db_step. reflexivity.
Qed.

(** One write of the [try] block throws: the document is saved as failed,
    still carrying the results; the rows appended before the failing write
    stay; one error notification is added. *)
Lemma completion_single_fault (t : Task) (execPromise : InferenceRuntime)
    (rnd : RandomSource) (now : Time) (st : Store) (stored : AnalysisFields)
    (flt : Faults) (k : nat) :
  analyses st !! a_id (t_analysis t) = Some stored ->
  single_fault flt k ->
  run_completion t execPromise rnd now flt st
  = let id := a_id (t_analysis t) in
    let r := obtain_results execPromise rnd (a_imageUrl (a_fields (t_analysis t))) in
    {| analyses :=
         <[id := a_fields (set_status failed (set_results r now (t_analysis t)))]>
           (analyses st);
       nextId := nextId st;
       classifications :=
         classifications st ++ (if 2 <=? k then classification_docs id r else []);
       cellCountRows :=
         cellCountRows st ++ (if 3 <=? k then cellCount_docs id r else []);
       notifications := notifications st ++ [error_notification (t_user t) id] |}.
Proof.
  intros Hstored (Hk & Hbefore & Hat & Hc1 & Hc2). cbv zeta.
  destruct k as [| [| [| [| k]]]]; [| | | | lia]; cbn [Nat.add] in Hc1, Hc2.
  - db_unfold. repeat db_step. rewrite !app_nil_r. reflexivity.
  - pose proof (Hbefore 0 ltac:(lia)) as H0.
    db_unfold. repeat db_step.
    rewrite insert_insert_eq, !app_nil_r. reflexivity.
  - pose proof (Hbefore 0 ltac:(lia)) as H0. pose proof (Hbefore 1 ltac:(lia)) as H1.
    db_unfold. repeat db_step.
    rewrite insert_insert_eq, !app_nil_r. reflexivity.
  - pose proof (Hbefore 0 ltac:(lia)) as H0. pose proof (Hbefore 1 ltac:(lia)) as H1.
    pose proof (Hbefore 2 ltac:(lia)) as H2.
    db_unfold. repeat db_step.
    rewrite insert_insert_eq. reflexivity.
Qed.

(** ** The synchronous handlers *)

Ltac handler_unfold :=
  unfold processAnalysis, processAnalysis_body, getAnalysisById, getAnalysisById_body,
    deleteAnalysis, deleteAnalysis_body, createAnalysis, createAnalysis_body,
    run_handler, db_bind, db_ret,
    Analysis_findById, Analysis_create, Analysis_save, Analysis_deleteOne,
    DiseaseClassification_find_sorted, DiseaseClassification_deleteMany,
    CellCount_find_sorted, CellCount_deleteMany, db_call;
  cbn [db calls fst snd].

Ltac handler_step :=
  first
    [ match goal with
      | H : ?flt ?k = _ |- context [?flt ?k] => rewrite H
      | H : analyses ?st !! ?i = _ |- context [analyses ?st !! ?i] => rewrite H
      | H : negb (Nat.eqb ?a ?b) = _ |- context [negb (Nat.eqb ?a ?b)] => rewrite H
      end
    | rewrite lookup_insert_eq ];
  cbn [db calls fst snd set_analyses set_classifications set_cellCountRows
       set_notifications analyses nextId classifications cellCountRows
       notifications a_id a_fields set_status set_results fmap option_fmap option_map
       a_userId].

Lemma owner_mismatch (f : AnalysisFields) (user : Id) :
  a_userId f <> user -> negb (Nat.eqb (a_userId f) user) = true.
Proof. intros H. apply negb_true_iff, Nat.eqb_neq, H. Qed.

Lemma owner_match (f : AnalysisFields) (user : Id) :
  a_userId f = user -> negb (Nat.eqb (a_userId f) user) = false.
Proof. intros H. apply negb_false_iff, Nat.eqb_eq, H. Qed.

(** A task scheduled by [processAnalysis] carries the document of the
    requested identifier, which is stored and owned by the requester. *)
Lemma processAnalysis_task (user id : Id) (flt : Faults) (st st' : Store)
    (resp : Response) (t : Task) :
  processAnalysis user id flt st = ((resp, Some t), st') ->
  a_id (t_analysis t) = id
  /\ a_userId (a_fields (t_analysis t)) = user
  /\ t_user t = user
  /\ a_status (a_fields (t_analysis t)) = processing
  /\ analyses st' !! id = Some (a_fields (t_analysis t)).
Proof.
  handler_unfold.
  destruct (flt 0%nat); [discriminate |].
  destruct (analyses st !! id) as [f |] eqn:Hf;
    cbn [fmap option_fmap option_map db calls fst snd]; [| discriminate].
  cbn [a_fields].
  destruct (Nat.eqb_spec (a_userId f) user) as [Hu | Hu]; cbn [negb db calls fst snd];
    [| discriminate].
  destruct (flt 1%nat); [discriminate |].
  cbn [a_id set_status]. rewrite Hf. cbn [db calls fst snd].
  intros [= <- <- <-].
  cbn [t_analysis t_user a_id a_fields a_userId a_status set_analyses analyses].
  rewrite lookup_insert_eq. auto.
Qed.

(** ** Detail rows of one analysis *)

Lemma filter_own_classifications (id : Id) (r : AiResults) :
  List.filter (fun row => Nat.eqb (dc_analysisId row) id) (classification_docs id r)
  = classification_docs id r.
Proof.
  unfold classification_docs.
  induction (diseaseClassifications r) as [| x rows IH]; simpl; [reflexivity |].
  now rewrite Nat.eqb_refl, IH.
Qed.

Lemma filter_own_cellCounts (id : Id) (r : AiResults) :
  List.filter (fun row => Nat.eqb (cc_analysisId row) id) (cellCount_docs id r)
  = cellCount_docs id r.
Proof.
  unfold cellCount_docs.
  induction (cellCounts r) as [| x rows IH]; simpl; [reflexivity |].
  now rewrite Nat.eqb_refl, IH.
Qed.

(** ** Outcome of the completion callback *)

(** C1, as the code has it: when one write of the completion sequence
    throws, at any of its four points, while the document is still stored
    and the two writes of the recovery succeed, the Analysis ends as
    failed and exactly one notification, of type error, is added.  The
    result fields assigned before the failure stay populated, and the
    detail rows written before the failing write stay: none when the save
    or the classification insert throws, the classification rows when the
    cell count insert throws, both when the success notification throws. *)
Theorem failed_completion_outcome (t : Task) (execPromise : InferenceRuntime)
    (rnd : RandomSource) (now : Time) (st : Store) (flt : Faults) (k : nat) :
  is_Some (analyses st !! a_id (t_analysis t)) ->
  single_fault flt k ->
  let id := a_id (t_analysis t) in
  let r := obtain_results execPromise rnd (a_imageUrl (a_fields (t_analysis t))) in
  let st' := run_completion t execPromise rnd now flt st in
  (exists f, analyses st' !! id = Some f
     /\ a_status f = failed
     /\ a_diseaseDetected f = Some (diseaseDetected r)
     /\ a_confidenceScore f = Some (confidenceScore r)
     /\ a_rbcCount f = Some (rbcCount r)
     /\ a_wbcCount f = Some (wbcCount r)
     /\ a_plateletCount f = Some (plateletCount r)
     /\ a_analysisNotes f = Some (analysisNotes r))
  /\ notifications st' = (notifications st ++ [error_notification (t_user t) id])%list
  /\ n_type (error_notification (t_user t) id) = error
  /\ classifications_of st' id
     = (classifications_of st id
        ++ (if 2 <=? k then classification_docs id r else []))%list
  /\ cellCounts_of st' id
     = (cellCounts_of st id
        ++ (if 3 <=? k then cellCount_docs id r else []))%list.
Proof.
  intros [stored Hstored] Hfault id r st'. subst st'.
  rewrite (completion_single_fault t execPromise rnd now st stored flt k Hstored Hfault).
  cbv zeta. fold id. fold r. unfold classifications_of, cellCounts_of.
  cbn [analyses notifications classifications cellCountRows].
  split.
  { eexists. split; [apply lookup_insert_eq |]. repeat split; reflexivity. }
  split; [reflexivity |]. split; [reflexivity |].
  rewrite !List.filter_app. split; f_equal.
  - destruct (2 <=? k); [apply filter_own_classifications | reflexivity].
  - destruct (3 <=? k); [apply filter_own_cellCounts | reflexivity].
Qed.

Lemma fault_at_single (k : nat) : k < 4 -> single_fault (fault_at k) k.
Proof.
  intros Hk. unfold single_fault, fault_at. split; [exact Hk |].
  split; [intros j Hj; apply Nat.eqb_neq; lia |].
  split; [apply Nat.eqb_refl |]. split; apply Nat.eqb_neq; lia.
Qed.

Lemma failed_completion_outcome_witness :
  is_Some (analyses (store started) !! 0)
  /\ single_fault (fault_at 2) 2
  /\ status_of interrupted 0 = Some failed
  /\ List.length (notifications (store interrupted)) = 1
  /\ List.length (classifications_of (store interrupted) 0) = 10
  /\ cellCounts_of (store interrupted) 0 = [].
Proof.
  assert (Hs : is_Some (analyses (store started) !! 0)) by (vm_compute; eauto).
  assert (Hf : single_fault (fault_at 2) 2) by (apply fault_at_single; lia).
  split; [exact Hs |]. split; [exact Hf |].
  pose proof (failed_completion_outcome
                {| t_analysis := {| a_id := 0;
                                    a_fields := {| a_userId := 7;
                                      a_imageUrl := "uploads/img-1.png";
                                      a_status := processing;
                                      a_diseaseDetected := None;
                                      a_confidenceScore := None;
                                      a_rbcCount := None; a_wbcCount := None;
                                      a_plateletCount := None;
                                      a_analysisNotes := None;
                                      a_completedAt := None |} |};
                   t_user := 7 |}
                python_absent always_half 5 (store started) (fault_at 2) 2 Hs Hf)
    as ((f & Hf1 & Hf2 & _) & Hn & _ & Hdc & Hcc).
  cbn [t_analysis a_id] in Hf1, Hn, Hdc, Hcc.
  change (run_completion _ python_absent always_half 5 (fault_at 2) (store started))
    with (store interrupted) in Hf1, Hn, Hdc, Hcc.
  split; [unfold status_of; now rewrite Hf1; simpl; rewrite Hf2 |].
  split; [now rewrite Hn |].
  split; [rewrite Hdc; reflexivity | rewrite Hcc; reflexivity].
Defined.

(** C1, as stated, fails where the insertion of the cell counts throws:
    the Analysis ends as failed, but its result fields are populated and
    its ten classification rows remain. *)
Lemma failed_completion_counterexample :
  single_fault (fault_at 2) 2
  /\ status_of interrupted 0 = Some failed
  /\ a_diseaseDetected <$> analyses (store interrupted) !! 0
     = Some (Some "Chronic Lymphocytic Leukemia")
  /\ List.length (classifications_of (store interrupted) 0) = 10
  /\ ~ (a_diseaseDetected <$> analyses (store interrupted) !! 0 = Some None
        /\ classifications_of (store interrupted) 0 = []
        /\ cellCounts_of (store interrupted) 0 = []
        /\ List.length (List.filter (fun n => bool_decide (n_type n = error))
                          (notifications_of (store interrupted) 0)) = 1).
Proof.
  split; [apply fault_at_single; lia |].
  split; [reflexivity |]. split; [reflexivity |]. split; [reflexivity |].
  intros (H & _). discriminate H.
Qed.

(** C3: when the inference invoker fails on every call, a processing
    request that was accepted ends, once its completion sequence runs
    without a persistence error, with the Analysis completed and its six
    result fields set from the generated result. *)
Theorem fallback_reaches_completed (user id : Id) (flt0 : Faults)
    (st0 st1 st2 : Store) (resp : Response) (t : Task)
    (execPromise : InferenceRuntime) (rnd : RandomSource) (now : Time)
    (flt : Faults) :
  processAnalysis user id flt0 st0 = ((resp, Some t), st1) ->
  (forall path, runAIInference execPromise path = None) ->
  (forall k, flt k = false) ->
  is_Some (analyses st2 !! id) ->
  let r := fst (generateMockAnalysisResults rnd 0) in
  exists f, analyses (run_completion t execPromise rnd now flt st2) !! id = Some f
    /\ a_status f = completed
    /\ a_diseaseDetected f = Some (diseaseDetected r)
    /\ a_confidenceScore f = Some (confidenceScore r)
    /\ a_rbcCount f = Some (rbcCount r)
    /\ a_wbcCount f = Some (wbcCount r)
    /\ a_plateletCount f = Some (plateletCount r)
    /\ a_analysisNotes f = Some (analysisNotes r).
Proof.
  intros Hproc Hdown Hflt [stored Hstored] r.
  destruct (processAnalysis_task _ _ _ _ _ _ _ Hproc) as (Hid & _).
  rewrite <- Hid in Hstored |- *.
  rewrite (completion_no_fault t execPromise rnd now st2 stored flt Hstored)
    by apply Hflt.
  cbn [analyses]. rewrite lookup_insert_eq.
  eexists. split; [reflexivity |].
  unfold obtain_results. rewrite Hdown. fold r.
  repeat split; reflexivity.
Qed.

Lemma fallback_reaches_completed_witness :
  (exists resp t st1,
     processAnalysis 7 0 no_faults (store uploaded) = ((resp, Some t), st1))
  /\ (forall path, runAIInference python_absent path = None)
  /\ (forall k, no_faults k = false)
  /\ is_Some (analyses (store started) !! 0)
  /\ exists f, analyses (store finished) !! 0 = Some f
       /\ a_status f = completed
       /\ a_diseaseDetected f = Some "Chronic Lymphocytic Leukemia".
Proof.
  assert (Hp : processAnalysis 7 0 no_faults (store uploaded)
               = (({| code := 200; body := Message "Analysis processing started" |},
                   Some {| t_analysis :=
                             {| a_id := 0;
                                a_fields := {| a_userId := 7;
                                  a_imageUrl := "uploads/img-1.png";
                                  a_status := processing;
                                  a_diseaseDetected := None;
                                  a_confidenceScore := None;
                                  a_rbcCount := None; a_wbcCount := None;
                                  a_plateletCount := None;
                                  a_analysisNotes := None;
                                  a_completedAt := None |} |};
                           t_user := 7 |}),
                  store started)) by reflexivity.
  assert (Hs : is_Some (analyses (store started) !! 0)) by (vm_compute; eauto).
  split; [eauto |]. split; [reflexivity |]. split; [reflexivity |].
  split; [exact Hs |].
  destruct (fallback_reaches_completed 7 0 no_faults (store uploaded) (store started)
              (store started) _ _ python_absent always_half 5 no_faults Hp
              (fun _ => eq_refl) (fun _ => eq_refl) Hs)
    as (f & Hf & Hst & Hd & _).
  exists f. split; [exact Hf |]. split; [exact Hst |]. exact Hd.
Defined.

(** C4, as the code has it: when an Analysis that has no detail rows runs
    its completion sequence on a generated result without a persistence
    error, its owner's query returns it completed, with classification
    rows bearing each of the ten disease labels exactly once and cell
    count rows bearing each of the five cell types exactly once. *)
Theorem completed_details_once (t : Task) (execPromise : InferenceRuntime)
    (rnd : RandomSource) (now : Time) (st : Store) (flt : Faults) :
  let id := a_id (t_analysis t) in
  is_Some (analyses st !! id) ->
  runAIInference execPromise (a_imageUrl (a_fields (t_analysis t))) = None ->
  (forall k, flt k = false) ->
  classifications_of st id = [] ->
  cellCounts_of st id = [] ->
  exists a dcs ccs,
    fst (getAnalysisById (a_userId (a_fields (t_analysis t))) id no_faults
           (run_completion t execPromise rnd now flt st))
    = {| code := 200; body := DetailsBody a dcs ccs |}
    /\ a_status (a_fields a) = completed
    /\ Permutation (map (fun row => diseaseName (dc_row row)) dcs) DISEASE_TYPES
    /\ Permutation (map (fun row => cellType (cc_row row)) ccs) (map name CELL_TYPES).
Proof.
  intros id [stored Hstored] Hdown Hflt Hdc Hcc.
  rewrite (completion_no_fault t execPromise rnd now st stored flt Hstored)
    by apply Hflt.
  cbv zeta. fold id. unfold classifications_of in Hdc. unfold cellCounts_of in Hcc.
  handler_unfold. unfold no_faults.
  cbn [analyses classifications cellCountRows]. rewrite lookup_insert_eq.
  cbn [fmap option_fmap option_map db calls fst snd a_fields set_results a_userId].
  rewrite Nat.eqb_refl. cbn [negb db calls fst snd classifications cellCountRows].
  do 3 eexists. split; [reflexivity |]. split; [reflexivity |].
  rewrite !List.filter_app, Hdc, Hcc. cbn [app].
  rewrite filter_own_classifications, filter_own_cellCounts.
  unfold obtain_results. rewrite Hdown.
  split.
  - unfold classification_docs.
    rewrite (Permutation_map _ (js_sort_perm _ _)), map_map. cbn [dc_row].
    apply classification_labels.
  - unfold cellCount_docs.
    rewrite (Permutation_map _ (js_sort_perm _ _)), map_map. cbn [cc_row].
    rewrite cell_labels. reflexivity.
Qed.

Lemma completed_details_once_witness :
  is_Some (analyses (store started) !! 0)
  /\ runAIInference python_absent "uploads/img-1.png" = None
  /\ (forall k, no_faults k = false)
  /\ classifications_of (store started) 0 = []
  /\ cellCounts_of (store started) 0 = []
  /\ exists a dcs ccs,
       fst (getAnalysisById 7 0 no_faults (store finished))
       = {| code := 200; body := DetailsBody a dcs ccs |}
       /\ a_status (a_fields a) = completed
       /\ Permutation (map (fun row => diseaseName (dc_row row)) dcs) DISEASE_TYPES
       /\ Permutation (map (fun row => cellType (cc_row row)) ccs) (map name CELL_TYPES).
Proof.
  assert (Hs : is_Some (analyses (store started) !! 0)) by (vm_compute; eauto).
  split; [exact Hs |]. split; [reflexivity |]. split; [reflexivity |].
  split; [reflexivity |]. split; [reflexivity |].
  exact (completed_details_once
           {| t_analysis := {| a_id := 0;
                               a_fields := {| a_userId := 7;
                                 a_imageUrl := "uploads/img-1.png";
                                 a_status := processing;
                                 a_diseaseDetected := None;
                                 a_confidenceScore := None;
                                 a_rbcCount := None; a_wbcCount := None;
                                 a_plateletCount := None;
                                 a_analysisNotes := None;
                                 a_completedAt := None |} |};
              t_user := 7 |}
           python_absent always_half 5 (store started) no_faults
           Hs eq_refl (fun _ => eq_refl) eq_refl eq_refl).
Defined.

(** C4, as stated, fails when processing is requested twice: the Analysis
    is completed and its query returns twenty classification rows and ten
    cell count rows. *)
Lemma completed_details_counterexample :
  exists a dcs ccs,
    fst (getAnalysisById 7 0 no_faults (store processed_twice))
    = {| code := 200; body := DetailsBody a dcs ccs |}
    /\ a_status (a_fields a) = completed
    /\ List.length dcs = 20
    /\ List.length ccs = 10
    /\ ~ Permutation (map (fun row => diseaseName (dc_row row)) dcs) DISEASE_TYPES.
Proof.
  do 3 eexists. split; [vm_compute; reflexivity |].
  split; [reflexivity |]. split; [reflexivity |]. split; [reflexivity |].
  intros H. apply Permutation_length in H. discriminate H.
Qed.

(** ** Authorization and deletion *)

(** C9: for an Analysis that is stored, whatever its status, and a
    requester other than its owner, each of get, delete and start of
    processing answers "Not authorized" (403), changes nothing in the
    collections and schedules nothing.  (The lookup of the Analysis is
    taken to succeed; a lookup that throws is answered with 500.) *)
Theorem other_user_is_refused (st : Store) (id requester : Id)
    (f : AnalysisFields) (flt : Faults) :
  analyses st !! id = Some f ->
  a_userId f <> requester ->
  flt 0 = false ->
  getAnalysisById requester id flt st = (Not_authorized, st)
  /\ deleteAnalysis requester id flt st = (Not_authorized, st)
  /\ processAnalysis requester id flt st = ((Not_authorized, None), st).
Proof.
  intros Hf Hother H0. apply owner_mismatch in Hother.
  repeat split; handler_unfold; repeat handler_step; reflexivity.
Qed.

Lemma other_user_is_refused_witness :
  (exists f, analyses (store finished) !! 0 = Some f
     /\ a_userId f <> 8 /\ a_status f = completed)
  /\ no_faults 0 = false
  /\ getAnalysisById 8 0 no_faults (store finished) = (Not_authorized, store finished)
  /\ deleteAnalysis 8 0 no_faults (store finished) = (Not_authorized, store finished)
  /\ processAnalysis 8 0 no_faults (store finished)
     = ((Not_authorized, None), store finished).
Proof.
  destruct (analyses (store finished) !! 0) as [f |] eqn:Hf; [| vm_compute in Hf; discriminate].
  assert (Hu : a_userId f <> 8).
  { vm_compute in Hf. injection Hf as <-. cbn. lia. }
  assert (Hc : a_status f = completed).
  { vm_compute in Hf. injection Hf as <-. reflexivity. }
  split; [exists f; auto |]. split; [reflexivity |].
  exact (other_user_is_refused (store finished) 0 8 f no_faults Hf Hu eq_refl).
Defined.

Lemma filter_after_deleteMany {A : Type} (key : A -> Id) (id : Id) (l : list A) :
  List.filter (fun r => Nat.eqb (key r) id)
    (List.filter (fun r => negb (Nat.eqb (key r) id)) l) = [].
Proof.
  induction l as [| x l IH]; simpl; [reflexivity |].
  destruct (Nat.eqb (key x) id) eqn:E; simpl; [exact IH |].
  now rewrite E.
Qed.

(** C7: a delete by the owner in which no database call throws answers
    "Analysis deleted successfully" and leaves neither the Analysis nor any
    DiseaseClassification or CellCount row that refers to it. *)
Theorem delete_removes_detail_rows (st : Store) (id user : Id)
    (f : AnalysisFields) (flt : Faults) :
  analyses st !! id = Some f ->
  a_userId f = user ->
  (forall k, k < 4 -> flt k = false) ->
  let st' := snd (deleteAnalysis user id flt st) in
  fst (deleteAnalysis user id flt st) = Analysis_deleted
  /\ analyses st' !! id = None
  /\ classifications_of st' id = []
  /\ cellCounts_of st' id = []
  /\ (forall row, In row (classifications st') -> dc_analysisId row <> id)
  /\ (forall row, In row (cellCountRows st') -> cc_analysisId row <> id).
Proof.
  intros Hf Howner Hflt st'. subst st'. apply owner_match in Howner.
  pose proof (Hflt 0 ltac:(lia)) as H0. pose proof (Hflt 1 ltac:(lia)) as H1.
  pose proof (Hflt 2 ltac:(lia)) as H2. pose proof (Hflt 3 ltac:(lia)) as H3.
  handler_unfold. repeat handler_step.
  unfold classifications_of, cellCounts_of.
  cbn [analyses classifications cellCountRows].
  split; [reflexivity |]. split; [apply lookup_delete_eq |].
  assert (Hdc : forall row, In row (List.filter
                  (fun r => negb (Nat.eqb (dc_analysisId r) id)) (classifications st)) ->
                dc_analysisId row <> id).
  { intros row Hrow. apply List.filter_In in Hrow. destruct Hrow as [_ Hrow].
    apply negb_true_iff, Nat.eqb_neq in Hrow. exact Hrow. }
  assert (Hcc : forall row, In row (List.filter
                  (fun r => negb (Nat.eqb (cc_analysisId r) id)) (cellCountRows st)) ->
                cc_analysisId row <> id).
  { intros row Hrow. apply List.filter_In in Hrow. destruct Hrow as [_ Hrow].
    apply negb_true_iff, Nat.eqb_neq in Hrow. exact Hrow. }
  repeat split; try assumption.
  - apply (filter_after_deleteMany dc_analysisId).
  - apply (filter_after_deleteMany cc_analysisId).
Qed.

Lemma delete_removes_detail_rows_witness :
  (exists f, analyses (store finished) !! 0 = Some f /\ a_userId f = 7)
  /\ (forall k, k < 4 -> no_faults k = false)
  /\ List.length (classifications_of (store finished) 0) = 10
  /\ fst (deleteAnalysis 7 0 no_faults (store finished)) = Analysis_deleted
  /\ analyses (snd (deleteAnalysis 7 0 no_faults (store finished))) !! 0 = None
  /\ classifications_of (snd (deleteAnalysis 7 0 no_faults (store finished))) 0 = []
  /\ cellCounts_of (snd (deleteAnalysis 7 0 no_faults (store finished))) 0 = [].
Proof.
  destruct (analyses (store finished) !! 0) as [f |] eqn:Hf; [| vm_compute in Hf; discriminate].
  assert (Hu : a_userId f = 7).
  { vm_compute in Hf. injection Hf as <-. reflexivity. }
  split; [exists f; auto |]. split; [reflexivity |]. split; [reflexivity |].
  destruct (delete_removes_detail_rows (store finished) 0 7 f no_faults Hf Hu
              (fun _ _ => eq_refl)) as (Hr & Ha & Hdc & Hcc & _).
  auto.
Defined.

(** C8 is not what the code does: [deleteAnalysis] leaves the
    notifications alone.  After user 7 deletes the completed Analysis 0,
    the Analysis is gone and the notification of its completion still
    refers to it. *)
Lemma deleted_analysis_notification_dangles :
  let st' := snd (deleteAnalysis 7 0 no_faults (store finished)) in
  fst (deleteAnalysis 7 0 no_faults (store finished)) = Analysis_deleted
  /\ analyses st' !! 0 = None
  /\ notifications_of st' 0
     = [success_notification 7 (fst (generateMockAnalysisResults always_half 0)) 0]
  /\ n_analysisId (success_notification 7
                     (fst (generateMockAnalysisResults always_half 0)) 0) = Some 0.
Proof.
  cbv zeta. split; [reflexivity |]. split; [reflexivity |].
  split; [vm_compute; reflexivity | reflexivity].
Qed.

(** In general the deletion does not touch the Notification collection. *)
Lemma delete_keeps_notifications (st : Store) (id user : Id) (flt : Faults) :
  notifications (snd (deleteAnalysis user id flt st)) = notifications st.
Proof.
  handler_unfold.
  destruct (flt 0); [reflexivity |].
  destruct (analyses st !! id) as [f |];
    cbn [fmap option_fmap option_map db calls fst snd]; [| reflexivity].
  destruct (negb _); cbn [db calls fst snd]; [reflexivity |].
  destruct (flt 1); [reflexivity |]. cbn [db calls fst snd].
  destruct (flt 2); [reflexivity |]. cbn [db calls fst snd].
  destruct (flt 3); reflexivity.
Qed.

(** ** Effect of one event on the collections *)

Ltac db_cases :=
  repeat
    (first
       [ rewrite lookup_insert_eq
       | match goal with
         | H : analyses ?st !! ?i = _ |- context [analyses ?st !! ?i] => rewrite H
         | |- context [if ?flt ?k then _ else _] =>
             match type of (flt k) with bool => destruct (flt k) end
         end ];
     cbn [db calls fst snd set_analyses set_classifications set_cellCountRows
          set_notifications analyses nextId classifications cellCountRows
          notifications a_id a_fields]).

(** What the completion callback can do to the Analysis collection and to
    the CellCount collection, over all fault patterns. *)
Lemma completion_effect (t : Task) (execPromise : InferenceRuntime)
    (rnd : RandomSource) (now : Time) (flt : Faults) (st : Store) :
  let id := a_id (t_analysis t) in
  let r := obtain_results execPromise rnd (a_imageUrl (a_fields (t_analysis t))) in
  let doc := set_results r now (t_analysis t) in
  let st' := run_completion t execPromise rnd now flt st in
  nextId st' = nextId st
  /\ (analyses st' = analyses st
      \/ (is_Some (analyses st !! id)
          /\ (analyses st' = <[id := a_fields doc]> (analyses st)
              \/ analyses st' = <[id := a_fields (set_status failed doc)]> (analyses st))))
  /\ (cellCountRows st' = cellCountRows st
      \/ cellCountRows st'
         = (cellCountRows st ++ cellCount_docs id r)%list).
Proof.
  intros id r doc st'. subst st'. db_unfold. fold r. fold doc.
  change (a_id (set_status failed doc)) with id. change (a_id doc) with id.
  destruct (analyses st !! id) as [stored |] eqn:Hstored.
  - db_cases; rewrite ?insert_insert_eq; (split; [reflexivity |]);
      (split; [| auto]); eauto 6.
  - db_cases; (split; [reflexivity |]); (split; [| auto]); eauto.
Qed.

Lemma createAnalysis_effect (user : Id) (imageUrl : option string)
    (flt : Faults) (st : Store) :
  let st' := snd (createAnalysis user imageUrl flt st) in
  st' = st
  \/ (exists f, analyses st' = <[nextId st := f]> (analyses st)
        /\ a_status f = pending /\ a_confidenceScore f = None
        /\ nextId st' = S (nextId st)
        /\ cellCountRows st' = cellCountRows st).
Proof.
  handler_unfold. destruct (falsy imageUrl); cbn [db calls fst snd]; [now left |].
  destruct (flt 0); cbn [db calls fst snd]; [now left |].
  right. eexists. repeat split; reflexivity.
Qed.

Lemma processAnalysis_effect (user id : Id) (flt : Faults) (st : Store) :
  let st' := snd (processAnalysis user id flt st) in
  st' = st
  \/ (exists f, analyses st !! id = Some f
        /\ analyses st'
           = <[id := a_fields (set_status processing {| a_id := id; a_fields := f |})]>
               (analyses st)
        /\ nextId st' = nextId st
        /\ cellCountRows st' = cellCountRows st
        /\ a_userId f = user).
Proof.
  handler_unfold. destruct (flt 0); cbn [db calls fst snd]; [now left |].
  destruct (analyses st !! id) as [f |] eqn:Hf;
    cbn [fmap option_fmap option_map db calls fst snd]; [| now left].
  cbn [a_fields].
  destruct (Nat.eqb_spec (a_userId f) user) as [Hu | Hu]; cbn [negb db calls fst snd];
    [| now left].
  destruct (flt 1); cbn [db calls fst snd]; [now left |].
  cbn [a_id set_status]. rewrite Hf. cbn [db calls fst snd].
  right. exists f. repeat split; first [reflexivity | exact Hu].
Qed.


Lemma getAnalysisById_effect (user id : Id) (flt : Faults) (st : Store) :
  snd (getAnalysisById user id flt st) = st.
Proof.
  handler_unfold. destruct (flt 0); cbn [db calls fst snd]; [reflexivity |].
  destruct (analyses st !! id) as [f |];
    cbn [fmap option_fmap option_map db calls fst snd]; [| reflexivity].
  destruct (negb _); cbn [db calls fst snd]; [reflexivity |].
  destruct (flt 1); cbn [db calls fst snd]; [reflexivity |].
  destruct (flt 2); reflexivity.
Qed.

Lemma deleteAnalysis_effect (user id : Id) (flt : Faults) (st : Store) :
  let st' := snd (deleteAnalysis user id flt st) in
  nextId st' = nextId st
  /\ (analyses st' = analyses st \/ analyses st' = delete id (analyses st))
  /\ (cellCountRows st' = cellCountRows st
      \/ cellCountRows st'
         = List.filter (fun r => negb (Nat.eqb (cc_analysisId r) id)) (cellCountRows st)).
Proof.
  handler_unfold. destruct (flt 0); cbn [db calls fst snd]; [auto |].
  destruct (analyses st !! id) as [f |];
    cbn [fmap option_fmap option_map db calls fst snd]; [| auto].
  destruct (negb _); cbn [db calls fst snd]; [auto |].
  destruct (flt 1); cbn [db calls fst snd set_classifications cellCountRows
                         analyses nextId]; [auto |].
  destruct (flt 2); cbn [db calls fst snd set_classifications set_cellCountRows
                         cellCountRows analyses nextId]; [auto |].
  destruct (flt 3); cbn [db calls fst snd set_classifications set_cellCountRows
                         set_analyses cellCountRows analyses nextId a_id]; auto.
Qed.

(** The store after [processAnalysis], whatever it schedules. *)
Lemma step_Process_store (user id : Id) (flt : Faults) (s : System) :
  store (step (Process user id flt) s) = snd (processAnalysis user id flt (store s)).
Proof.
  cbn [step]. destruct (processAnalysis user id flt (store s)) as [[resp sch] st'].
  reflexivity.
Qed.

(** ** Identifiers *)

Lemma reachable_ids_below_next (s : System) :
  reachable s -> ids_below_next (store s).
Proof.
  induction 1 as [| e s Hs IH].
  - intros id [f Hf]. cbn in Hf. rewrite lookup_empty in Hf. discriminate.
  - destruct e as [user url flt | user id' flt | user id' flt | user id' flt
                  | k execPromise rnd now flt].
    + cbn [step store].
      destruct (createAnalysis_effect user url flt (store s))
        as [-> | (f & Ha & _ & _ & Hn & _)]; [exact IH |].
      intros id. rewrite Ha, Hn. intros Hsome.
      destruct (decide (nextId (store s) = id)) as [<- | Hne]; [lia |].
      rewrite lookup_insert_ne in Hsome by exact Hne.
      specialize (IH id Hsome). lia.
    + rewrite step_Process_store.
      destruct (processAnalysis_effect user id' flt (store s))
        as [-> | (f & Hf & Ha & Hn & _)]; [exact IH |].
      intros id. rewrite Ha, Hn. intros Hsome.
      destruct (decide (id' = id)) as [<- | Hne]; [apply IH; eauto |].
      rewrite lookup_insert_ne in Hsome by exact Hne. now apply IH.
    + cbn [step store]. now rewrite getAnalysisById_effect.
    + cbn [step store].
      destruct (deleteAnalysis_effect user id' flt (store s)) as (Hn & [Ha | Ha] & _);
        intros id; rewrite Ha, Hn; [apply IH |].
      intros Hsome. apply IH.
      destruct (decide (id' = id)) as [<- | Hne].
      * rewrite lookup_delete_eq in Hsome. destruct Hsome; discriminate.
      * now rewrite lookup_delete_ne in Hsome.
    + cbn [step]. destruct (timers s !! k) as [t |]; [| exact IH]. cbn [store].
      destruct (completion_effect t execPromise rnd now flt (store s))
        as (Hn & [Ha | (Hsome' & [Ha | Ha])] & _);
        intros id; rewrite Ha, Hn; try apply IH; intros Hsome;
        (destruct (decide (a_id (t_analysis t) = id)) as [<- | Hne];
         [now apply IH | rewrite lookup_insert_ne in Hsome by exact Hne; now apply IH]).
Qed.

(** ** Status transitions *)



Lemma finished_reachable : reachable finished.
Proof.
  unfold finished. apply reachable_step.
  unfold started. apply reachable_step.
  unfold uploaded, run. cbn [fold_left]. apply reachable_step, reachable_initial.
Qed.



(** ** Bounds on the stored numbers *)

Local Open Scope Q_scope.

(** The generated result is within the bounds asked of a result. *)
Lemma generated_within_contract (rnd : RandomSource) (k : nat) :
  (forall j, 0 <= rnd j /\ rnd j < 1) ->
  within_contract (fst (generateMockAnalysisResults rnd k)).
Proof.
  intros Hrnd. split.
  - destruct (generate_fields rnd k) as (_ & -> & _).
    destruct (confidence_range rnd Hrnd (S k)) as [Hlo Hhi]. split; lra.
  - apply List.Forall_forall. intros row Hrow.
    destruct (cell_rows rnd k row Hrow) as (c & k' & Hc & ->).
    destruct (differential_bounds rnd Hrnd
                (diseaseDetected (fst (generateMockAnalysisResults rnd k))) c k'
                (CELL_TYPES_plausible c Hc)) as (H0 & H1 & _ & H3).
    repeat split; assumption.
Qed.

Lemma obtained_within_contract (execPromise : InferenceRuntime)
    (rnd : RandomSource) (imageUrl : string) :
  (forall k, 0 <= rnd k /\ rnd k < 1) ->
  (forall path r, execPromise path = Parsed true r -> within_contract r) ->
  within_contract (obtain_results execPromise rnd imageUrl).
Proof.
  intros Hrnd Hexec. unfold obtain_results, runAIInference.
  destruct (execPromise imageUrl) as [| | [|] r] eqn:E;
    try (now apply generated_within_contract).
  now apply (Hexec imageUrl).
Qed.

Lemma store_bounded_insert (st : Store) (m : gmap Id AnalysisFields)
    (id : Id) (f : AnalysisFields) :
  (forall id' f' c, analyses st !! id' = Some f' -> a_confidenceScore f' = Some c ->
     0 <= c /\ c <= 100) ->
  (forall c, a_confidenceScore f = Some c -> 0 <= c /\ c <= 100) ->
  forall id' f' c, <[id := f]> (analyses st) !! id' = Some f' ->
    a_confidenceScore f' = Some c -> 0 <= c /\ c <= 100.
Proof.
  intros Hst Hf id' f' c Hl Hc.
  destruct (decide (id = id')) as [<- | Hne].
  - rewrite lookup_insert_eq in Hl. injection Hl as <-. now apply Hf.
  - rewrite lookup_insert_ne in Hl by exact Hne. now apply (Hst id' f').
Qed.

Lemma step_bounded (e : Event) (s : System) :
  plausible e -> store_bounded (store s) -> store_bounded (store (step e s)).
Proof.
  intros He [Hconf Hcells].
  destruct e as [user url flt | user id' flt | user id' flt | user id' flt
                | k execPromise rnd now flt].
  - cbn [step store].
    destruct (createAnalysis_effect user url flt (store s))
      as [-> | (f & Ha & _ & Hc & _ & Hcc)]; [now split |].
    split; [| now rewrite Hcc]. rewrite Ha.
    apply (store_bounded_insert _ (analyses (store s))); [exact Hconf |].
    intros c Hc'. congruence.
  - rewrite step_Process_store.
    destruct (processAnalysis_effect user id' flt (store s))
      as [-> | (f & Hf & Ha & _ & Hcc & _)]; [now split |].
    split; [| now rewrite Hcc]. rewrite Ha.
    apply (store_bounded_insert _ (analyses (store s))); [exact Hconf |].
    cbn [a_fields set_status a_confidenceScore]. intros c Hc'.
    now apply (Hconf id' f).
  - cbn [step store]. rewrite getAnalysisById_effect. now split.
  - cbn [step store].
    destruct (deleteAnalysis_effect user id' flt (store s)) as (_ & Ha & Hcc).
    split.
    + destruct Ha as [-> | ->]; [exact Hconf |].
      intros id f c Hl. apply lookup_delete_Some in Hl. destruct Hl as [_ Hl].
      now apply (Hconf id f).
    + destruct Hcc as [-> | ->]; [exact Hcells |].
      apply List.Forall_forall. intros row Hrow. apply List.filter_In in Hrow.
      destruct Hrow as [Hrow _]. revert row Hrow. now apply List.Forall_forall.
  - cbn [step]. destruct (timers s !! k) as [t |]; [| now split]. cbn [store].
    destruct He as [Hrnd Hexec].
    pose proof (obtained_within_contract execPromise rnd
                  (a_imageUrl (a_fields (t_analysis t))) Hrnd Hexec) as [Hc Hrows].
    destruct (completion_effect t execPromise rnd now flt (store s))
      as (_ & Ha & Hcc).
    split.
    + destruct Ha as [-> | (_ & [-> | ->])]; [exact Hconf | |];
        (apply (store_bounded_insert _ (analyses (store s))); [exact Hconf |]);
        cbn [a_fields set_status set_results a_confidenceScore];
        intros c [= <-]; exact Hc.
    + destruct Hcc as [-> | ->]; [exact Hcells |].
      apply List.Forall_app. split; [exact Hcells |].
      unfold cellCount_docs. apply List.Forall_map. cbn [cc_row]. exact Hrows.
Qed.





(** * Further properties *)

(** ** Order of a sorted array *)

Local Open Scope Q_scope.

Section SortOrder.
Context {A : Type} (before : A -> A -> bool).
Hypothesis before_asym : forall a b, before a b = true -> before b a = false.
Hypothesis before_trans : forall a b c,
  before b a = false -> before c b = false -> before c a = false.

Lemma sort_insert_ordered (x : A) (l : list A) :
  ordered_by before l -> ordered_by before (sort_insert before x l).
Proof.
  unfold ordered_by. induction 1 as [| y l Hl IH Hy]; simpl.
  - repeat constructor.
  - destruct (before y x) eqn:E.
    + constructor; [exact IH |].
      apply List.Forall_forall. intros z Hz.
      apply (Permutation_in _ (sort_insert_perm before x l)) in Hz.
      destruct Hz as [<- | Hz]; [now apply before_asym |].
      rewrite List.Forall_forall in Hy. now apply Hy.
    + constructor; [now constructor |].
      constructor; [exact E |].
      apply List.Forall_forall. intros z Hz.
      rewrite List.Forall_forall in Hy. apply (before_trans x y z E). now apply Hy.
Qed.

Lemma js_sort_ordered (l : list A) : ordered_by before (js_sort before l).
Proof.
  induction l as [| x l IH]; simpl; [constructor |].
  now apply sort_insert_ordered.
Qed.
End SortOrder.

Lemma Qgtb_asym (a b : Q) : Qgtb a b = true -> Qgtb b a = false.
Proof.
  unfold Qgtb. intros H. apply negb_true_iff in H. apply negb_false_iff.
  apply Qle_bool_iff. destruct (Qlt_le_dec b a) as [Hlt | Hle].
  - now apply Qlt_le_weak.
  - apply Qle_bool_iff in Hle. congruence.
Qed.

Lemma Qgtb_false_iff (a b : Q) : Qgtb a b = false <-> a <= b.
Proof.
  unfold Qgtb. rewrite negb_false_iff. apply Qle_bool_iff.
Qed.

Lemma Qgtb_trans (a b c : Q) : Qgtb b a = false -> Qgtb c b = false -> Qgtb c a = false.
Proof.
  rewrite !Qgtb_false_iff. intros H1 H2. now apply Qle_trans with b.
Qed.

Lemma ordered_by_sorted {A : Type} (before : A -> A -> bool) (R : A -> A -> Prop)
    (l : list A) :
  (forall a b, before b a = false -> R a b) ->
  ordered_by before l -> StronglySorted R l.
Proof.
  intros HR. unfold ordered_by.
  induction 1 as [| x l Hl IH Hx]; constructor; [exact IH |].
  apply List.Forall_forall. intros z Hz. rewrite List.Forall_forall in Hx.
  apply HR. now apply Hx.
Qed.

(** A list ordered by a key, largest first. *)
Lemma ordered_by_key_desc {A : Type} (key : A -> Q) (l : list A) :
  ordered_by (fun a b => Qgtb (key a) (key b)) l ->
  StronglySorted (fun a b => key b <= key a) l.
Proof.
  apply ordered_by_sorted. intros a b. apply Qgtb_false_iff.
Qed.

Lemma js_sort_key_desc {A : Type} (key : A -> Q) (l : list A) :
  StronglySorted (fun a b => key b <= key a)
    (js_sort (fun a b => Qgtb (key a) (key b)) l).
Proof.
  apply ordered_by_key_desc, js_sort_ordered.
  - intros a b. apply Qgtb_asym.
  - intros a b c. apply Qgtb_trans.
Qed.

(** ** More on the generated result *)

(** The red cell, white cell and platelet counts lie in their fixed
    ranges. *)
Theorem generated_blood_counts (rnd : RandomSource) (k : nat) :
  (forall j, 0 <= rnd j /\ rnd j < 1) ->
  let r := fst (generateMockAnalysisResults rnd k) in
  (4500000 <= rbcCount r < 5500000)%Z
  /\ (4000 <= wbcCount r < 11000)%Z
  /\ (150000 <= plateletCount r < 400000)%Z.
Proof.
  intros Hrnd r.
  destruct (generate_fields rnd k) as (_ & _ & _ & _ & _ & k' & Hr & Hw & Hp).
  fold r in Hr, Hw, Hp. rewrite Hr, Hw, Hp.
  destruct (Hrnd k') as [A0 A1]. destruct (Hrnd (S k')) as [B0 B1].
  destruct (Hrnd (S (S k'))) as [C0 C1].
  assert (H1 : (0 <= Math_floor (rnd k' * 1000000) < 1000000)%Z).
  { apply Math_floor_range.
    - change (inject_Z 0) with 0. lra.
    - change (inject_Z 1000000) with 1000000. lra. }
  assert (H2 : (0 <= Math_floor (rnd (S k') * 7000) < 7000)%Z).
  { apply Math_floor_range.
    - change (inject_Z 0) with 0. lra.
    - change (inject_Z 7000) with 7000. lra. }
  assert (H3 : (0 <= Math_floor (rnd (S (S k')) * 250000) < 250000)%Z).
  { apply Math_floor_range.
    - change (inject_Z 0) with 0. lra.
    - change (inject_Z 250000) with 250000. lra. }
  lia.
Qed.

Lemma generated_blood_counts_witness :
  let r := fst (generateMockAnalysisResults always_half 0%nat) in
  (forall j, 0 <= always_half j /\ always_half j < 1)
  /\ rbcCount r = 5000000%Z
  /\ (4500000 <= rbcCount r < 5500000)%Z
  /\ (4000 <= wbcCount r < 11000)%Z
  /\ (150000 <= plateletCount r < 400000)%Z.
Proof.
  split; [exact always_half_range |]. split; [reflexivity |].
  exact (generated_blood_counts always_half 0%nat always_half_range).
Defined.

(** The classification table comes out with ten rows in descending order
    of probability, and its first row is the detected disease with the
    confidence score as its probability. *)
Theorem generated_table_sorted (rnd : RandomSource) (k : nat) :
  (forall j, 0 <= rnd j /\ rnd j < 1) ->
  let r := fst (generateMockAnalysisResults rnd k) in
  List.length (diseaseClassifications r) = 10%nat
  /\ StronglySorted (fun a b => probability b <= probability a)
       (diseaseClassifications r)
  /\ exists top rest, diseaseClassifications r = top :: rest
       /\ diseaseName top = diseaseDetected r
       /\ probability top = confidenceScore r.
Proof.
  intros Hrnd r.
  destruct (generate_fields rnd k) as (Hd & Hc & _ & Hrows & _).
  fold r in Hd, Hc, Hrows.
  assert (Hsorted : StronglySorted (fun a b => probability b <= probability a)
                      (diseaseClassifications r)).
  { rewrite Hrows. apply (js_sort_key_desc probability). }
  assert (Hlen : List.length (diseaseClassifications r) = 10%nat).
  { rewrite Hrows.
    rewrite (Permutation_length (js_sort_perm _ _)), rand_mapi_length. reflexivity. }
  split; [exact Hlen |]. split; [exact Hsorted |].
  destruct (diseaseClassifications r) as [| top rest] eqn:E; [discriminate Hlen |].
  exists top, rest. split; [reflexivity |].
  destruct (classified_primary rnd Hrnd k (S (S k))) as (p & Hp & Hpn & Hpp).
  assert (Hp' : In p (top :: rest)).
  { rewrite Hrows. now apply js_sort_In. }
  assert (Htop : In top (js_sort by_probability_desc
                           (fst (rand_mapi
                             (classify
                                (Math_floor (rnd k * inject_Z (Z.of_nat (List.length DISEASE_TYPES))))
                                (85 + rnd (S k) * 12)) 0 DISEASE_TYPES rnd (S (S k)))))).
  { rewrite <- Hrows. now left. }
  apply js_sort_In in Htop.
  destruct (classified_rows rnd Hrnd k _ top Htop) as [[Hn Hq] | Hsmall].
  - split; [now rewrite Hd | now rewrite Hc].
  - exfalso.
    assert (Hle : probability p <= probability top).
    { destruct Hp' as [<- | Hin]; [apply Qle_refl |].
      apply StronglySorted_inv in Hsorted. destruct Hsorted as [_ Hall].
      rewrite List.Forall_forall in Hall. now apply Hall. }
    rewrite Hpp in Hle.
    destruct (confidence_range rnd Hrnd (S k)) as [Hlo _]. lra.
Qed.

Lemma generated_table_sorted_witness :
  let r := fst (generateMockAnalysisResults always_quarter 0%nat) in
  (forall j, 0 <= always_quarter j /\ always_quarter j < 1)
  /\ diseaseDetected r = "Babesia"
  /\ List.length (diseaseClassifications r) = 10%nat
  /\ StronglySorted (fun a b => probability b <= probability a)
       (diseaseClassifications r)
  /\ exists top rest, diseaseClassifications r = top :: rest
       /\ diseaseName top = diseaseDetected r
       /\ probability top = confidenceScore r.
Proof.
  assert (H : forall j, 0 <= always_quarter j /\ always_quarter j < 1).
  { intros j. unfold always_quarter. split; lra. }
  split; [exact H |]. split; [reflexivity |].
  exact (generated_table_sorted always_quarter 0%nat H).
Defined.

Lemma rand_mapi_Forall2 {A B : Type} (f : nat -> A -> Rand B) (rnd : RandomSource)
    (P : A -> B -> Prop) (l : list A) :
  (forall i x k, In x l -> P x (fst (f i x rnd k))) ->
  forall i k, Forall2 P l (fst (rand_mapi f i l rnd k)).
Proof.
  induction l as [| x l IH]; intros HP i k; simpl; [constructor |].
  rewrite rand_bind_eq. rewrite rand_bind_eq. cbn [fst rand_ret].
  constructor.
  - apply HP. now left.
  - apply IH. intros i' x' k' Hx'. apply HP. now right.
Qed.

Lemma DISEASE_TYPES_NoDup : NoDup DISEASE_TYPES.
Proof.
  apply (bool_decide_unpack _). vm_compute. exact I.
Qed.

(** Every row of the table has a probability in [0, 100].  The row of the
    detected disease carries the findings, parasites for Malaria and
    Babesia, abnormal morphology for the leukemias; every other row carries
    none and a probability of at most 1.5. *)
Theorem generated_table_rows (rnd : RandomSource) (k : nat)
    (row : ClassificationResult) :
  (forall j, 0 <= rnd j /\ rnd j < 1) ->
  let r := fst (generateMockAnalysisResults rnd k) in
  In row (diseaseClassifications r) ->
  (0 <= probability row /\ probability row <= 100)
  /\ (diseaseName row = diseaseDetected r ->
      exists v, cellAbnormalities row
        = Some {| parasitesDetected :=
                    includes (diseaseName row) "Malaria"
                    || includes (diseaseName row) "Babesia";
                  abnormalMorphology := includes (diseaseName row) "Leukemia";
                  cellSizeVariation := v |})
  /\ (diseaseName row <> diseaseDetected r ->
      cellAbnormalities row = None /\ probability row <= 3 # 2).
Proof.
  intros Hrnd r Hrow.
  destruct (generate_fields rnd k) as (Hd & _ & _ & Hrows & _).
  fold r in Hd, Hrows. rewrite Hrows in Hrow. apply js_sort_In in Hrow.
  apply list_elem_of_In, list_elem_of_lookup in Hrow. destruct Hrow as [j Hj].
  apply rand_mapi_lookup in Hj. destruct Hj as (x & k' & Hx & ->).
  change (0 + j)%nat with j.
  pose proof (diseaseIndex_range rnd Hrnd k) as HdI.
  destruct (confidence_range rnd Hrnd (S k)) as [Hlo Hhi].
  destruct (Hrnd (S k)) as [Hc0 Hc1]. destruct (Hrnd k') as [Hr0 Hr1].
  set (dI := Math_floor (rnd k * inject_Z (Z.of_nat (List.length DISEASE_TYPES)))) in *.
  assert (Hprimary : DISEASE_TYPES !! Z.to_nat dI = Some (diseaseDetected r)).
  { destruct (lookup_lt_is_Some_2 DISEASE_TYPES (Z.to_nat dI)) as [y Hy].
    { change (List.length DISEASE_TYPES) with 10%nat. lia. }
    rewrite Hd, (nth_lookup_Some _ _ "" _ Hy). exact Hy. }
  unfold classify. destruct (Z.eqb_spec (Z.of_nat j) dI) as [E | E];
    cbn [fst rand_bind Math_random rand_ret diseaseName probability cellAbnormalities].
  - split; [split; lra |]. split; [intros _; eauto |].
    intros Hne. exfalso. apply Hne.
    assert (Hj : j = Z.to_nat dI) by lia. subst j. congruence.
  - assert (Hneq : x <> diseaseDetected r).
    { intros ->. apply E.
      pose proof (NoDup_lookup _ _ _ _ DISEASE_TYPES_NoDup Hx Hprimary). lia. }
    assert (Hsmall : round2 (rnd k' * (100 - (85 + rnd (S k) * 12))
                             / inject_Z (Z.of_nat (List.length DISEASE_TYPES))) <= 3 # 2).
    { apply Qle_trans with (round2 (3 # 2)); [| vm_compute; discriminate].
      apply round2_mono. change (inject_Z (Z.of_nat (List.length DISEASE_TYPES))) with 10.
      apply Qle_shift_div_r; [lra | nra]. }
    assert (Hpos : 0 <= round2 (rnd k' * (100 - (85 + rnd (S k) * 12))
                             / inject_Z (Z.of_nat (List.length DISEASE_TYPES)))).
    { apply Qle_trans with (round2 0); [vm_compute; discriminate |].
      apply round2_mono. change (inject_Z (Z.of_nat (List.length DISEASE_TYPES))) with 10.
      apply Qle_shift_div_l; [lra | nra]. }
    split; [split; lra |]. split; [intros Heq; contradiction |]. auto.
Qed.

Lemma generated_table_rows_witness :
  let r := fst (generateMockAnalysisResults always_quarter 0%nat) in
  let top := {| diseaseName := "Babesia"; probability := 8800 # 100;
                cellAbnormalities := Some {| parasitesDetected := true;
                                             abnormalMorphology := false;
                                             cellSizeVariation := false |} |} in
  (forall j, 0 <= always_quarter j /\ always_quarter j < 1)
  /\ In top (diseaseClassifications r)
  /\ diseaseName top = diseaseDetected r
  /\ (0 <= probability top /\ probability top <= 100)
  /\ exists v, cellAbnormalities top
       = Some {| parasitesDetected := true; abnormalMorphology := false;
                 cellSizeVariation := v |}.
Proof.
  intros r top.
  assert (H : forall j, 0 <= always_quarter j /\ always_quarter j < 1).
  { intros j. unfold always_quarter. split; lra. }
  assert (Hin : In top (diseaseClassifications r)) by (vm_compute; left; reflexivity).
  split; [exact H |]. split; [exact Hin |]. split; [reflexivity |].
  destruct (generated_table_rows always_quarter 0%nat top H Hin) as (Hp & Hab & _).
  split; [exact Hp |]. exact (Hab eq_refl).
Defined.

Lemma CELL_TYPES_round (c : CellTypeSpec) :
  In c CELL_TYPES ->
  fst (normalRange c) <= round2 (fst (normalRange c))
  /\ round2 (snd (normalRange c)) <= snd (normalRange c)
  /\ round2 (fst (normalRange c) + 30) <= fst (normalRange c) + 30
  /\ snd (normalRange c) <= fst (normalRange c) + 30.
Proof.
  unfold CELL_TYPES. simpl.
  intros [<- | [<- | [<- | [<- | [<- | []]]]]];
    repeat split; vm_compute; discriminate.
Qed.

Lemma abnormal_half (n : Z) (q : Q) :
  (0 <= n)%Z -> 0 <= q -> q < 1 ->
  (2 * Math_floor (inject_Z n * ((2 # 10) + q * (3 # 10))) <= n)%Z.
Proof.
  intros Hn H0 H1.
  assert (Hq : 0 <= inject_Z n).
  { change 0 with (inject_Z 0). now rewrite <- Zle_Qle. }
  pose proof (Qfloor_le (inject_Z n * ((2 # 10) + q * (3 # 10)))) as Hf.
  fold (Math_floor (inject_Z n * ((2 # 10) + q * (3 # 10)))) in Hf.
  rewrite Zle_Qle, inject_Z_mult. change (inject_Z 2) with 2. nra.
Qed.

(** The cell rows follow [CELL_TYPES] in order.  Each percentage starts at
    the lower end of the normal range of its cell type and exceeds it by at
    most 30; it stays within the normal range when the detected disease is
    no leukemia.  The abnormal count is at most half the count. *)
Theorem generated_cell_ranges (rnd : RandomSource) (k : nat) :
  (forall j, 0 <= rnd j /\ rnd j < 1) ->
  let r := fst (generateMockAnalysisResults rnd k) in
  Forall2
    (fun c row =>
       cellType row = name c
       /\ fst (normalRange c) <= percentage row
       /\ percentage row <= fst (normalRange c) + 30
       /\ (includes (diseaseDetected r) "Leukemia" = false ->
           percentage row <= snd (normalRange c))
       /\ (0 <= abnormalCount row)%Z
       /\ (2 * abnormalCount row <= count row)%Z)
    CELL_TYPES (cellCounts r).
Proof.
  intros Hrnd r.
  destruct (generate_fields rnd k) as (Hd & _ & _ & _ & (k' & Hcells) & _).
  fold r in Hd, Hcells. rewrite Hcells, <- Hd.
  apply rand_mapi_Forall2. intros _ c j Hc.
  destruct (CELL_TYPES_round c Hc) as (Rlo & Rhi & R30 & Hspan).
  destruct (CELL_TYPES_plausible c Hc) as (Plo & Plh & _ & _).
  split; [apply differential_cellType |].
  unfold differential, rand_bind, Math_random, rand_ret.
  destruct (includes (diseaseDetected r) "Leukemia"); [destruct (Qgtb _ _) |];
    cbn -[round2 Math_floor].
  - destruct (Hrnd (S j)) as [H0 H1]. destruct (Hrnd (S (S j))) as [H0' H1'].
    assert (Hp0 : fst (normalRange c) <= round2 (fst (normalRange c) + rnd (S j) * 30)).
    { eapply Qle_trans; [exact Rlo | apply round2_mono; nra]. }
    assert (Hp1 : round2 (fst (normalRange c) + rnd (S j) * 30)
                  <= fst (normalRange c) + 30).
    { eapply Qle_trans; [apply round2_mono | exact R30]. nra. }
    split; [exact Hp0 |]. split; [exact Hp1 |]. split; [discriminate |].
    assert (Hcount : (0 <= Math_floor
                             (round2 (fst (normalRange c) + rnd (S j) * 30) * 100))%Z).
    { apply Math_floor_nonneg. nra. }
    split; [now apply abnormal_share | now apply abnormal_half].
  - destruct (Hrnd (S j)) as [H0 H1].
    assert (Hp0 : fst (normalRange c)
                  <= round2 (fst (normalRange c)
                             + rnd (S j) * (snd (normalRange c) - fst (normalRange c)))).
    { eapply Qle_trans; [exact Rlo | apply round2_mono; nra]. }
    assert (Hp1 : round2 (fst (normalRange c)
                          + rnd (S j) * (snd (normalRange c) - fst (normalRange c)))
                  <= snd (normalRange c)).
    { eapply Qle_trans; [apply round2_mono | exact Rhi]. nra. }
    split; [exact Hp0 |]. split; [lra |]. split; [discriminate |].
    split; [lia |]. assert (Hc0 : (0 <= Math_floor
        (round2 (fst (normalRange c)
                 + rnd (S j) * (snd (normalRange c) - fst (normalRange c))) * 100))%Z).
    { apply Math_floor_nonneg. nra. }
    lia.
  - destruct (Hrnd j) as [H0 H1].
    assert (Hp0 : fst (normalRange c)
                  <= round2 (fst (normalRange c)
                             + rnd j * (snd (normalRange c) - fst (normalRange c)))).
    { eapply Qle_trans; [exact Rlo | apply round2_mono; nra]. }
    assert (Hp1 : round2 (fst (normalRange c)
                          + rnd j * (snd (normalRange c) - fst (normalRange c)))
                  <= snd (normalRange c)).
    { eapply Qle_trans; [apply round2_mono | exact Rhi]. nra. }
    split; [exact Hp0 |]. split; [lra |]. split; [intros _; exact Hp1 |].
    split; [lia |]. assert (Hc0 : (0 <= Math_floor
        (round2 (fst (normalRange c)
                 + rnd j * (snd (normalRange c) - fst (normalRange c))) * 100))%Z).
    { apply Math_floor_nonneg. nra. }
    lia.
Qed.

Lemma generated_cell_ranges_witness :
  let r := fst (generateMockAnalysisResults always_half 0%nat) in
  (forall j, 0 <= always_half j /\ always_half j < 1)
  /\ includes (diseaseDetected r) "Leukemia" = true
  /\ map percentage (cellCounts r) = [5500 # 100; 3500 # 100; 1700 # 100; 1600 # 100; 1500 # 100]
  /\ Forall2
       (fun c row =>
          cellType row = name c
          /\ fst (normalRange c) <= percentage row
          /\ percentage row <= fst (normalRange c) + 30
          /\ (includes (diseaseDetected r) "Leukemia" = false ->
              percentage row <= snd (normalRange c))
          /\ (0 <= abnormalCount row)%Z
          /\ (2 * abnormalCount row <= count row)%Z)
       CELL_TYPES (cellCounts r).
Proof.
  split; [exact always_half_range |]. split; [reflexivity |]. split; [reflexivity |].
  exact (generated_cell_ranges always_half 0%nat always_half_range).
Defined.

Local Close Scope Q_scope.
Local Open Scope nat_scope.

(** ** Creating, finding and starting an analysis *)

(** The successful run of [createAnalysis], field by field. *)
Lemma createAnalysis_stores_pending_aux (user : Id) (imageUrl : string)
    (flt : Faults) (st : Store) :
  imageUrl <> "" ->
  flt 0 = false ->
  exists a st',
    createAnalysis user (Some imageUrl) flt st
    = ({| code := 201; body := AnalysisBody a |}, st')
    /\ a_id a = nextId st
    /\ a_fields a
       = {| a_userId := user; a_imageUrl := imageUrl; a_status := pending;
            a_diseaseDetected := None; a_confidenceScore := None;
            a_rbcCount := None; a_wbcCount := None; a_plateletCount := None;
            a_analysisNotes := None; a_completedAt := None |}
    /\ analyses st' !! a_id a = Some (a_fields a)
    /\ (forall id, id <> a_id a -> analyses st' !! id = analyses st !! id)
    /\ nextId st' = S (nextId st)
    /\ classifications st' = classifications st
    /\ cellCountRows st' = cellCountRows st
    /\ notifications st' = notifications st.
Proof.
  intros Hurl H0. handler_unfold.
  assert (Hf : falsy (Some imageUrl) = false).
  { cbn. now apply String.eqb_neq. }
  rewrite Hf. cbn [db calls fst snd]. rewrite H0. cbn [db calls fst snd default].
  do 2 eexists. split; [reflexivity |]. cbn [a_id a_fields analyses nextId
    classifications cellCountRows notifications].
  repeat split.
  - apply lookup_insert_eq.
  - intros id Hne. apply lookup_insert_ne. congruence.
Qed.


(** With an image URL and a working database, [createAnalysis] answers 201
    with a document under the next identifier: owned by the requester,
    pending, with no result field set.  It is stored as returned, every
    other document and every other collection stay as they were. *)
Theorem createAnalysis_stores_pending (user : Id) (imageUrl : string)
    (flt : Faults) (st : Store) :
  imageUrl <> "" ->
  flt 0 = false ->
  exists a st',
    createAnalysis user (Some imageUrl) flt st
    = ({| code := 201; body := AnalysisBody a |}, st')
    /\ a_id a = nextId st
    /\ a_fields a
       = {| a_userId := user; a_imageUrl := imageUrl; a_status := pending;
            a_diseaseDetected := None; a_confidenceScore := None;
            a_rbcCount := None; a_wbcCount := None; a_plateletCount := None;
            a_analysisNotes := None; a_completedAt := None |}
    /\ analyses st' !! a_id a = Some (a_fields a)
    /\ (forall id, id <> a_id a -> analyses st' !! id = analyses st !! id)
    /\ nextId st' = S (nextId st)
    /\ classifications st' = classifications st
    /\ cellCountRows st' = cellCountRows st
    /\ notifications st' = notifications st.
Proof.
  intros Hurl H0. handler_unfold.
  assert (Hf : falsy (Some imageUrl) = false).
  { cbn. now apply String.eqb_neq. }
  rewrite Hf. cbn [db calls fst snd]. rewrite H0. cbn [db calls fst snd default].
  do 2 eexists. split; [reflexivity |]. cbn [a_id a_fields analyses nextId
    classifications cellCountRows notifications].
  repeat split.
  - apply lookup_insert_eq.
  - intros id Hne. apply lookup_insert_ne. congruence.
Qed.

Lemma createAnalysis_stores_pending_witness :
  "uploads/img-2.png" <> ""
  /\ no_faults 0 = false
  /\ exists a st',
       createAnalysis 8 (Some "uploads/img-2.png") no_faults (store finished)
       = ({| code := 201; body := AnalysisBody a |}, st')
       /\ a_id a = 1
       /\ a_status (a_fields a) = pending
       /\ analyses st' !! 0 = analyses (store finished) !! 0.
Proof.
  assert (H : "uploads/img-2.png" <> "") by discriminate.
  split; [exact H |]. split; [reflexivity |].
  destruct (createAnalysis_stores_pending 8 "uploads/img-2.png" no_faults
              (store finished) H eq_refl)
    as (a & st' & Hc & Hid & Hf & _ & Hother & _).
  exists a, st'. split; [exact Hc |]. split; [exact Hid |].
  split; [now rewrite Hf |]. apply Hother. rewrite Hid. discriminate.
Defined.

(** For an identifier that is not stored, get, delete and start of
    processing each answer 404, change nothing and schedule nothing. *)
Theorem unknown_analysis_not_found (st : Store) (id user : Id) (flt : Faults) :
  analyses st !! id = None ->
  flt 0 = false ->
  getAnalysisById user id flt st = (Analysis_not_found, st)
  /\ deleteAnalysis user id flt st = (Analysis_not_found, st)
  /\ processAnalysis user id flt st = ((Analysis_not_found, None), st).
Proof.
  intros Hnone H0.
  repeat split; handler_unfold; repeat handler_step; reflexivity.
Qed.

Lemma unknown_analysis_not_found_witness :
  analyses (store finished) !! 5 = None
  /\ no_faults 0 = false
  /\ getAnalysisById 7 5 no_faults (store finished) = (Analysis_not_found, store finished)
  /\ deleteAnalysis 7 5 no_faults (store finished) = (Analysis_not_found, store finished)
  /\ processAnalysis 7 5 no_faults (store finished)
     = ((Analysis_not_found, None), store finished).
Proof.
  assert (H : analyses (store finished) !! 5 = None) by reflexivity.
  split; [exact H |]. split; [reflexivity |].
  exact (unknown_analysis_not_found (store finished) 5 7 no_faults H eq_refl).
Defined.

(** A processing request by the owner, with a working database, answers
    200 and schedules one callback.  It writes [processing] over the status
    and nothing else: the result fields of an earlier completion, the
    detail rows and the notifications stay as they were. *)
Theorem processAnalysis_only_sets_status (st : Store) (id user : Id)
    (f : AnalysisFields) (flt : Faults) :
  analyses st !! id = Some f ->
  a_userId f = user ->
  flt 0 = false -> flt 1 = false ->
  let a := set_status processing {| a_id := id; a_fields := f |} in
  processAnalysis user id flt st
  = (({| code := 200; body := Message "Analysis processing started" |},
      Some {| t_analysis := a; t_user := user |}),
     set_analyses (<[id := a_fields a]> (analyses st)) st)
  /\ a_status (a_fields a) = processing
  /\ a_diseaseDetected (a_fields a) = a_diseaseDetected f
  /\ a_confidenceScore (a_fields a) = a_confidenceScore f
  /\ a_rbcCount (a_fields a) = a_rbcCount f
  /\ a_wbcCount (a_fields a) = a_wbcCount f
  /\ a_plateletCount (a_fields a) = a_plateletCount f
  /\ a_analysisNotes (a_fields a) = a_analysisNotes f
  /\ a_completedAt (a_fields a) = a_completedAt f.
Proof.
  intros Hf Hu H0 H1 a. apply owner_match in Hu.
  split; [| repeat split; reflexivity].
  handler_unfold. repeat handler_step. reflexivity.
Qed.

Lemma processAnalysis_only_sets_status_witness :
  exists f,
    analyses (store finished) !! 0 = Some f
    /\ a_userId f = 7
    /\ no_faults 0 = false /\ no_faults 1 = false
    /\ a_diseaseDetected f = Some "Chronic Lymphocytic Leukemia"
    /\ fst (fst (processAnalysis 7 0 no_faults (store finished)))
       = {| code := 200; body := Message "Analysis processing started" |}
    /\ (a_diseaseDetected <$> analyses (snd (processAnalysis 7 0 no_faults (store finished))) !! 0)
       = Some (Some "Chronic Lymphocytic Leukemia").
Proof.
  destruct (analyses (store finished) !! 0) as [f |] eqn:Hf; [| vm_compute in Hf; discriminate].
  assert (Hu : a_userId f = 7).
  { vm_compute in Hf. injection Hf as <-. reflexivity. }
  assert (Hd : a_diseaseDetected f = Some "Chronic Lymphocytic Leukemia").
  { vm_compute in Hf. injection Hf as <-. reflexivity. }
  exists f. split; [reflexivity |]. split; [exact Hu |].
  split; [reflexivity |]. split; [reflexivity |]. split; [exact Hd |].
  destruct (processAnalysis_only_sets_status (store finished) 0 7 f no_faults
              Hf Hu eq_refl eq_refl) as (Hp & _ & Hkeep & _).
  rewrite Hp. cbn [fst snd set_analyses analyses].
  split; [reflexivity |]. rewrite lookup_insert_eq.
  cbn [fmap option_fmap option_map]. f_equal. now rewrite <- Hd.
Defined.

(** ** What the completion callback leaves alone *)

(** The shape of the collections after the callback, over all fault
    patterns and inference outcomes. *)
Lemma completion_shape (t : Task) (execPromise : InferenceRuntime)
    (rnd : RandomSource) (now : Time) (flt : Faults) (st : Store) :
  let id := a_id (t_analysis t) in
  let r := obtain_results execPromise rnd (a_imageUrl (a_fields (t_analysis t))) in
  let doc := set_results r now (t_analysis t) in
  let st' := run_completion t execPromise rnd now flt st in
  nextId st' = nextId st
  /\ (analyses st' = analyses st
      \/ (is_Some (analyses st !! id)
          /\ (analyses st' = <[id := a_fields doc]> (analyses st)
              \/ analyses st' = <[id := a_fields (set_status failed doc)]> (analyses st))))
  /\ (classifications st' = classifications st
      \/ (is_Some (analyses st !! id)
          /\ classifications st' = (classifications st ++ classification_docs id r)%list))
  /\ (cellCountRows st' = cellCountRows st
      \/ (is_Some (analyses st !! id)
          /\ cellCountRows st' = (cellCountRows st ++ cellCount_docs id r)%list))
  /\ (notifications st' = notifications st
      \/ (is_Some (analyses st !! id)
          /\ (notifications st'
              = (notifications st ++ [success_notification (t_user t) r id])%list
              \/ notifications st'
                 = (notifications st ++ [error_notification (t_user t) id])%list))).
Proof.
  intros id r doc st'. subst st'. db_unfold. fold r. fold doc.
  change (a_id (set_status failed doc)) with id. change (a_id doc) with id.
  destruct (analyses st !! id) as [stored |] eqn:Hstored.
  - db_cases; rewrite ?insert_insert_eq; (split; [reflexivity |]);
      repeat split; eauto 6.
  - db_cases; (split; [reflexivity |]); repeat split; auto.
Qed.

(** When the Analysis was deleted before its timer fires, the callback
    changes nothing: no document, no detail row, no notification, whatever
    the inference returns. *)
Theorem completion_of_deleted_analysis (t : Task) (execPromise : InferenceRuntime)
    (rnd : RandomSource) (now : Time) (flt : Faults) (st : Store) :
  analyses st !! a_id (t_analysis t) = None ->
  run_completion t execPromise rnd now flt st = st.
Proof.
  intros Hnone. db_unfold.
  cbn [a_id set_results set_status].
  destruct (flt 0); cbn [db calls fst snd]; rewrite ?Hnone; cbn [db calls fst snd];
    destruct (flt 1); cbn [db calls fst snd]; rewrite ?Hnone; reflexivity.
Qed.

Lemma completion_of_deleted_analysis_witness :
  let deleted := step (Delete 7 0 no_faults) started in
  timers deleted !! 0
  = Some {| t_analysis := {| a_id := 0;
                             a_fields := {| a_userId := 7;
                               a_imageUrl := "uploads/img-1.png";
                               a_status := processing;
                               a_diseaseDetected := None;
                               a_confidenceScore := None;
                               a_rbcCount := None; a_wbcCount := None;
                               a_plateletCount := None;
                               a_analysisNotes := None;
                               a_completedAt := None |} |};
            t_user := 7 |}
  /\ analyses (store deleted) !! 0 = None
  /\ store (step (Timeout 0 python_absent always_half 5 no_faults) deleted)
     = store deleted.
Proof.
  intros deleted.
  assert (Ht : timers deleted !! 0
               = Some {| t_analysis := {| a_id := 0;
                             a_fields := {| a_userId := 7;
                               a_imageUrl := "uploads/img-1.png";
                               a_status := processing;
                               a_diseaseDetected := None;
                               a_confidenceScore := None;
                               a_rbcCount := None; a_wbcCount := None;
                               a_plateletCount := None;
                               a_analysisNotes := None;
                               a_completedAt := None |} |};
                         t_user := 7 |}) by reflexivity.
  assert (Hn : analyses (store deleted) !! 0 = None) by reflexivity.
  split; [exact Ht |]. split; [exact Hn |].
  cbn [step]. rewrite Ht. cbn [store].
  exact (completion_of_deleted_analysis _ python_absent always_half 5 no_faults
           (store deleted) Hn).
Defined.






(** ** Reading and deleting one analysis *)

Local Open Scope Q_scope.

(** To its owner, with a working database, [getAnalysisById] answers 200
    with the document as stored and with exactly the stored detail rows of
    that identifier, the classifications in descending order of
    probability and the cell counts in descending order of percentage; it
    writes nothing. *)
Theorem getAnalysisById_returns_sorted_rows (st : Store) (id user : Id)
    (f : AnalysisFields) (flt : Faults) :
  analyses st !! id = Some f ->
  a_userId f = user ->
  flt 0%nat = false -> flt 1%nat = false -> flt 2%nat = false ->
  exists dcs ccs,
    getAnalysisById user id flt st
    = ({| code := 200;
          body := DetailsBody {| a_id := id; a_fields := f |} dcs ccs |}, st)
    /\ Permutation dcs (classifications_of st id)
    /\ StronglySorted
         (fun a b => probability (dc_row b) <= probability (dc_row a)) dcs
    /\ Permutation ccs (cellCounts_of st id)
    /\ StronglySorted
         (fun a b => percentage (cc_row b) <= percentage (cc_row a)) ccs.
Proof.
  intros Hf Hu H0 H1 H2. apply owner_match in Hu.
  handler_unfold. repeat handler_step.
  do 2 eexists. split; [reflexivity |].
  unfold classifications_of, cellCounts_of.
  split; [apply js_sort_perm |].
  split; [apply (js_sort_key_desc (fun row => probability (dc_row row))) |].
  split; [apply js_sort_perm |].
  apply (js_sort_key_desc (fun row => percentage (cc_row row))).
Qed.

Local Close Scope Q_scope.

Lemma getAnalysisById_returns_sorted_rows_witness :
  exists f dcs ccs,
    analyses (store processed_twice) !! 0 = Some f
    /\ a_userId f = 7
    /\ no_faults 0 = false /\ no_faults 1 = false /\ no_faults 2 = false
    /\ getAnalysisById 7 0 no_faults (store processed_twice)
       = ({| code := 200;
             body := DetailsBody {| a_id := 0; a_fields := f |} dcs ccs |},
          store processed_twice)
    /\ List.length dcs = 20
    /\ StronglySorted
         (fun a b => (probability (dc_row b) <= probability (dc_row a))%Q) dcs.
Proof.
  destruct (analyses (store processed_twice) !! 0) as [f |] eqn:Hf;
    [| vm_compute in Hf; discriminate].
  assert (Hu : a_userId f = 7).
  { vm_compute in Hf. injection Hf as <-. reflexivity. }
  destruct (getAnalysisById_returns_sorted_rows (store processed_twice) 0 7 f
              no_faults Hf Hu eq_refl eq_refl eq_refl)
    as (dcs & ccs & Hget & Hperm & Hsorted & _).
  exists f, dcs, ccs. split; [reflexivity |]. split; [exact Hu |].
  split; [reflexivity |]. split; [reflexivity |]. split; [reflexivity |].
  split; [exact Hget |]. split; [| exact Hsorted].
  rewrite (Permutation_length Hperm). reflexivity.
Defined.

(** [deleteAnalysis] never touches another Analysis: the document and the
    detail rows of every other identifier, and all notifications, are
    after it what they were before, under every fault pattern. *)
Theorem deleteAnalysis_leaves_others (st : Store) (id user other : Id) (flt : Faults) :
  other <> id ->
  let st' := snd (deleteAnalysis user id flt st) in
  analyses st' !! other = analyses st !! other
  /\ classifications_of st' other = classifications_of st other
  /\ cellCounts_of st' other = cellCounts_of st other
  /\ notifications st' = notifications st
  /\ nextId st' = nextId st.
Proof.
  intros Hne st'. subst st'.
  assert (Hkeep : forall (A : Type) (key : A -> Id) (l : list A),
            List.filter (fun r => Nat.eqb (key r) other)
              (List.filter (fun r => negb (Nat.eqb (key r) id)) l)
            = List.filter (fun r => Nat.eqb (key r) other) l).
  { intros A key l. induction l as [| x l IH]; simpl; [reflexivity |].
    destruct (Nat.eqb_spec (key x) id) as [E | E]; simpl.
    - destruct (Nat.eqb_spec (key x) other) as [E' | _]; [congruence | exact IH].
    - destruct (Nat.eqb (key x) other); [now rewrite IH | exact IH]. }
  unfold classifications_of, cellCounts_of.
  handler_unfold. destruct (flt 0); cbn [db calls fst snd]; [auto |].
  destruct (analyses st !! id) as [f |];
    cbn [fmap option_fmap option_map db calls fst snd]; [| auto].
  destruct (negb _); cbn [db calls fst snd]; [auto |].
  destruct (flt 1); cbn [db calls fst snd set_classifications set_cellCountRows
    set_analyses analyses classifications cellCountRows notifications nextId];
    [auto |].
  destruct (flt 2); cbn [db calls fst snd set_classifications set_cellCountRows
    set_analyses analyses classifications cellCountRows notifications nextId].
  { rewrite (Hkeep _ dc_analysisId). auto. }
  destruct (flt 3); cbn [db calls fst snd set_classifications set_cellCountRows
    set_analyses analyses classifications cellCountRows notifications nextId a_id].
  { rewrite (Hkeep _ dc_analysisId), (Hkeep _ cc_analysisId). auto. }
  rewrite (Hkeep _ dc_analysisId), (Hkeep _ cc_analysisId).
  rewrite lookup_delete_ne by congruence. auto.
Qed.

Lemma deleteAnalysis_leaves_others_witness :
  let two := step (Timeout 0 python_absent always_quarter 6 no_faults)
               (step (Process 8 1 no_faults)
                  (step (Create 8 (Some "uploads/img-2.png") no_faults) finished)) in
  0 <> 1
  /\ List.length (classifications_of (store two) 0) = 10
  /\ fst (deleteAnalysis 8 1 no_faults (store two)) = Analysis_deleted
  /\ List.length (classifications_of (snd (deleteAnalysis 8 1 no_faults (store two))) 0) = 10
  /\ status_of {| store := snd (deleteAnalysis 8 1 no_faults (store two)); timers := [] |} 0
     = Some completed.
Proof.
  intros two. assert (Hne : 0 <> 1) by discriminate.
  split; [exact Hne |]. split; [reflexivity |]. split; [reflexivity |].
  destruct (deleteAnalysis_leaves_others (store two) 1 8 0 no_faults Hne)
    as (Ha & Hdc & _).
  unfold status_of. cbn [store]. rewrite Ha, Hdc. split; reflexivity.
Defined.

(** The deletion is not atomic.  When the deletion of the cell counts
    throws, the handler answers 500 with the classification rows of the
    Analysis already deleted, while the Analysis and its cell counts are
    still stored. *)
Theorem deleteAnalysis_interrupted (st : Store) (id user : Id)
    (f : AnalysisFields) (flt : Faults) :
  analyses st !! id = Some f ->
  a_userId f = user ->
  flt 0 = false -> flt 1 = false -> flt 2 = true ->
  let st' := snd (deleteAnalysis user id flt st) in
  fst (deleteAnalysis user id flt st)
  = {| code := 500; body := Message "Server error deleting analysis" |}
  /\ analyses st' = analyses st
  /\ classifications_of st' id = []
  /\ cellCountRows st' = cellCountRows st.
Proof.
  intros Hf Hu H0 H1 H2 st'. subst st'. apply owner_match in Hu.
  handler_unfold. repeat handler_step.
  unfold classifications_of. cbn [analyses classifications cellCountRows].
  repeat split. apply (filter_after_deleteMany dc_analysisId).
Qed.

Lemma deleteAnalysis_interrupted_witness :
  exists f,
    analyses (store finished) !! 0 = Some f
    /\ a_userId f = 7
    /\ fault_at 2 0 = false /\ fault_at 2 1 = false /\ fault_at 2 2 = true
    /\ List.length (classifications_of (store finished) 0) = 10
    /\ fst (deleteAnalysis 7 0 (fault_at 2) (store finished))
       = {| code := 500; body := Message "Server error deleting analysis" |}
    /\ classifications_of (snd (deleteAnalysis 7 0 (fault_at 2) (store finished))) 0 = []
    /\ List.length (cellCountRows (snd (deleteAnalysis 7 0 (fault_at 2) (store finished))))
       = 5
    /\ analyses (snd (deleteAnalysis 7 0 (fault_at 2) (store finished))) !! 0 = Some f.
Proof.
  destruct (analyses (store finished) !! 0) as [f |] eqn:Hf; [| vm_compute in Hf; discriminate].
  assert (Hu : a_userId f = 7).
  { vm_compute in Hf. injection Hf as <-. reflexivity. }
  destruct (deleteAnalysis_interrupted (store finished) 0 7 f (fault_at 2)
              Hf Hu eq_refl eq_refl eq_refl) as (Hr & Ha & Hdc & Hcc).
  exists f. split; [reflexivity |]. split; [exact Hu |].
  split; [reflexivity |]. split; [reflexivity |]. split; [reflexivity |].
  split; [reflexivity |]. split; [exact Hr |]. split; [exact Hdc |].
  split; [rewrite Hcc; reflexivity | rewrite Ha; exact Hf].
Defined.

(** ** Consistency of the reachable states *)

Lemma createAnalysis_shape (user : Id) (imageUrl : option string)
    (flt : Faults) (st : Store) :
  let st' := snd (createAnalysis user imageUrl flt st) in
  st' = st
  \/ exists f, a_status f = pending
       /\ st' = {| analyses := <[nextId st := f]> (analyses st);
                   nextId := S (nextId st);
                   classifications := classifications st;
                   cellCountRows := cellCountRows st;
                   notifications := notifications st |}.
Proof.
  handler_unfold. destruct (falsy imageUrl); cbn [db calls fst snd]; [now left |].
  destruct (flt 0); cbn [db calls fst snd]; [now left |].
  right. eexists. split; [| reflexivity]. reflexivity.
Qed.

Lemma processAnalysis_shape (user id : Id) (flt : Faults) (st : Store) :
  let out := processAnalysis user id flt st in
  (snd out = st /\ snd (fst out) = None)
  \/ exists f, analyses st !! id = Some f
       /\ a_userId f = user
       /\ snd (fst out)
          = Some {| t_analysis := set_status processing {| a_id := id; a_fields := f |};
                    t_user := user |}
       /\ snd out
          = set_analyses
              (<[id := a_fields (set_status processing {| a_id := id; a_fields := f |})]>
                 (analyses st)) st.
Proof.
  handler_unfold. destruct (flt 0); cbn [db calls fst snd]; [now left |].
  destruct (analyses st !! id) as [f |] eqn:Hf;
    cbn [fmap option_fmap option_map db calls fst snd]; [| now left].
  cbn [a_fields].
  destruct (Nat.eqb_spec (a_userId f) user) as [Hu | Hu]; cbn [negb db calls fst snd];
    [| now left].
  destruct (flt 1); cbn [db calls fst snd]; [now left |].
  cbn [a_id set_status]. rewrite Hf. cbn [db calls fst snd].
  right. exists f. repeat split; [exact Hu].
Qed.

Lemma deleteAnalysis_shape (user id : Id) (flt : Faults) (st : Store) :
  let st' := snd (deleteAnalysis user id flt st) in
  nextId st' = nextId st
  /\ notifications st' = notifications st
  /\ (analyses st' = analyses st \/ analyses st' = delete id (analyses st))
  /\ (forall r, In r (classifications st') -> In r (classifications st))
  /\ (forall r, In r (cellCountRows st') -> In r (cellCountRows st)).
Proof.
  assert (Hsub : forall (A : Type) (p : A -> bool) (l : list A) (r : A),
            In r (List.filter p l) -> In r l).
  { intros A p l r Hr. now apply List.filter_In in Hr. }
  handler_unfold. destruct (flt 0); cbn [db calls fst snd]; [auto 6 |].
  destruct (analyses st !! id) as [f |];
    cbn [fmap option_fmap option_map db calls fst snd]; [| auto 6].
  destruct (negb _); cbn [db calls fst snd]; [auto 6 |].
  destruct (flt 1); cbn [db calls fst snd set_classifications set_cellCountRows
    set_analyses analyses classifications cellCountRows notifications nextId];
    [auto 6 |].
  destruct (flt 2); cbn [db calls fst snd set_classifications set_cellCountRows
    set_analyses analyses classifications cellCountRows notifications nextId];
    [repeat split; auto; apply Hsub |].
  destruct (flt 3); cbn [db calls fst snd set_classifications set_cellCountRows
    set_analyses analyses classifications cellCountRows notifications nextId a_id];
    repeat split; auto; apply Hsub.
Qed.

Lemma evolves_refl (st : Store) : evolves st st.
Proof.
  split; [lia |]. intros id f' Hf _. exists f'. auto.
Qed.

Lemma evolves_trans (st1 st2 st3 : Store) :
  ids_below_next st2 -> evolves st1 st2 -> evolves st2 st3 -> evolves st1 st3.
Proof.
  intros Hids [Hn12 H12] [Hn23 H23]. split; [lia |].
  intros id f3 Hf3 Hid.
  destruct (H23 id f3 Hf3 ltac:(lia)) as (f2 & Hf2 & Hu & Hi & Hp).
  destruct (H12 id f2 Hf2 Hid) as (f1 & Hf1 & Hu' & Hi' & Hp').
  exists f1. repeat split; [exact Hf1 | congruence | congruence | auto].
Qed.

(** Replacing a stored document by one of the same owner and image that is
    not pending. *)
Lemma evolves_update (st st' : Store) (id : Id) (f new : AnalysisFields) :
  analyses st !! id = Some f ->
  a_userId new = a_userId f -> a_imageUrl new = a_imageUrl f ->
  a_status new <> pending ->
  nextId st' = nextId st ->
  analyses st' = <[id := new]> (analyses st) ->
  evolves st st'.
Proof.
  intros Hf Hu Hi Hs Hn Ha. split; [lia |].
  intros id' f' Hf' _. rewrite Ha in Hf'.
  destruct (decide (id = id')) as [<- | Hne].
  - rewrite lookup_insert_eq in Hf'. injection Hf' as <-.
    exists f. repeat split; auto. intros Hp. contradiction.
  - rewrite lookup_insert_ne in Hf' by exact Hne. exists f'. auto.
Qed.

Lemma step_evolves (e : Event) (s : System) :
  ids_below_next (store s) ->
  Forall (timer_consistent (store s)) (timers s) ->
  evolves (store s) (store (step e s)).
Proof.
  intros Hids Htimers.
  destruct e as [user url flt | user id' flt | user id' flt | user id' flt
                | k execPromise rnd now flt].
  - cbn [step store].
    destruct (createAnalysis_shape user url flt (store s)) as [-> | (f & _ & ->)];
      [apply evolves_refl |].
    split; [cbn; lia |]. cbn [analyses]. intros id f' Hf' Hid.
    rewrite lookup_insert_ne in Hf' by lia. exists f'. auto.
  - rewrite step_Process_store.
    destruct (processAnalysis_shape user id' flt (store s))
      as [[-> _] | (f & Hf & _ & _ & ->)]; [apply evolves_refl |].
    eapply evolves_update; [exact Hf | | | | | reflexivity];
      [reflexivity | reflexivity | discriminate | reflexivity].
  - cbn [step store]. rewrite getAnalysisById_effect. apply evolves_refl.
  - cbn [step store].
    destruct (deleteAnalysis_shape user id' flt (store s)) as (Hn & _ & Ha & _).
    split; [lia |]. intros id f' Hf' _. exists f'.
    destruct Ha as [Ha | Ha]; rewrite Ha in Hf'; [auto |].
    apply lookup_delete_Some in Hf'. destruct Hf' as [_ Hf']. auto.
  - cbn [step]. destruct (timers s !! k) as [t |] eqn:Ht; [| apply evolves_refl].
    cbn [store].
    assert (Htc : timer_consistent (store s) t).
    { rewrite List.Forall_forall in Htimers. apply Htimers.
      apply list_elem_of_In, list_elem_of_lookup. eauto. }
    destruct Htc as (_ & _ & Hstored).
    destruct (completion_shape t execPromise rnd now flt (store s))
      as (Hn & Ha & _).
    destruct Ha as [Ha | ([f Hf] & [Ha | Ha])].
    + split; [lia |]. intros id f' Hf' _. rewrite Ha in Hf'. exists f'. auto.
    + destruct (Hstored f Hf) as (Hu & Hi & _).
      eapply evolves_update; [exact Hf | | | | exact Hn | exact Ha];
        [cbn; congruence | cbn; congruence | discriminate].
    + destruct (Hstored f Hf) as (Hu & Hi & _).
      eapply evolves_update; [exact Hf | | | | exact Hn | exact Ha];
        [cbn; congruence | cbn; congruence | discriminate].
Qed.

Lemma reference_consistent_evolves (st st' : Store) (id : Id) :
  evolves st st' -> reference_consistent st id -> reference_consistent st' id.
Proof.
  intros [Hn Hev] [Hid Hst]. split; [lia |].
  intros f' Hf' Hp. destruct (Hev id f' Hf' Hid) as (f & Hf & _ & _ & Hback).
  exact (Hst f Hf (Hback Hp)).
Qed.

Lemma timer_consistent_evolves (st st' : Store) (t : Task) :
  evolves st st' -> timer_consistent st t -> timer_consistent st' t.
Proof.
  intros [Hn Hev] (Hid & Hu & Hst). split; [lia |]. split; [exact Hu |].
  intros f' Hf'. destruct (Hev _ f' Hf' Hid) as (f & Hf & Hu' & Hi' & Hback).
  destruct (Hst f Hf) as (Hu0 & Hi0 & Hs0).
  repeat split; [congruence | congruence |]. intros Hp. exact (Hs0 (Hback Hp)).
Qed.

Lemma timer_reference (st : Store) (t : Task) :
  timer_consistent st t -> reference_consistent st (a_id (t_analysis t)).
Proof.
  intros (Hid & _ & Hst). split; [exact Hid |].
  intros f Hf. now destruct (Hst f Hf) as (_ & _ & Hs).
Qed.

Lemma step_consistent (e : Event) (s : System) :
  reachable s -> consistent s -> consistent (step e s).
Proof.
  intros Hreach (Hids & Htimers & Hdc & Hcc & Hnot).
  pose proof (step_evolves e s Hids Htimers) as Hev.
  assert (Hids' : ids_below_next (store (step e s))).
  { apply reachable_ids_below_next. now constructor. }
  assert (Hdc_old : Forall
            (fun r => reference_consistent (store (step e s)) (dc_analysisId r))
            (classifications (store s))).
  { eapply List.Forall_impl; [| exact Hdc].
    intros r. now apply reference_consistent_evolves. }
  assert (Hcc_old : Forall
            (fun r => reference_consistent (store (step e s)) (cc_analysisId r))
            (cellCountRows (store s))).
  { eapply List.Forall_impl; [| exact Hcc].
    intros r. now apply reference_consistent_evolves. }
  assert (Hnot_old : Forall
            (fun n => forall id, n_analysisId n = Some id ->
               reference_consistent (store (step e s)) id
               /\ forall f, analyses (store (step e s)) !! id = Some f ->
                    n_userId n = a_userId f)
            (notifications (store s))).
  { eapply List.Forall_impl; [| exact Hnot].
    intros n Hn id Hid. destruct (Hn id Hid) as [Hr Ho].
    split; [now apply (reference_consistent_evolves (store s)) |].
    intros f' Hf'. destruct Hr as [Hlt _]. destruct Hev as [_ Hev].
    destruct (Hev id f' Hf' Hlt) as (f & Hf & Hu & _). rewrite Hu. now apply Ho. }
  assert (Htimers_old : Forall (timer_consistent (store (step e s))) (timers s)).
  { eapply List.Forall_impl; [| exact Htimers].
    intros t. now apply timer_consistent_evolves. }
  split; [exact Hids' |].
  destruct e as [user url flt | user id' flt | user id' flt | user id' flt
                | k execPromise rnd now flt].
  - cbn [step timers] in *. split; [exact Htimers_old |].
    cbn [store] in *.
    destruct (createAnalysis_shape user url flt (store s)) as [E | (f & _ & E)];
      rewrite E in *; cbn [classifications cellCountRows notifications] in *; auto.
  - rewrite step_Process_store in *.
    assert (Ht : timers (step (Process user id' flt) s)
                 = (timers s ++ match snd (fst (processAnalysis user id' flt (store s))) with
                                | Some t => [t]
                                | None => []
                                end)%list).
    { cbn [step]. destruct (processAnalysis user id' flt (store s)) as [[resp sch] st'].
      reflexivity. }
    rewrite Ht.
    destruct (processAnalysis_shape user id' flt (store s))
      as [[E Esch] | (f & Hf & Hu & Esch & E)]; rewrite Esch, E in *.
    + rewrite app_nil_r. auto.
    + cbn [set_analyses classifications cellCountRows notifications] in *.
      split; [| auto]. apply List.Forall_app. split; [exact Htimers_old |].
      constructor; [| constructor].
      split; [cbn; apply Hids; eauto |]. split; [cbn; congruence |].
      cbn [t_analysis a_id set_status a_fields analyses set_analyses].
      rewrite lookup_insert_eq. intros f' [= <-]. cbn. repeat split. discriminate.
  - cbn [step store timers] in *. rewrite getAnalysisById_effect in *. auto.
  - cbn [step store timers] in *. split; [exact Htimers_old |].
    destruct (deleteAnalysis_shape user id' flt (store s)) as (_ & Hn & _ & Hsd & Hsc).
    rewrite Hn. split; [| split; [| exact Hnot_old]].
    + apply List.Forall_forall. intros r Hr. apply Hsd in Hr.
      rewrite List.Forall_forall in Hdc_old. now apply Hdc_old.
    + apply List.Forall_forall. intros r Hr. apply Hsc in Hr.
      rewrite List.Forall_forall in Hcc_old. now apply Hcc_old.
  - cbn [step] in *. destruct (timers s !! k) as [t |] eqn:Ht;
      [| cbn [store timers] in *; auto].
    cbn [store timers] in *.
    assert (Htc : timer_consistent (store s) t).
    { rewrite List.Forall_forall in Htimers. apply Htimers.
      apply list_elem_of_In, list_elem_of_lookup. eauto. }
    pose proof (timer_consistent_evolves _ _ t Hev Htc) as Htc'.
    pose proof (timer_reference _ t Htc') as Href.
    split; [now apply Forall_delete |].
    destruct (completion_shape t execPromise rnd now flt (store s))
      as (_ & _ & Hd & Hc & Hn).
    split; [| split].
    + destruct Hd as [-> | (_ & ->)]; [exact Hdc_old |].
      apply List.Forall_app. split; [exact Hdc_old |].
      unfold classification_docs. apply List.Forall_map.
      apply List.Forall_forall. intros x _. exact Href.
    + destruct Hc as [-> | (_ & ->)]; [exact Hcc_old |].
      apply List.Forall_app. split; [exact Hcc_old |].
      unfold cellCount_docs. apply List.Forall_map.
      apply List.Forall_forall. intros x _. exact Href.
    + assert (Hnew : forall n, n_analysisId n = Some (a_id (t_analysis t)) ->
                n_userId n = t_user t ->
                forall id, n_analysisId n = Some id ->
                  reference_consistent
                    (run_completion t execPromise rnd now flt (store s)) id
                  /\ forall f, analyses
                       (run_completion t execPromise rnd now flt (store s)) !! id
                       = Some f -> n_userId n = a_userId f).
      { intros n Hnid Hnu id Hid. rewrite Hnid in Hid. injection Hid as <-.
        split; [exact Href |]. intros f Hf.
        destruct Htc' as (_ & Hu & Hst). destruct (Hst f Hf) as (Hu' & _).
        congruence. }
      destruct Hn as [-> | (_ & [-> | ->])]; [exact Hnot_old | |];
        (apply List.Forall_app; split; [exact Hnot_old |]);
        (constructor; [| constructor]); apply Hnew; reflexivity.
Qed.

Lemma reachable_consistent (s : System) : reachable s -> consistent s.
Proof.
  induction 1 as [| e s Hs IH].
  - split.
    { intros id [f Hf]. cbn in Hf. rewrite lookup_empty in Hf. discriminate. }
    cbn. repeat split; constructor.
  - now apply step_consistent.
Qed.

Lemma reachable_run (es : list Event) (s : System) :
  reachable s -> reachable (run es s).
Proof.
  revert s. induction es as [| e es IH]; intros s Hs; [exact Hs |].
  cbn [run fold_left]. apply (IH (step e s)). now constructor.
Qed.

Lemma run_evolves (es : list Event) (s : System) :
  reachable s -> evolves (store s) (store (run es s)).
Proof.
  revert s. induction es as [| e es IH]; intros s Hs; [apply evolves_refl |].
  cbn [run fold_left].
  destruct (reachable_consistent s Hs) as (Hids & Htimers & _).
  apply (evolves_trans _ (store (step e s))).
  - apply reachable_ids_below_next. now constructor.
  - now apply step_evolves.
  - apply (IH (step e s)). now constructor.
Qed.

(** Without a consistent reference there is nothing that refers to the
    identifier. *)
Lemma unreferenced_without_reference (s : System) (id : Id) :
  consistent s -> ~ reference_consistent (store s) id -> unreferenced s id.
Proof.
  intros (_ & Htimers & Hdc & Hcc & Hnot) Hno.
  assert (Hempty : forall (A : Type) (p : A -> bool) (l : list A),
            (forall x, In x l -> p x = false) -> List.filter p l = []).
  { intros A p l Hall. induction l as [| x l IH]; simpl; [reflexivity |].
    rewrite (Hall x) by now left. apply IH. intros y Hy. apply Hall. now right. }
  unfold unreferenced, classifications_of, cellCounts_of, notifications_of.
  split; [| split; [| split]].
  - apply Hempty. intros r Hr. apply Nat.eqb_neq. intros E.
    rewrite List.Forall_forall in Hdc. apply Hno. rewrite <- E. now apply Hdc.
  - apply Hempty. intros r Hr. apply Nat.eqb_neq. intros E.
    rewrite List.Forall_forall in Hcc. apply Hno. rewrite <- E. now apply Hcc.
  - apply Hempty. intros n Hn. apply bool_decide_eq_false_2. intros E.
    rewrite List.Forall_forall in Hnot. apply Hno. now apply (Hnot n Hn id).
  - intros t Ht E. rewrite List.Forall_forall in Htimers.
    apply Hno. rewrite <- E. apply timer_reference. now apply Htimers.
Qed.


Lemma uploaded_reachable : reachable uploaded.
Proof.
  unfold uploaded, run. cbn [fold_left]. apply reachable_step, reachable_initial.
Qed.


(** In every reachable state, a notification that refers to a stored
    Analysis is addressed to the owner of that Analysis. *)
Theorem notification_goes_to_owner (s : System) (n : Notification) (id : Id)
    (f : AnalysisFields) :
  reachable s ->
  In n (notifications (store s)) ->
  n_analysisId n = Some id ->
  analyses (store s) !! id = Some f ->
  n_userId n = a_userId f.
Proof.
  intros Hreach Hn Hid Hf.
  destruct (reachable_consistent s Hreach) as (_ & _ & _ & _ & Hnot).
  rewrite List.Forall_forall in Hnot.
  destruct (Hnot n Hn id Hid) as [_ Ho]. now apply Ho.
Qed.

Lemma notification_goes_to_owner_witness :
  exists n f,
    reachable finished
    /\ In n (notifications (store finished))
    /\ n_analysisId n = Some 0
    /\ analyses (store finished) !! 0 = Some f
    /\ n_userId n = 7 /\ a_userId f = 7.
Proof.
  destruct (notifications (store finished)) as [| n ns] eqn:Hn;
    [vm_compute in Hn; discriminate |].
  destruct (analyses (store finished) !! 0) as [f |] eqn:Hf;
    [| vm_compute in Hf; discriminate].
  assert (Hin : In n (notifications (store finished))) by (rewrite Hn; now left).
  assert (Hid : n_analysisId n = Some 0).
  { vm_compute in Hn. injection Hn as <- _. reflexivity. }
  assert (Hu : n_userId n = 7).
  { vm_compute in Hn. injection Hn as <- _. reflexivity. }
  exists n, f. split; [exact finished_reachable |].
  rewrite <- Hn. split; [exact Hin |]. split; [exact Hid |]. split; [reflexivity |].
  split; [exact Hu |].
  rewrite <- (notification_goes_to_owner finished n 0 f finished_reachable Hin Hid Hf).
  exact Hu.
Defined.

(** From a reachable state, no sequence of events changes the owner or the
    image of a stored Analysis. *)
Theorem owner_and_image_never_change (s : System) (es : list Event) (id : Id)
    (f f' : AnalysisFields) :
  reachable s ->
  analyses (store s) !! id = Some f ->
  analyses (store (run es s)) !! id = Some f' ->
  a_userId f' = a_userId f /\ a_imageUrl f' = a_imageUrl f.
Proof.
  intros Hreach Hf Hf'.
  destruct (run_evolves es s Hreach) as [_ Hev].
  assert (Hid : id < nextId (store s)).
  { apply (reachable_ids_below_next s Hreach). eauto. }
  destruct (Hev id f' Hf' Hid) as (f0 & Hf0 & Hu & Hi & _).
  assert (E : f0 = f) by congruence. subst f0. auto.
Qed.

Lemma owner_and_image_never_change_witness :
  exists f f',
    reachable uploaded
    /\ analyses (store uploaded) !! 0 = Some f
    /\ analyses (store (run [Process 7 0 no_faults;
                             Timeout 0 python_present always_half 5 no_faults]
                          uploaded)) !! 0 = Some f'
    /\ a_status f = pending /\ a_status f' = completed
    /\ a_userId f' = a_userId f /\ a_imageUrl f' = a_imageUrl f.
Proof.
  destruct (analyses (store uploaded) !! 0) as [f |] eqn:Hf;
    [| vm_compute in Hf; discriminate].
  destruct (analyses (store (run [Process 7 0 no_faults;
                                  Timeout 0 python_present always_half 5 no_faults]
                               uploaded)) !! 0) as [f' |] eqn:Hf';
    [| vm_compute in Hf'; discriminate].
  exists f, f'. split; [exact uploaded_reachable |].
  split; [reflexivity |]. split; [reflexivity |].
  split; [vm_compute in Hf; injection Hf as <-; reflexivity |].
  split; [vm_compute in Hf'; injection Hf' as <-; reflexivity |].
  exact (owner_and_image_never_change uploaded _ 0 f f' uploaded_reachable Hf Hf').
Defined.

(** From a reachable state, an identifier that was handed out and whose
    Analysis is gone stays without an Analysis: identifiers are not reused,
    and a callback that fires late does not store the document again. *)
Theorem deleted_analysis_stays_deleted (s : System) (es : list Event) (id : Id) :
  reachable s ->
  id < nextId (store s) ->
  analyses (store s) !! id = None ->
  analyses (store (run es s)) !! id = None.
Proof.
  intros Hreach Hid Hnone.
  destruct (run_evolves es s Hreach) as [_ Hev].
  destruct (analyses (store (run es s)) !! id) as [f' |] eqn:Hf'; [| reflexivity].
  destruct (Hev id f' Hf' Hid) as (f & Hf & _). congruence.
Qed.

Lemma deleted_analysis_stays_deleted_witness :
  let deleted := step (Delete 7 0 no_faults) started in
  let later := [Timeout 0 python_absent always_half 5 no_faults;
                Create 8 (Some "uploads/img-2.png") no_faults] in
  reachable deleted
  /\ 0 < nextId (store deleted)
  /\ analyses (store deleted) !! 0 = None
  /\ List.length (timers deleted) = 1
  /\ analyses (store (run later deleted)) !! 0 = None
  /\ status_of (run later deleted) 1 = Some pending.
Proof.
  intros deleted later.
  assert (Hr : reachable deleted).
  { unfold deleted. apply reachable_step. unfold started. apply reachable_step.
    exact uploaded_reachable. }
  assert (Hid : 0 < nextId (store deleted)) by (vm_compute; lia).
  assert (Hn : analyses (store deleted) !! 0 = None) by reflexivity.
  split; [exact Hr |]. split; [exact Hid |]. split; [exact Hn |].
  split; [reflexivity |]. split; [| reflexivity].
  exact (deleted_analysis_stays_deleted deleted later 0 Hr Hid Hn).
Defined.

(** ** Handlers in sequence *)

Lemma filter_keep_all {A : Type} (p : A -> bool) (l : list A) :
  (forall x, In x l -> p x = true) -> List.filter p l = l.
Proof.
  intros Hall. induction l as [| x l IH]; simpl; [reflexivity |].
  rewrite (Hall x) by now left. f_equal. apply IH. intros y Hy. apply Hall. now right.
Qed.

(** In a reachable state, an Analysis that was just created is returned to
    its creator by [getAnalysisById] as created, pending, with no detail
    rows. *)
Theorem created_analysis_is_readable (s : System) (user : Id) (imageUrl : string) :
  reachable s ->
  imageUrl <> "" ->
  exists a st',
    createAnalysis user (Some imageUrl) no_faults (store s)
    = ({| code := 201; body := AnalysisBody a |}, st')
    /\ a_status (a_fields a) = pending
    /\ getAnalysisById user (a_id a) no_faults st'
       = ({| code := 200; body := DetailsBody a [] [] |}, st').
Proof.
  intros Hreach Hurl.
  destruct (createAnalysis_stores_pending_aux user imageUrl no_faults (store s)
              Hurl eq_refl)
    as (a & st' & Hc & Hid & Hf & Hst & _ & _ & Hdc & Hcc & _).
  exists a, st'. split; [exact Hc |]. split; [now rewrite Hf |].
  assert (Hun : unreferenced s (a_id a)).
  { apply unreferenced_without_reference; [now apply reachable_consistent |].
    intros [Hlt _]. lia. }
  destruct Hun as (Hd0 & Hc0 & _).
  unfold classifications_of in Hd0. unfold cellCounts_of in Hc0.
  destruct a as [ida fa]. cbn [a_id a_fields] in *.
  assert (Hu : negb (Nat.eqb (a_userId fa) user) = false).
  { apply owner_match. now rewrite Hf. }
  handler_unfold. unfold no_faults. cbn [db calls fst snd]. rewrite Hst.
  cbn [fmap option_fmap option_map db calls fst snd a_fields].
  rewrite Hu. cbn [db calls fst snd]. rewrite Hdc, Hcc, Hd0, Hc0. reflexivity.
Qed.

Lemma created_analysis_is_readable_witness :
  reachable finished
  /\ "uploads/img-2.png" <> ""
  /\ exists a st',
       createAnalysis 8 (Some "uploads/img-2.png") no_faults (store finished)
       = ({| code := 201; body := AnalysisBody a |}, st')
       /\ a_status (a_fields a) = pending
       /\ getAnalysisById 8 (a_id a) no_faults st'
          = ({| code := 200; body := DetailsBody a [] [] |}, st').
Proof.
  assert (H : "uploads/img-2.png" <> "") by discriminate.
  split; [exact finished_reachable |]. split; [exact H |].
  exact (created_analysis_is_readable finished 8 "uploads/img-2.png"
           finished_reachable H).
Defined.

(** In a reachable state, creating an Analysis and deleting it again
    leaves every collection as it was; only the next identifier has moved
    on. *)
Theorem create_then_delete_restores (s : System) (user : Id) (imageUrl : string) :
  reachable s ->
  imageUrl <> "" ->
  let created := createAnalysis user (Some imageUrl) no_faults (store s) in
  let deleted := deleteAnalysis user (nextId (store s)) no_faults (snd created) in
  fst deleted = Analysis_deleted
  /\ analyses (snd deleted) = analyses (store s)
  /\ classifications (snd deleted) = classifications (store s)
  /\ cellCountRows (snd deleted) = cellCountRows (store s)
  /\ notifications (snd deleted) = notifications (store s)
  /\ nextId (snd deleted) = S (nextId (store s)).
Proof.
  intros Hreach Hurl created deleted. subst deleted created.
  assert (Hfalsy : falsy (Some imageUrl) = false).
  { cbn. now apply String.eqb_neq. }
  pose proof (reachable_consistent s Hreach) as (Hids & _ & Hdc & Hcc & _).
  assert (Hfresh : analyses (store s) !! nextId (store s) = None).
  { destruct (analyses (store s) !! nextId (store s)) as [f |] eqn:E; [| reflexivity].
    assert (Hsome : is_Some (analyses (store s) !! nextId (store s)))
      by (rewrite E; eauto).
    apply Hids in Hsome. lia. }
  handler_unfold. rewrite Hfalsy. unfold no_faults.
  cbn [db calls fst snd default analyses nextId classifications cellCountRows
       notifications set_classifications set_cellCountRows set_analyses].
  rewrite lookup_insert_eq.
  cbn [fmap option_fmap option_map db calls fst snd a_fields a_userId a_id
       analyses nextId classifications cellCountRows notifications
       set_classifications set_cellCountRows set_analyses].
  rewrite Nat.eqb_refl.
  cbn [negb db calls fst snd a_fields a_userId a_id
       analyses nextId classifications cellCountRows notifications
       set_classifications set_cellCountRows set_analyses].
  split; [reflexivity |]. split; [now apply delete_insert_id |].
  split; [| split; [| split; reflexivity]].
  - apply filter_keep_all. intros r Hr. rewrite List.Forall_forall in Hdc.
    destruct (Hdc r Hr) as [Hlt _]. apply negb_true_iff, Nat.eqb_neq. lia.
  - apply filter_keep_all. intros r Hr. rewrite List.Forall_forall in Hcc.
    destruct (Hcc r Hr) as [Hlt _]. apply negb_true_iff, Nat.eqb_neq. lia.
Qed.

Lemma create_then_delete_restores_witness :
  let created := createAnalysis 8 (Some "uploads/img-2.png") no_faults (store finished) in
  let deleted := deleteAnalysis 8 (nextId (store finished)) no_faults (snd created) in
  reachable finished
  /\ "uploads/img-2.png" <> ""
  /\ is_Some (analyses (snd created) !! 1)
  /\ fst deleted = Analysis_deleted
  /\ analyses (snd deleted) = analyses (store finished)
  /\ List.length (classifications (snd deleted)) = 10.
Proof.
  intros created deleted.
  assert (H : "uploads/img-2.png" <> "") by discriminate.
  split; [exact finished_reachable |]. split; [exact H |].
  split; [vm_compute; eauto |].
  destruct (create_then_delete_restores finished 8 "uploads/img-2.png"
              finished_reachable H) as (Hr & Ha & Hdc & _).
  split; [exact Hr |]. split; [exact Ha |].
  unfold deleted, created. rewrite Hdc. reflexivity.
Defined.

(** The image URL that the upload route answers for a stored file is never
    refused by [createAnalysis] as missing, even for an empty file name,
    and it is the image of the created Analysis.  Without a file the upload
    route answers 400. *)
Theorem uploaded_image_is_accepted (filename : string) (user : Id)
    (flt : Faults) (st : Store) :
  flt 0 = false ->
  upload_route None = Failed 400 "No file uploaded"
  /\ exists imageUrl a st',
       upload_route (Some filename) = Ok ("File uploaded successfully", imageUrl)
       /\ createAnalysis user (Some imageUrl) flt st
          = ({| code := 201; body := AnalysisBody a |}, st')
       /\ a_imageUrl (a_fields a) = "/uploads/" ++ filename
       /\ a_userId (a_fields a) = user.
Proof.
  intros H0. split; [reflexivity |].
  assert (Hurl : "/uploads/" ++ filename <> "") by discriminate.
  destruct (createAnalysis_stores_pending_aux user ("/uploads/" ++ filename) flt st
              Hurl H0) as (a & st' & Hc & _ & Hf & _).
  exists ("/uploads/" ++ filename), a, st'.
  split; [reflexivity |]. split; [exact Hc |]. rewrite Hf. split; reflexivity.
Qed.

Lemma uploaded_image_is_accepted_witness :
  no_faults 0 = false
  /\ upload_route None = Failed 400 "No file uploaded"
  /\ exists imageUrl a st',
       upload_route (Some "") = Ok ("File uploaded successfully", imageUrl)
       /\ createAnalysis 7 (Some imageUrl) no_faults empty_store
          = ({| code := 201; body := AnalysisBody a |}, st')
       /\ a_imageUrl (a_fields a) = "/uploads/" ++ ""
       /\ a_userId (a_fields a) = 7.
Proof.
  split; [reflexivity |].
  exact (uploaded_image_is_accepted "" 7 no_faults empty_store eq_refl).
Defined.

(** ** Listing and statistics *)

Lemma In_Analysis_docs (st : Store) (a : Analysis) :
  In a (Analysis_docs st) <-> analyses st !! a_id a = Some (a_fields a).
Proof.
  unfold Analysis_docs. rewrite in_map_iff. split.
  - intros ([id f] & <- & Hin). cbn.
    apply list_elem_of_In, elem_of_map_to_list in Hin. exact Hin.
  - intros Hl. exists (a_id a, a_fields a). split; [now destruct a |].
    apply list_elem_of_In, elem_of_map_to_list. exact Hl.
Qed.

Lemma Analysis_docs_ids_NoDup (st : Store) : NoDup (map a_id (Analysis_docs st)).
Proof.
  unfold Analysis_docs. rewrite map_map. cbn [a_id].
  apply (NoDup_fst_map_to_list (analyses st)).
Qed.

Lemma NoDup_map_filter {A B : Type} (g : A -> B) (p : A -> bool) (l : list A) :
  NoDup (map g l) -> NoDup (map g (List.filter p l)).
Proof.
  induction l as [| x l IH]; simpl; [auto |].
  intros Hnd. apply NoDup_cons in Hnd. destruct Hnd as [Hx Hl].
  destruct (p x); simpl; [| now apply IH].
  apply NoDup_cons. split; [| now apply IH].
  rewrite list_elem_of_In in *. intros Hin. apply Hx.
  apply in_map_iff in Hin. destruct Hin as (y & Hy & Hin).
  apply in_map_iff. exists y. split; [exact Hy |]. now apply List.filter_In in Hin.
Qed.

(** With a working database, [getAnalyses] answers exactly the stored
    analyses of the requester, each once and none of another user, newest
    first; it writes nothing. *)
Theorem getAnalyses_lists_own (createdAt : Id -> Time) (user : Id)
    (flt : Faults) (st : Store) :
  flt 0 = false ->
  exists l,
    getAnalyses createdAt user flt st = (Ok l, st)
    /\ (forall a, In a l <->
          analyses st !! a_id a = Some (a_fields a)
          /\ a_userId (a_fields a) = user)
    /\ NoDup (map a_id l)
    /\ StronglySorted (fun a b => createdAt (a_id b) <= createdAt (a_id a)) l.
Proof.
  intros H0. unfold getAnalyses, getAnalyses_body, run_handler, db_bind, db_ret,
    Analysis_find_newest_first, db_call. cbn [db calls fst snd]. rewrite H0.
  cbn [db calls fst snd]. eexists. split; [reflexivity |].
  split; [| split].
  - intros a. rewrite js_sort_In, List.filter_In, In_Analysis_docs.
    unfold owned_by. rewrite Nat.eqb_eq. reflexivity.
  - rewrite (Permutation_map a_id (js_sort_perm (by_createdAt_desc createdAt) _)).
    apply NoDup_map_filter, Analysis_docs_ids_NoDup.
  - assert (Hord : ordered_by (by_createdAt_desc createdAt)
                     (js_sort (by_createdAt_desc createdAt)
                        (List.filter (owned_by user) (Analysis_docs st)))).
    { apply js_sort_ordered; unfold by_createdAt_desc.
      - intros a b. rewrite Nat.ltb_lt, Nat.ltb_ge. lia.
      - intros a b c. rewrite !Nat.ltb_ge. lia. }
    revert Hord. apply ordered_by_sorted. unfold by_createdAt_desc.
    intros a b Hab. now apply Nat.ltb_ge in Hab.
Qed.

Lemma getAnalyses_lists_own_witness :
  let two := step (Create 8 (Some "uploads/img-2.png") no_faults) finished in
  no_faults 0 = false
  /\ exists l,
       getAnalyses (fun id => id) 8 no_faults (store two) = (Ok l, store two)
       /\ map a_id l = [1]
       /\ (forall a, In a l <->
             analyses (store two) !! a_id a = Some (a_fields a)
             /\ a_userId (a_fields a) = 8).
Proof.
  intros two. split; [reflexivity |].
  destruct (getAnalyses_lists_own (fun id => id) 8 no_faults (store two) eq_refl)
    as (l & Hget & Hiff & _).
  exists l. split; [exact Hget |]. split; [| exact Hiff].
  assert (E : fst (getAnalyses (fun id => id) 8 no_faults (store two)) = Ok l)
    by now rewrite Hget.
  vm_compute in E. injection E as <-. reflexivity.
Defined.

(** The four reading handlers never write: whatever the database does
    during the request, the collections are afterwards as before. *)
Theorem reading_handlers_write_nothing (createdAt : Id -> Time) (now_month : Time)
    (user id : Id) (flt : Faults) (st : Store) :
  snd (getAnalysisById user id flt st) = st
  /\ snd (getAnalyses createdAt user flt st) = st
  /\ snd (getDashboardStats createdAt now_month user flt st) = st
  /\ snd (getDiseaseDistribution user flt st) = st.
Proof.
  split; [apply getAnalysisById_effect |].
  unfold getAnalyses, getAnalyses_body, getDashboardStats, getDashboardStats_body,
    getDiseaseDistribution, getDiseaseDistribution_body, run_handler, db_bind, db_ret,
    Analysis_find_newest_first, Analysis_find, Analysis_countDocuments, db_call.
  cbn [db calls fst snd].
  split; [| split].
  - destruct (flt 0); reflexivity.
  - destruct (flt 0); cbn [db calls fst snd]; [reflexivity |].
    destruct (flt 1); reflexivity.
  - destruct (flt 0); cbn [db calls fst snd]; [reflexivity |].
    destruct (Nat.eqb _ 0); reflexivity.
Qed.

Local Open Scope Q_scope.

Lemma round1_mono (x y : Q) : x <= y -> round1 x <= round1 y.
Proof.
  intros H. unfold round1, Math_round.
  apply Qmult_le_compat_r; [| discriminate].
  rewrite <- Zle_Qle. apply Qfloor_resp_le. lra.
Qed.

Lemma round1_percent (x : Q) : 0 <= x -> x <= 100 -> 0 <= round1 x /\ round1 x <= 100.
Proof.
  intros H0 H1. split.
  - apply Qle_trans with (round1 0); [vm_compute; discriminate |].
    now apply round1_mono.
  - apply Qle_trans with (round1 100); [| vm_compute; discriminate].
    now apply round1_mono.
Qed.

Lemma Q_of_nat_S (n : nat) : Q_of_nat (S n) == Q_of_nat n + 1.
Proof.
  unfold Q_of_nat. rewrite Nat2Z.inj_succ. unfold Z.succ.
  rewrite inject_Z_plus. reflexivity.
Qed.

Lemma Q_of_nat_nonneg (n : nat) : 0 <= Q_of_nat n.
Proof.
  unfold Q_of_nat. change 0 with (inject_Z 0). rewrite <- Zle_Qle. lia.
Qed.

Lemma Q_of_nat_le (n m : nat) : (n <= m)%nat -> Q_of_nat n <= Q_of_nat m.
Proof.
  intros H. unfold Q_of_nat. rewrite <- Zle_Qle. lia.
Qed.

Lemma Q_of_nat_pos (n : nat) : (0 < n)%nat -> 0 < Q_of_nat n.
Proof.
  intros H. unfold Q_of_nat. change 0 with (inject_Z 0). rewrite <- Zlt_Qlt. lia.
Qed.

(** The running sum of [reduce] over scores within [0, 100]. *)
Lemma confidence_sum_bounds (l : list Analysis) (acc : Q) :
  (forall a c, In a l -> a_confidenceScore (a_fields a) = Some c ->
     0 <= c /\ c <= 100) ->
  acc <= fold_left (fun sum a => sum + default 0 (a_confidenceScore (a_fields a))) l acc
  /\ fold_left (fun sum a => sum + default 0 (a_confidenceScore (a_fields a))) l acc
     <= acc + 100 * Q_of_nat (List.length l).
Proof.
  revert acc. induction l as [| a l IH]; intros acc Hall; cbn [fold_left List.length].
  - change (Q_of_nat 0%nat) with 0. split; lra.
  - assert (Ha : 0 <= default 0 (a_confidenceScore (a_fields a))
                 /\ default 0 (a_confidenceScore (a_fields a)) <= 100).
    { destruct (a_confidenceScore (a_fields a)) as [c |] eqn:E; cbn.
      - apply (Hall a c); [now left | exact E].
      - split; lra. }
    destruct (IH (acc + default 0 (a_confidenceScore (a_fields a)))) as [Hlo Hhi].
    { intros b c Hb. apply Hall. now right. }
    rewrite Q_of_nat_S. split; lra.
Qed.

(** With a working database, the dashboard statistics count the completed
    analyses of the requester; the positive detection rate lies in
    [0, 100], and so does the average confidence when every stored
    confidence score does.  Without a completed analysis both are 0,
    nothing being divided by zero. *)
Theorem dashboard_stats_bounded (createdAt : Id -> Time) (thisMonthStart : Time)
    (user : Id) (flt : Faults) (st : Store) :
  flt 0%nat = false -> flt 1%nat = false ->
  (forall id f c, analyses st !! id = Some f -> a_confidenceScore f = Some c ->
     0 <= c /\ c <= 100) ->
  exists stats,
    getDashboardStats createdAt thisMonthStart user flt st = (Ok stats, st)
    /\ totalAnalyses stats
       = List.length
           (List.filter (fun a => owned_by user a && is_completed a) (Analysis_docs st))
    /\ (0 <= averageConfidence stats /\ averageConfidence stats <= 100)
    /\ (0 <= positiveDetectionRate stats /\ positiveDetectionRate stats <= 100)
    /\ (totalAnalyses stats = 0%nat ->
        averageConfidence stats == 0 /\ positiveDetectionRate stats == 0).
Proof.
  intros H0 H1 Hbound.
  unfold getDashboardStats, getDashboardStats_body, run_handler, db_bind, db_ret,
    Analysis_find, Analysis_countDocuments, db_call.
  cbn [db calls fst snd]. rewrite H0. cbn [db calls fst snd]. rewrite H1.
  cbn [db calls fst snd].
  set (all := List.filter (fun a => owned_by user a && is_completed a) (Analysis_docs st)).
  eexists. split; [reflexivity |].
  cbn [totalAnalyses averageConfidence positiveDetectionRate].
  split; [reflexivity |].
  assert (Hall : forall a c, In a all -> a_confidenceScore (a_fields a) = Some c ->
            0 <= c /\ c <= 100).
  { intros a c Ha Hc. apply List.filter_In in Ha. destruct Ha as [Ha _].
    apply In_Analysis_docs in Ha. exact (Hbound _ _ c Ha Hc). }
  destruct (confidence_sum_bounds all 0 Hall) as [Hlo Hhi].
  pose proof (List.filter_length_le positive_detection all) as Hpos.
  apply Q_of_nat_le in Hpos.
  pose proof (Q_of_nat_nonneg (List.length (List.filter positive_detection all))) as Hp0.
  destruct (Nat.ltb_spec 0 (List.length all)) as [Hn | Hn].
  - pose proof (Q_of_nat_pos _ Hn) as Hq.
    split; [| split; [| intros E; lia]].
    + apply round1_percent.
      * apply Qle_shift_div_l; [exact Hq | lra].
      * apply Qle_shift_div_r; [exact Hq | lra].
    + apply round1_percent.
      * apply Qmult_le_0_compat; [| lra].
        apply Qle_shift_div_l; [exact Hq | lra].
      * assert (Hr : Q_of_nat (List.length (List.filter positive_detection all))
                     / Q_of_nat (List.length all) <= 1).
        { apply Qle_shift_div_r; [exact Hq | lra]. }
        lra.
  - split; [split; vm_compute; discriminate |].
    split; [split; vm_compute; discriminate |].
    intros _. split; reflexivity.
Qed.

Local Close Scope Q_scope.

Lemma finished_bounded : store_bounded (store finished).
Proof.
  unfold finished, started, uploaded, run. cbn [fold_left].
  apply step_bounded.
  { split; [exact always_half_range |]. intros path r H. discriminate H. }
  apply step_bounded; [exact I |]. apply step_bounded; [exact I |].
  split; [| constructor]. intros id f c Hf. cbn in Hf.
  rewrite lookup_empty in Hf. discriminate.
Qed.

Lemma dashboard_stats_bounded_witness :
  no_faults 0 = false /\ no_faults 1 = false
  /\ (forall id f c, analyses (store finished) !! id = Some f ->
        a_confidenceScore f = Some c -> (0 <= c /\ c <= 100)%Q)
  /\ exists stats,
       getDashboardStats (fun id => id) 0 7 no_faults (store finished)
       = (Ok stats, store finished)
       /\ totalAnalyses stats = 1
       /\ averageConfidence stats = (910 # 10)%Q
       /\ positiveDetectionRate stats = (1000 # 10)%Q
       /\ (0 <= averageConfidence stats /\ averageConfidence stats <= 100)%Q.
Proof.
  pose proof (proj1 finished_bounded) as Hb.
  split; [reflexivity |]. split; [reflexivity |]. split; [exact Hb |].
  destruct (dashboard_stats_bounded (fun id => id) 0 7 no_faults (store finished)
              eq_refl eq_refl Hb) as (stats & Hget & _ & Havg & _).
  exists stats. split; [exact Hget |].
  assert (E : fst (getDashboardStats (fun id => id) 0 7 no_faults (store finished))
              = Ok stats) by now rewrite Hget.
  vm_compute in E. injection E as <-.
  split; [reflexivity |]. split; [reflexivity |]. split; [reflexivity |].
  split; vm_compute; discriminate.
Defined.

(** ** The disease distribution *)

Lemma Map_get_set (m : list (string * nat)) (k k' : string) (v : nat) :
  Map_get (Map_set m k v) k' = if String.eqb k k' then Some v else Map_get m k'.
Proof.
  induction m as [| [k0 v0] m IH]; cbn [Map_set Map_get].
  - reflexivity.
  - destruct (String.eqb_spec k0 k) as [-> | Hne]; cbn [Map_get].
    + destruct (String.eqb k k'); reflexivity.
    + rewrite IH. destruct (String.eqb_spec k0 k') as [-> | Hne'].
      * destruct (String.eqb_spec k k') as [-> | _]; [contradiction | reflexivity].
      * reflexivity.
Qed.

Lemma Map_get_In (m : list (string * nat)) (k : string) (v : nat) :
  Map_get m k = Some v -> In (k, v) m.
Proof.
  induction m as [| [k0 v0] m IH]; cbn [Map_get]; [discriminate |].
  destruct (String.eqb_spec k0 k) as [-> | _].
  - intros [= <-]. now left.
  - intros H. right. now apply IH.
Qed.

Lemma Map_get_None (m : list (string * nat)) (k : string) :
  Map_get m k = None -> ~ In k (map fst m).
Proof.
  induction m as [| [k0 v0] m IH]; cbn [Map_get map fst]; [auto |].
  destruct (String.eqb_spec k0 k) as [-> | Hne]; [discriminate |].
  intros H [E | Hin]; [contradiction | now apply IH].
Qed.

Lemma In_Map_get (m : list (string * nat)) (k : string) (v : nat) :
  NoDup (map fst m) -> In (k, v) m -> Map_get m k = Some v.
Proof.
  induction m as [| [k0 v0] m IH]; cbn [Map_get map fst]; [intros _ [] |].
  intros Hnd. apply NoDup_cons in Hnd. destruct Hnd as [Hk0 Hnd].
  intros [[= -> ->] | Hin].
  - now rewrite String.eqb_refl.
  - destruct (String.eqb_spec k0 k) as [-> | _]; [| now apply IH].
    exfalso. apply Hk0, list_elem_of_In, in_map_iff. now exists (k, v).
Qed.

Lemma Map_set_keys (m : list (string * nat)) (k : string) (v : nat) :
  map fst (Map_set m k v)
  = match Map_get m k with
    | Some _ => map fst m
    | None => (map fst m ++ [k])%list
    end.
Proof.
  induction m as [| [k0 v0] m IH]; cbn [Map_set Map_get map fst app]; [reflexivity |].
  destruct (String.eqb_spec k0 k) as [-> | Hne]; cbn [map fst]; [reflexivity |].
  rewrite IH. destruct (Map_get m k); reflexivity.
Qed.

Lemma Map_set_NoDup (m : list (string * nat)) (k : string) (v : nat) :
  NoDup (map fst m) -> NoDup (map fst (Map_set m k v)).
Proof.
  intros Hnd. rewrite Map_set_keys. destruct (Map_get m k) eqn:E; [exact Hnd |].
  apply NoDup_app. split; [exact Hnd |]. split.
  - intros x Hx Hk. apply list_elem_of_In in Hk. destruct Hk as [<- | []].
    apply list_elem_of_In in Hx. exact (Map_get_None m k E Hx).
  - apply NoDup_singleton.
Qed.

Lemma list_sum_cons (x : nat) (l : list nat) : list_sum (x :: l) = x + list_sum l.
Proof. reflexivity. Qed.

Lemma Map_set_sum (m : list (string * nat)) (k : string) :
  list_sum (map snd (Map_set m k (default 0 (Map_get m k) + 1)))
  = list_sum (map snd m) + 1.
Proof.
  induction m as [| [k0 v0] m IH]; cbn [Map_set Map_get]; [reflexivity |].
  destruct (String.eqb_spec k0 k) as [-> | Hne];
    cbn [map snd default from_option id]; rewrite !list_sum_cons; [lia |].
  rewrite IH. lia.
Qed.

Lemma occurrences_cons (d : string) (a : Analysis) (l : list Analysis) :
  occurrences d (a :: l)
  = (if String.eqb (disease_or_unknown a) d then 1 else 0) + occurrences d l.
Proof.
  unfold occurrences. cbn [List.filter].
  destruct (String.eqb (disease_or_unknown a) d); reflexivity.
Qed.

(** The [Map] after [forEach], from any starting [Map]. *)
Lemma tally_spec (l : list Analysis) (m0 : list (string * nat)) :
  let m := fold_left tally_disease l m0 in
  (NoDup (map fst m0) -> NoDup (map fst m))
  /\ (forall d, default 0 (Map_get m d) = default 0 (Map_get m0 d) + occurrences d l)
  /\ (forall d, Map_get m d = None -> Map_get m0 d = None)
  /\ list_sum (map snd m) = list_sum (map snd m0) + List.length l.
Proof.
  revert m0. induction l as [| a l IH]; intros m0; cbn [fold_left List.length].
  - split; [auto |]. split; [| split; [auto | lia]].
    intros d. unfold occurrences. cbn [List.filter List.length]. lia.
  - destruct (IH (tally_disease m0 a)) as (Hnd & Hget & Hnone & Hsum).
    unfold tally_disease in *.
    repeat split.
    + intros H0. apply Hnd. now apply Map_set_NoDup.
    + intros d. rewrite Hget, Map_get_set, occurrences_cons.
      destruct (String.eqb_spec (disease_or_unknown a) d) as [-> | _];
        cbn [default from_option id]; lia.
    + intros d Hd. apply Hnone in Hd. rewrite Map_get_set in Hd.
      destruct (String.eqb (disease_or_unknown a) d); [discriminate | exact Hd].
    + rewrite Hsum, Map_set_sum. lia.
Qed.

Lemma list_sum_Permutation (l l' : list nat) :
  Permutation l l' -> list_sum l = list_sum l'.
Proof.
  induction 1; rewrite ?list_sum_cons; lia.
Qed.

Local Open Scope Q_scope.

(** With a working database, the disease distribution has one entry per
    disease label found among the requester's completed analyses with a
    detection: each label once, with the number of those analyses as its
    count, a percentage in [0, 100], the counts adding up to the number of
    analyses, and the entries in descending order of count.  Without such
    an analysis it is empty. *)
Theorem disease_distribution_counts (user : Id) (flt : Faults) (st : Store) :
  flt 0%nat = false ->
  let docs := List.filter (has_detection user) (Analysis_docs st) in
  exists result,
    getDiseaseDistribution user flt st = (Ok result, st)
    /\ NoDup (map ds_disease result)
    /\ (forall e, In e result ->
          ds_count e = occurrences (ds_disease e) docs
          /\ (0 < ds_count e)%nat
          /\ 0 <= ds_percentage e /\ ds_percentage e <= 100)
    /\ (forall d, (0 < occurrences d docs)%nat ->
          exists e, In e result /\ ds_disease e = d)
    /\ list_sum (map ds_count result) = List.length docs
    /\ StronglySorted (fun a b => (ds_count b <= ds_count a)%nat) result
    /\ (docs = [] -> result = []).
Proof.
  intros H0 docs.
  assert (Hbody : getDiseaseDistribution user flt st = (Ok (disease_distribution docs), st)).
  { unfold getDiseaseDistribution, getDiseaseDistribution_body, run_handler, db_bind,
      db_ret, Analysis_find, db_call. cbn [db calls fst snd]. rewrite H0.
    cbn [db calls fst snd]. fold docs.
    destruct docs as [| a l]; reflexivity. }
  exists (disease_distribution docs). split; [exact Hbody |].
  unfold disease_distribution.
  set (m := fold_left tally_disease docs []).
  destruct (tally_spec docs []) as (Hnd & Hget & Hnone & Hsum). fold m in Hnd, Hget, Hnone, Hsum.
  specialize (Hnd (NoDup_nil_2)).
  set (mk := fun entry : string * nat =>
               {| ds_disease := fst entry; ds_count := snd entry;
                  ds_percentage :=
                    inject_Z (Math_round (Q_of_nat (snd entry)
                                          / Q_of_nat (List.length docs) * 100 * 10)) / 10 |}).
  assert (Hentry : forall e, In e (js_sort by_count_desc (map mk m)) ->
            exists d c, In (d, c) m /\ e = mk (d, c)).
  { intros e He. apply js_sort_In, in_map_iff in He.
    destruct He as ([d c] & <- & Hin). eauto. }
  split; [| split; [| split; [| split; [| split]]]].
  - rewrite (Permutation_map ds_disease (js_sort_perm by_count_desc (map mk m))).
    rewrite map_map. exact Hnd.
  - intros e He. destruct (Hentry e He) as (d & c & Hin & ->).
    cbn [mk ds_count ds_disease ds_percentage fst snd].
    pose proof (In_Map_get m d c Hnd Hin) as Hg.
    pose proof (Hget d) as Hc. rewrite Hg in Hc. cbn [default from_option id Map_get] in Hc.
    assert (Hpos : (0 < c)%nat).
    { destruct c as [| c]; [| lia]. exfalso.
      clear -Hin. subst m. revert Hin.
      assert (Hgen : forall l m0, (forall k v, In (k, v) m0 -> (0 < v)%nat) ->
                forall k v, In (k, v) (fold_left tally_disease l m0) -> (0 < v)%nat).
      { induction l as [| a l IH]; intros m0 Hm0; cbn [fold_left]; [exact Hm0 |].
        apply IH. intros k v Hkv. unfold tally_disease in Hkv.
        induction m0 as [| [k0 v0] m0 IHm]; cbn [Map_set Map_get] in Hkv.
        - destruct Hkv as [[= <- <-] | []]. cbn. lia.
        - destruct (String.eqb k0 (disease_or_unknown a)) eqn:E.
          + destruct Hkv as [[= <- <-] | Hkv]; [cbn; lia |].
            apply (Hm0 k v). now right.
          + destruct Hkv as [[= <- <-] | Hkv]; [apply (Hm0 k0 v0); now left |].
            apply IHm; [| exact Hkv]. intros k' v' H'. apply (Hm0 k' v'). now right. }
      intros Hin. pose proof (Hgen docs [] (fun k v H => match H with end) d 0%nat Hin).
      lia. }
    split; [lia |]. split; [exact Hpos |].
    assert (Hle : (c <= List.length docs)%nat).
    { rewrite Hc. unfold occurrences. apply List.filter_length_le. }
    assert (Hq : 0 < Q_of_nat (List.length docs)) by (apply Q_of_nat_pos; lia).
    pose proof (Q_of_nat_nonneg c) as Hc0. pose proof (Q_of_nat_le _ _ Hle) as Hc1.
    assert (Hr : 0 <= Q_of_nat c / Q_of_nat (List.length docs)
                 /\ Q_of_nat c / Q_of_nat (List.length docs) <= 1).
    { split; [apply Qle_shift_div_l | apply Qle_shift_div_r]; lra. }
    change (inject_Z (Math_round (Q_of_nat c / Q_of_nat (List.length docs) * 100 * 10)) / 10)
      with (round1 (Q_of_nat c / Q_of_nat (List.length docs) * 100)).
    apply round1_percent; lra.
  - intros d Hd. pose proof (Hget d) as Hc. cbn [default from_option id Map_get] in Hc.
    destruct (Map_get m d) as [c |] eqn:Hg; [| cbn in Hc; lia].
    exists (mk (d, c)). split; [| reflexivity].
    apply js_sort_In, in_map_iff. exists (d, c). split; [reflexivity |].
    now apply Map_get_In.
  - rewrite (list_sum_Permutation _ _
               (Permutation_map ds_count (js_sort_perm by_count_desc (map mk m)))).
    rewrite map_map.
    transitivity (list_sum (map snd m)); [reflexivity | rewrite Hsum; reflexivity].
  - assert (Hord : ordered_by by_count_desc (js_sort by_count_desc (map mk m))).
    { apply js_sort_ordered; unfold by_count_desc.
      - intros a b. rewrite Nat.ltb_lt, Nat.ltb_ge. lia.
      - intros a b c. rewrite !Nat.ltb_ge. lia. }
    revert Hord. apply ordered_by_sorted. unfold by_count_desc.
    intros a b Hab. now apply Nat.ltb_ge in Hab.
  - intros E. subst m. rewrite E. reflexivity.
Qed.

Local Close Scope Q_scope.

Lemma disease_distribution_counts_witness :
  let two := run [Create 7 (Some "uploads/img-2.png") no_faults;
                  Process 7 1 no_faults;
                  Timeout 0 python_absent always_half 6 no_faults;
                  Create 7 (Some "uploads/img-3.png") no_faults;
                  Process 7 2 no_faults;
                  Timeout 0 python_absent always_quarter 7 no_faults] finished in
  no_faults 0 = false
  /\ exists result,
       getDiseaseDistribution 7 no_faults (store two) = (Ok result, store two)
       /\ map (fun e => (ds_disease e, ds_count e)) result
          = [("Chronic Lymphocytic Leukemia", 2); ("Babesia", 1)]
       /\ list_sum (map ds_count result) = 3
       /\ NoDup (map ds_disease result).
Proof.
  intros two. split; [reflexivity |].
  destruct (disease_distribution_counts 7 no_faults (store two) eq_refl)
    as (result & Hget & Hnd & _ & _ & Hsum & _).
  exists result. split; [exact Hget |].
  assert (E : fst (getDiseaseDistribution 7 no_faults (store two)) = Ok result)
    by now rewrite Hget.
  split; [| split; [| exact Hnd]].
  - vm_compute in E. injection E as <-. reflexivity.
  - rewrite Hsum. reflexivity.
Defined.

(** ** Refused requests and failed recoveries *)

(** A request that is not accepted writes nothing.  [createAnalysis]
    answers 400 for a missing or empty image URL whatever the database
    does, and whenever it answers anything but 201 the collections are as
    before; whenever [processAnalysis] answers anything but 200 the
    collections are as before and no callback is scheduled. *)
Theorem refused_requests_write_nothing (user id : Id) (imageUrl : option string)
    (flt : Faults) (st : Store) :
  (imageUrl = None \/ imageUrl = Some "" ->
   fst (createAnalysis user imageUrl flt st)
   = {| code := 400; body := Message "Image URL is required" |})
  /\ (code (fst (createAnalysis user imageUrl flt st)) <> 201 ->
      snd (createAnalysis user imageUrl flt st) = st)
  /\ (code (fst (fst (processAnalysis user id flt st))) <> 200 ->
      snd (processAnalysis user id flt st) = st
      /\ snd (fst (processAnalysis user id flt st)) = None).
Proof.
  split; [intros [-> | ->]; reflexivity |]. split.
  - handler_unfold. destruct (falsy imageUrl); cbn [db calls fst snd]; [reflexivity |].
    destruct (flt 0); cbn [db calls fst snd code]; [reflexivity |].
    intros H. contradiction.
  - handler_unfold. destruct (flt 0); cbn [db calls fst snd]; [auto |].
    destruct (analyses st !! id) as [f |] eqn:Hf;
      cbn [fmap option_fmap option_map db calls fst snd]; [| auto].
    destruct (negb _); cbn [db calls fst snd]; [auto |].
    destruct (flt 1); cbn [db calls fst snd]; [auto |].
    cbn [a_id set_status]. rewrite Hf. cbn [db calls fst snd code].
    intros H. contradiction.
Qed.

Lemma refused_requests_write_nothing_witness :
  (Some "" = None \/ Some "" = Some "")
  /\ code (fst (createAnalysis 7 (Some "") (fault_at 0) (store finished))) <> 201
  /\ code (fst (fst (processAnalysis 7 0 (fault_at 1) (store finished)))) <> 200
  /\ fst (createAnalysis 7 (Some "") (fault_at 0) (store finished))
     = {| code := 400; body := Message "Image URL is required" |}
  /\ snd (createAnalysis 7 (Some "") (fault_at 0) (store finished)) = store finished
  /\ snd (processAnalysis 7 0 (fault_at 1) (store finished)) = store finished
  /\ snd (fst (processAnalysis 7 0 (fault_at 1) (store finished))) = None.
Proof.
  assert (H1 : Some "" = None \/ Some "" = Some "") by (right; reflexivity).
  assert (H2 : code (fst (createAnalysis 7 (Some "") (fault_at 0) (store finished)))
               <> 201) by (vm_compute; lia).
  assert (H3 : code (fst (fst (processAnalysis 7 0 (fault_at 1) (store finished))))
               <> 200) by (vm_compute; lia).
  destruct (refused_requests_write_nothing 7 0 (Some "") (fault_at 0) (store finished))
    as (Ha & Hb & _).
  destruct (refused_requests_write_nothing 7 0 (Some "") (fault_at 1) (store finished))
    as (_ & _ & Hc).
  destruct (Hc H3) as [Hc1 Hc2].
  split; [exact H1 |]. split; [exact H2 |]. split; [exact H3 |].
  split; [exact (Ha H1) |]. split; [exact (Hb H2) |]. split; assumption.
Defined.

(** When a write of the completion sequence throws and the save of the
    recovery throws as well, no notification is written at all; if the
    first save had succeeded, the Analysis stays [completed], with the
    detail rows written so far. *)
Theorem completion_recovery_failure (t : Task) (execPromise : InferenceRuntime)
    (rnd : RandomSource) (now : Time) (st : Store) (flt : Faults) (k : nat) :
  is_Some (analyses st !! a_id (t_analysis t)) ->
  k < 4 ->
  (forall j, j < k -> flt j = false) ->
  flt k = true ->
  flt (k + 1) = true ->
  let id := a_id (t_analysis t) in
  let r := obtain_results execPromise rnd (a_imageUrl (a_fields (t_analysis t))) in
  let st' := run_completion t execPromise rnd now flt st in
  notifications st' = notifications st
  /\ (k = 0 -> st' = st)
  /\ (1 <= k ->
      analyses st' !! id = Some (a_fields (set_results r now (t_analysis t)))
      /\ a_status (a_fields (set_results r now (t_analysis t))) = completed)
  /\ classifications st'
     = (classifications st ++ (if 2 <=? k then classification_docs id r else []))%list
  /\ cellCountRows st'
     = (cellCountRows st ++ (if 3 <=? k then cellCount_docs id r else []))%list.
Proof.
  intros [stored Hstored] Hk Hbefore Hat Hrec id r st'. subst st'.
  destruct k as [| [| [| [| k]]]]; [| | | | lia]; cbn [Nat.add] in Hrec.
  - db_unfold. repeat db_step. rewrite !app_nil_r.
    repeat split; first [reflexivity | lia].
  - pose proof (Hbefore 0 ltac:(lia)) as H0.
    db_unfold. repeat db_step. rewrite !app_nil_r.
    repeat split;
      first [reflexivity | lia | intros _; split; [apply lookup_insert_eq | reflexivity]].
  - pose proof (Hbefore 0 ltac:(lia)) as H0. pose proof (Hbefore 1 ltac:(lia)) as H1.
    db_unfold. repeat db_step. rewrite !app_nil_r.
    repeat split;
      first [reflexivity | lia | intros _; split; [apply lookup_insert_eq | reflexivity]].
  - pose proof (Hbefore 0 ltac:(lia)) as H0. pose proof (Hbefore 1 ltac:(lia)) as H1.
    pose proof (Hbefore 2 ltac:(lia)) as H2.
    db_unfold. repeat db_step.
    repeat split;
      first [reflexivity | lia | intros _; split; [apply lookup_insert_eq | reflexivity]].
Qed.

Lemma completion_recovery_failure_witness :
  let flt := fun j => Nat.eqb j 1 || Nat.eqb j 2 in
  exists t,
    timers started !! 0 = Some t
    /\ is_Some (analyses (store started) !! a_id (t_analysis t))
    /\ 1 < 4
    /\ (forall j, j < 1 -> flt j = false)
    /\ flt 1 = true /\ flt (1 + 1) = true
    /\ status_of (step (Timeout 0 python_absent always_half 5 flt) started) 0
       = Some completed
    /\ notifications (store (step (Timeout 0 python_absent always_half 5 flt) started))
       = []
    /\ classifications (store (step (Timeout 0 python_absent always_half 5 flt) started))
       = [].
Proof.
  intros flt.
  destruct (timers started !! 0) as [t |] eqn:Ht; [| vm_compute in Ht; discriminate].
  assert (Hid : a_id (t_analysis t) = 0).
  { vm_compute in Ht. injection Ht as <-. reflexivity. }
  assert (Hs : is_Some (analyses (store started) !! a_id (t_analysis t))).
  { rewrite Hid. vm_compute. eauto. }
  assert (Hb : forall j, j < 1 -> flt j = false).
  { intros j Hj. assert (j = 0) by lia. subst j. reflexivity. }
  exists t. split; [reflexivity |]. split; [exact Hs |]. split; [lia |].
  split; [exact Hb |]. split; [reflexivity |]. split; [reflexivity |].
  destruct (completion_recovery_failure t python_absent always_half 5 (store started)
              flt 1 Hs ltac:(lia) Hb eq_refl eq_refl)
    as (Hn & _ & Hc & Hdc & _).
  cbn [step]. rewrite Ht. cbn [store]. unfold status_of. cbn [store].
  destruct (Hc ltac:(lia)) as [Ha Hst]. rewrite Hid in Ha.
  rewrite Ha, Hn, Hdc. cbn [fmap option_fmap option_map]. rewrite Hst.
  repeat split.
Defined.

(** ** What the completion stores *)

Lemma filter_own_rows {A B} (owner : B -> Id) (mk : A -> B) (id : Id)
    (rows : list A) :
  (forall x, owner (mk x) = id) ->
  List.filter (fun row => Nat.eqb (owner row) id) (map mk rows) = map mk rows.
Proof.
  intros Hown. induction rows as [| x rows IH]; cbn [map List.filter]; [reflexivity |].
  now rewrite Hown, Nat.eqb_refl, IH.
Qed.

(** What the callback leaves when no write throws, by the lists the reply
    has. *)
Lemma completion_of_reply_store (t : Task) (reply : InferenceReply)
    (now : Time) (st : Store) (stored : AnalysisFields) (flt : Faults) :
  analyses st !! a_id (t_analysis t) = Some stored ->
  flt 0 = false -> flt 1 = false -> flt 2 = false -> flt 3 = false ->
  run_completion_of_reply t reply now flt st
  = let id := a_id (t_analysis t) in
    let analysis := set_results (fields_of reply) now (t_analysis t) in
    match reply_diseaseClassifications reply, reply_cellCounts reply with
    | Some rows, Some rows' =>
        {| analyses := <[id := a_fields analysis]> (analyses st);
           nextId := nextId st;
           classifications :=
             classifications st
             ++ map (fun dc => {| dc_analysisId := id; dc_row := dc |}) rows;
           cellCountRows :=
             cellCountRows st
             ++ map (fun cc => {| cc_analysisId := id; cc_row := cc |}) rows';
           notifications :=
             notifications st
             ++ [success_notification (t_user t) (fields_of reply) id] |}
    | Some rows, None =>
        {| analyses := <[id := a_fields (set_status failed analysis)]> (analyses st);
           nextId := nextId st;
           classifications :=
             classifications st
             ++ map (fun dc => {| dc_analysisId := id; dc_row := dc |}) rows;
           cellCountRows := cellCountRows st;
           notifications := notifications st ++ [error_notification (t_user t) id] |}
    | None, _ =>
        {| analyses := <[id := a_fields (set_status failed analysis)]> (analyses st);
           nextId := nextId st;
           classifications := classifications st;
           cellCountRows := cellCountRows st;
           notifications := notifications st ++ [error_notification (t_user t) id] |}
    end.
Proof.
  intros Hstored H0 H1 H2 H3. cbv zeta.
  unfold run_completion_of_reply, completion_of_reply, completion_try_reply, db_throw.
  destruct (reply_diseaseClassifications reply) as [rows |];
    [destruct (reply_cellCounts reply) as [rows' |] |];
    db_unfold; repeat db_step; rewrite ?insert_insert_eq; reflexivity.
Qed.

(** On a complete result the callback on replies is the callback that a
    timer runs, whatever faults occur. *)
Lemma completion_of_complete_reply (t : Task) (r : AiResults) (now : Time) :
  completion_of_reply t (reply_of r) now
  = db_try (completion_try t r (set_results r now (t_analysis t)))
      (completion_catch t (set_results r now (t_analysis t))).
Proof. reflexivity. Qed.

(** When no write throws, the callback stores the six fields of the result
    it obtained and the time on the Analysis, whose owner and image stay.
    A result with both lists leaves the Analysis completed, its rows,
    however many and whatever their labels, appended as the detail rows,
    and one success notification that names the stored disease.  A result
    without [diseaseClassifications] leaves the Analysis failed, with no
    new row and one error notification; a result with
    [diseaseClassifications] and without [cellCounts] leaves it failed with
    the classification rows appended and one error notification.  On a
    complete result this callback is the one the transition system runs,
    under every fault pattern, and after a successful inference the
    result is the script's, the random source playing no part. *)
Theorem completion_stores_result_as_obtained (t : Task) (reply : InferenceReply)
    (now : Time) (st : Store) (flt : Faults) :
  is_Some (analyses st !! a_id (t_analysis t)) ->
  (forall k, k < 4 -> flt k = false) ->
  let id := a_id (t_analysis t) in
  let st' := run_completion_of_reply t reply now flt st in
  (exists f, analyses st' !! id = Some f
     /\ a_diseaseDetected f = Some (reply_diseaseDetected reply)
     /\ a_confidenceScore f = Some (reply_confidenceScore reply)
     /\ a_rbcCount f = Some (reply_rbcCount reply)
     /\ a_wbcCount f = Some (reply_wbcCount reply)
     /\ a_plateletCount f = Some (reply_plateletCount reply)
     /\ a_analysisNotes f = Some (reply_analysisNotes reply)
     /\ a_completedAt f = Some now
     /\ a_userId f = a_userId (a_fields (t_analysis t))
     /\ a_imageUrl f = a_imageUrl (a_fields (t_analysis t)))
  /\ (forall rows rows',
        reply_diseaseClassifications reply = Some rows ->
        reply_cellCounts reply = Some rows' ->
        (a_status <$> analyses st' !! id) = Some completed
        /\ map dc_row (classifications_of st' id)
           = (map dc_row (classifications_of st id) ++ rows)%list
        /\ map cc_row (cellCounts_of st' id)
           = (map cc_row (cellCounts_of st id) ++ rows')%list
        /\ notifications st'
           = (notifications st
              ++ [{| n_userId := t_user t;
                     n_title := "Analysis Complete";
                     n_message :=
                       "Your blood smear analysis is complete. Disease detected: "
                       ++ reply_diseaseDetected reply;
                     n_type := success;
                     n_analysisId := Some id |}])%list)
  /\ (forall rows,
        reply_diseaseClassifications reply = Some rows ->
        reply_cellCounts reply = None ->
        (a_status <$> analyses st' !! id) = Some failed
        /\ map dc_row (classifications_of st' id)
           = (map dc_row (classifications_of st id) ++ rows)%list
        /\ cellCountRows st' = cellCountRows st
        /\ notifications st'
           = (notifications st ++ [error_notification (t_user t) id])%list)
  /\ (reply_diseaseClassifications reply = None ->
      (a_status <$> analyses st' !! id) = Some failed
      /\ classifications st' = classifications st
      /\ cellCountRows st' = cellCountRows st
      /\ notifications st'
         = (notifications st ++ [error_notification (t_user t) id])%list)
  /\ (forall execPromise rnd,
        let r := obtain_results execPromise rnd
                   (a_imageUrl (a_fields (t_analysis t))) in
        (forall flt',
           run_completion_of_reply t (reply_of r) now flt' st
           = run_completion t execPromise rnd now flt' st)
        /\ (forall r0,
              execPromise (a_imageUrl (a_fields (t_analysis t))) = Parsed true r0 ->
              r = r0)).
Proof.
  intros [stored Hstored] Hflt id st'. subst st'.
  rewrite (completion_of_reply_store t reply now st stored flt Hstored)
    by (apply Hflt; lia).
  cbv zeta. fold id. unfold classifications_of, cellCounts_of.
  split.
  { destruct (reply_diseaseClassifications reply), (reply_cellCounts reply);
      cbn [analyses]; rewrite lookup_insert_eq; eexists;
      (split; [reflexivity |]); repeat split; reflexivity. }
  split.
  { intros rows rows' -> ->.
    cbn [analyses classifications cellCountRows notifications].
    rewrite lookup_insert_eq, !List.filter_app.
    rewrite (filter_own_rows dc_analysisId), (filter_own_rows cc_analysisId)
      by reflexivity.
    rewrite !map_app, !map_map. cbn [dc_row cc_row]. rewrite !map_id.
    repeat split; reflexivity. }
  split.
  { intros rows -> ->.
    cbn [analyses classifications cellCountRows notifications].
    rewrite lookup_insert_eq, !List.filter_app.
    rewrite (filter_own_rows dc_analysisId) by reflexivity.
    rewrite !map_app, !map_map. cbn [dc_row]. rewrite !map_id.
    repeat split; reflexivity. }
  split.
  { intros ->. cbn [analyses classifications cellCountRows notifications].
    rewrite lookup_insert_eq. repeat split; reflexivity. }
  intros execPromise rnd. split.
  - intros flt'. unfold run_completion_of_reply, run_completion, completion.
    now rewrite completion_of_complete_reply.
  - intros r0 Hr0. unfold obtain_results, runAIInference. now rewrite Hr0.
Qed.

Lemma completion_stores_result_as_obtained_witness :
  exists t,
    timers started !! 0 = Some t
    /\ is_Some (analyses (store started) !! a_id (t_analysis t))
    /\ (forall k, k < 4 -> no_faults k = false)
    /\ reply_diseaseClassifications reply_without_lists = None
    /\ (let st' := run_completion_of_reply t reply_without_lists 5 no_faults
                     (store started) in
        (a_status <$> analyses st' !! 0) = Some failed
        /\ (a_diseaseDetected <$> analyses st' !! 0) = Some (Some "Anemia")
        /\ classifications st' = []
        /\ map n_type (notifications st') = [error]).
Proof.
  destruct (timers started !! 0) as [t |] eqn:Ht; [| vm_compute in Ht; discriminate].
  assert (Hid : a_id (t_analysis t) = 0).
  { vm_compute in Ht. injection Ht as <-. reflexivity. }
  assert (Hs : is_Some (analyses (store started) !! a_id (t_analysis t))).
  { rewrite Hid. vm_compute. eauto. }
  exists t. split; [reflexivity |]. split; [exact Hs |].
  split; [reflexivity |]. split; [reflexivity |].
  destruct (completion_stores_result_as_obtained t reply_without_lists 5
              (store started) no_faults Hs (fun _ _ => eq_refl))
    as ((f & Hf & Hd & _) & _ & _ & Hnone & _).
  destruct (Hnone eq_refl) as (Hst & Hdc & _ & Hn).
  cbv zeta. rewrite Hid in Hst, Hf. split; [exact Hst |]. split.
  { transitivity (a_diseaseDetected <$> Some f); [now f_equal |].
    cbn [fmap option_fmap option_map]. now rewrite Hd. }
  rewrite Hdc, Hn. split; reflexivity.
Defined.
